(** * kuduq-consumer: payment handlers, provider client and queue consumer

    A shallow embedding of
      - [chalicelib/rapydmoney.py]   (the payment provider client),
      - [chalicelib/parsemessage.py] (the typed envelopes and their registry),
      - [app.py]                     (the HTTP handlers and the queue consumer),
    followed by the properties of the specification that concern them.

    Python values that come out of [json.loads] are values of [json]; a
    [dict] is an association list in insertion order whose first binding of a
    key is the one [lookup] finds.  A [str] is a [string], and the case of
    its ASCII letters is the one [lower] and [upper] change.  Python [float]s
    are IEEE binary64 numbers, modelled by [spec_float] with precision 53 and
    exponent bound 1024; a [Decimal] is a sign, a coefficient and an exponent,
    or a special value.  Timeouts are whole seconds.

    Exceptions are values of [exn]; a computation that talks to the outside
    (the provider's REST interface, the mailer, the log, standard output)
    is a function from the events that happened so far to an outcome and the
    extended list of events.  The functions of the Python runtime and of
    pydantic whose text is not in the repository ([json.loads], the [Decimal]
    constructor, [str] of a float, [repr] of a string, the validation of an
    e-mail address and of a boolean) are the fields of a record, [PyLib]: the
    properties hold for every such library.  The models are validated as
    pydantic 2 does in its default mode: a [str] field accepts a string only,
    fields that no model declares are ignored, and a [Decimal] field refuses
    a value that is not finite. *)

From Stdlib Require Import ZArith List String Ascii Bool QArith Lia.
From Stdlib Require Import DecimalString.
From Stdlib Require Import Floats.SpecFloat.
Import ListNotations.

Local Open Scope string_scope.
Local Open Scope Z_scope.
Local Open Scope list_scope.

(** String concatenation, written apart from the append of lists. *)
Infix "@@" := String.append (at level 60, right associativity).

(** ** Strings *)

Definition is_upper (c : ascii) : bool :=
  let n := nat_of_ascii c in (Nat.leb 65 n && Nat.leb n 90)%bool.

Definition is_lower (c : ascii) : bool :=
  let n := nat_of_ascii c in (Nat.leb 97 n && Nat.leb n 122)%bool.

Definition lower_ascii (c : ascii) : ascii :=
  if is_upper c then ascii_of_nat (nat_of_ascii c + 32) else c.

Definition upper_ascii (c : ascii) : ascii :=
  if is_lower c then ascii_of_nat (nat_of_ascii c - 32) else c.

(** [str.lower()] and [str.upper()] on the ASCII letters. *)
Fixpoint lower (s : string) : string :=
  match s with
  | EmptyString => EmptyString
  | String c s' => String (lower_ascii c) (lower s')
  end.

Fixpoint upper (s : string) : string :=
  match s with
  | EmptyString => EmptyString
  | String c s' => String (upper_ascii c) (upper s')
  end.

(** [needle in s] for two strings. *)
Fixpoint contains (needle s : string) : bool :=
  (prefix needle s ||
   match s with
   | EmptyString => false
   | String _ s' => contains needle s'
   end)%bool.

(** [s.lstrip('/')] and [s.rstrip('/')]. *)
Fixpoint lstrip_slash (s : string) : string :=
  match s with
  | String c s' => if Ascii.eqb c "/" then lstrip_slash s' else s
  | EmptyString => EmptyString
  end.

Fixpoint rstrip_slash (s : string) : string :=
  match s with
  | EmptyString => EmptyString
  | String c s' =>
      match rstrip_slash s' with
      | EmptyString => if Ascii.eqb c "/" then EmptyString else String c EmptyString
      | r => String c r
      end
  end.

Fixpoint join (sep : string) (l : list string) : string :=
  match l with
  | [] => EmptyString
  | [x] => x
  | x :: rest => x @@ sep @@ join sep rest
  end.

Definition string_of_Z (z : Z) : string := NilZero.string_of_int (Z.to_int z).

(** ** Floats *)

Definition prec : Z := 53.
Definition emax : Z := 1024.

(** [float(n)] for an [int]: rounded to nearest even; the result is an
    infinity exactly when Python raises [OverflowError]. *)
Definition float_of_Z (n : Z) : spec_float := binary_normalize prec emax n 0 false.

Definition float_div (x y : spec_float) : spec_float := SFdiv prec emax x y.

Definition is_nan (f : spec_float) : bool :=
  match f with S754_nan => true | _ => false end.

Definition is_infinity (f : spec_float) : bool :=
  match f with S754_infinity _ => true | _ => false end.

(** ** JSON values *)

Set Warnings "-register-all".

Inductive json : Type :=
| JNull
| JBool (b : bool)
| JInt (n : Z)
| JFloat (f : spec_float)
| JStr (s : string)
| JList (l : list json)
| JDict (d : list (string * json)).

Fixpoint lookup {A : Type} (k : string) (d : list (string * A)) : option A :=
  match d with
  | [] => None
  | (k', v) :: rest => if String.eqb k k' then Some v else lookup k rest
  end.

Definition has_key {A : Type} (k : string) (d : list (string * A)) : bool :=
  match lookup k d with Some _ => true | None => false end.

(** [d.get(k)], with [None] when the key is absent. *)
Definition dict_get (k : string) (d : list (string * json)) : json :=
  match lookup k d with Some v => v | None => JNull end.

Definition dict_get_default (k : string) (d : list (string * json)) (dflt : json) : json :=
  match lookup k d with Some v => v | None => dflt end.

Definition is_dict (v : json) : bool :=
  match v with JDict _ => true | _ => false end.

Definition is_str (v : json) : bool :=
  match v with JStr _ => true | _ => false end.

(** [v == s] for a string literal [s]. *)
Definition eq_str (v : json) (s : string) : bool :=
  match v with JStr s' => String.eqb s' s | _ => false end.

(** Truth value of a Python object. *)
Definition truthy (v : json) : bool :=
  match v with
  | JNull => false
  | JBool b => b
  | JInt n => negb (n =? 0)
  | JFloat (S754_zero _) => false
  | JFloat _ => true
  | JStr s => negb (String.eqb s EmptyString)
  | JList l => match l with [] => false | _ => true end
  | JDict d => match d with [] => false | _ => true end
  end.

(** ** Decimals *)

(** A [decimal.Decimal]: sign, coefficient and exponent, or a special value. *)
Inductive Decimal : Type :=
| Dfinite (negative : bool) (coefficient : N) (exponent : Z)
| Dinfinity (negative : bool)
| Dnan.

Definition Decimal_zero : Decimal := Dfinite false 0%N 0.

Definition is_finite (d : Decimal) : bool :=
  match d with Dfinite _ _ _ => true | _ => false end.

(** ** The runtime library

    The functions of the Python runtime and of pydantic that the program
    calls and whose text is not part of the repository.  A decoder returns
    [None] where the Python function raises. *)
Record PyLib : Type := {
  json_loads : string -> option json;          (* json.loads *)
  Decimal_of_str : string -> option Decimal;   (* decimal.Decimal(s) *)
  str_of_float : spec_float -> string;         (* str(x) for a float x *)
  repr_str : string -> string;                 (* repr(s) for a str s *)
  validate_email : string -> option string;    (* pydantic EmailStr *)
  validate_bool : json -> option bool;         (* pydantic bool, lax mode *)
}.

(** ** Exceptions and outcomes *)

(** The messages of the [ValueError]s raised by [SqsModelRegistry.parse]. *)
Inductive value_error : Type :=
| MissingEventType                         (* "Missing 'eventType' in SQS message" *)
| UnknownEventType (shown : string)        (* "Unknown eventType: ..." *)
| NoModelRegistered (event : string)       (* "No model registered for eventType ..." *)
| FailedToParse (cls : string) (errors : list (list string * string)).
                                           (* "Failed to parse SQS message as ..." *)

Inductive exn : Type :=
| RapydMoneyAPIError (status_code : Z) (url : string) (body : option string)
                     (message : string)
| TypeError
| AttributeError
| KeyError
| OverflowError
| InvalidOperation                         (* decimal.InvalidOperation *)
| JSONDecodeError
| ValidationError (model : string) (errors : list (list string * string))
| ValueError (e : value_error)
| OtherError (what : string).              (* raised by a collaborator *)

Inductive outcome (A : Type) : Type :=
| Ok (a : A)
| Raise (e : exn).

Arguments Ok {A} a.
Arguments Raise {A} e.

(** ** Python operators on JSON values *)

Section Operators.

Variable lib : PyLib.

(** [repr(v)] and [str(v)]. *)
Fixpoint py_repr (v : json) : string :=
  match v with
  | JNull => "None"
  | JBool true => "True"
  | JBool false => "False"
  | JInt n => string_of_Z n
  | JFloat f => str_of_float lib f
  | JStr s => repr_str lib s
  | JList l => "[" @@ join ", " (map py_repr l) @@ "]"
  | JDict d =>
      "{" @@ join ", "
               (map (fun kv => match kv with
                               | (k, v') => repr_str lib k @@ ": " @@ py_repr v'
                               end) d)
          @@ "}"
  end.

Definition py_str (v : json) : string :=
  match v with
  | JStr s => s
  | _ => py_repr v
  end.

(** [key in v] for a string literal [key]. *)
Definition py_in (key : string) (v : json) : outcome bool :=
  match v with
  | JDict d => Ok (has_key key d)
  | JStr s => Ok (contains key s)
  | JList l => Ok (existsb (fun x => eq_str x key) l)
  | JNull | JBool _ | JInt _ | JFloat _ => Raise TypeError
  end.

(** [v[key]] for a string literal [key]. *)
Definition py_getitem (v : json) (key : string) : outcome json :=
  match v with
  | JDict d => match lookup key d with Some x => Ok x | None => Raise KeyError end
  | _ => Raise TypeError
  end.

(** [v.get(key, default)]: only a [dict] has the method. *)
Definition py_get (v : json) (key : string) (dflt : json) : outcome json :=
  match v with
  | JDict d => Ok (dict_get_default key d dflt)
  | _ => Raise AttributeError
  end.

(** [v / 100.0]. *)
Definition hundred : spec_float := float_of_Z 100.

Definition py_truediv_100 (v : json) : outcome spec_float :=
  match v with
  | JInt n =>
      let f := float_of_Z n in
      if is_infinity f then Raise OverflowError else Ok (float_div f hundred)
  | JBool b => Ok (float_div (float_of_Z (if b then 1 else 0)) hundred)
  | JFloat f => Ok (float_div f hundred)
  | JNull | JStr _ | JList _ | JDict _ => Raise TypeError
  end.

End Operators.

(** The exact value of a finite float and of a finite decimal. *)
Definition Q_of_float (f : spec_float) : Q :=
  match f with
  | S754_finite s m e =>
      Qmult (inject_Z (if s then Z.neg m else Z.pos m)) (Qpower (2 # 1) e)
  | _ => 0%Q
  end.

Definition Q_of_Decimal (d : Decimal) : Q :=
  match d with
  | Dfinite s c e =>
      Qmult (inject_Z (if s then Z.opp (Z.of_N c) else Z.of_N c)) (Qpower (10 # 1) e)
  | _ => 0%Q
  end.

Definition Qltb (a b : Q) : bool :=
  match Qcompare a b with Lt => true | _ => false end.

(** [d < f] for a [Decimal] and a [float]: the comparison is exact, and a NaN
    on either side raises [InvalidOperation]. *)
Definition Decimal_lt_float (d : Decimal) (f : spec_float) : outcome bool :=
  match d, f with
  | Dnan, _ => Raise InvalidOperation
  | _, S754_nan => Raise InvalidOperation
  | Dinfinity sd, S754_infinity sf => Ok (sd && negb sf)%bool
  | Dinfinity sd, _ => Ok sd
  | Dfinite _ _ _, S754_infinity sf => Ok (negb sf)
  | Dfinite _ _ _, _ => Ok (Qltb (Q_of_Decimal d) (Q_of_float f))
  end.

(** ** The outside world *)

(** What [requests.request] is called with. *)
Record http_request : Type := {
  rq_method : string;
  rq_url : string;
  rq_authorization : string;            (* the Authorization header *)
  rq_json : option json;                (* the [json=] body *)
  rq_timeout : Z;                       (* seconds *)
}.

(** What it answers: a [requests.RequestException], or a response with its
    status code, its text, and what [resp.json()] decodes ([None] where it
    raises [JSONDecodeError]).  [resp.content] is empty when the text is. *)
Inductive http_result : Type :=
| RequestException (what : string)
| Response (status_code : Z) (text : string) (decoded : option json).

(** The two high-level calls of [SMTPMailer] made by the queue consumer. *)
Inductive mail_call : Type :=
| send_welcome_email (to : string) (user_name : option string) (user_role : option string)
| send_magic_link_email (to : string) (magic_token : string) (link_url : option string).

Inductive log_level : Type := INFO | WARNING | ERROR.

Inductive event : Type :=
| Http (rq : http_request) (rs : http_result)
| Mail (call : mail_call) (res : outcome bool)
| Print (line : string)
| Log (level : log_level) (line : string) (exc : option exn).

Definition trace : Type := list event.

(** The environment of an invocation: the runtime library, the two
    environment variables read by the handlers, and the collaborators, whose
    answers may depend on everything that happened before. *)
Record Env : Type := {
  pylib : PyLib;
  RAPYD_MONEY_API_TOKEN : option string;
  RAPYD_MONEY_BASE_URL : option string;
  provider : trace -> http_request -> http_result;
  mailer : trace -> mail_call -> outcome bool;
}.

(** ** Computations *)

Definition M (A : Type) : Type := trace -> outcome A * trace.

Definition ret {A : Type} (a : A) : M A := fun tr => (Ok a, tr).

Definition raise {A : Type} (e : exn) : M A := fun tr => (Raise e, tr).

Definition bind {A B : Type} (m : M A) (f : A -> M B) : M B :=
  fun tr =>
    match m tr with
    | (Ok a, tr') => f a tr'
    | (Raise e, tr') => (Raise e, tr')
    end.

(** [try: m except Exception as exc: h exc]. *)
Definition try_except {A : Type} (m : M A) (h : exn -> M A) : M A :=
  fun tr =>
    match m tr with
    | (Ok a, tr') => (Ok a, tr')
    | (Raise e, tr') => h e tr'
    end.

Definition lift {A : Type} (o : outcome A) : M A := fun tr => (o, tr).

Definition emit (ev : event) : M unit := fun tr => (Ok tt, tr ++ [ev]).

Definition print (line : string) : M unit := emit (Print line).

Definition log (level : log_level) (line : string) (exc : option exn) : M unit :=
  emit (Log level line exc).

Declare Scope monad_scope.
Delimit Scope monad_scope with monad.

Notation "x <- m ;; k" := (bind m (fun x => k))
  (at level 61, m at next level, right associativity) : monad_scope.
Notation "m ;;; k" := (bind m (fun _ => k))
  (at level 61, right associativity) : monad_scope.

Local Open Scope monad_scope.

(** [requests.request(...)]: the provider answers and the exchange is recorded. *)
Definition requests_request (env : Env) (rq : http_request) : M http_result :=
  fun tr => let rs := provider env tr rq in (Ok rs, tr ++ [Http rq rs]).

Definition mailer_call (env : Env) (c : mail_call) : M bool :=
  fun tr => let r := mailer env tr c in (r, tr ++ [Mail c r]).

(** ** Schema validation (pydantic) *)

(** One validation error: the location of the field and the kind of error. *)
Definition verr : Type := (list string * string)%type.

Inductive validation (A : Type) : Type :=
| Valid (a : A)
| Invalid (errors : list verr).

Arguments Valid {A} a.
Arguments Invalid {A} errors.

(** Errors of all the fields of a model are collected, in field order. *)
Definition vap {A B : Type} (f : validation (A -> B)) (x : validation A) : validation B :=
  match f, x with
  | Valid g, Valid a => Valid (g a)
  | Valid _, Invalid e => Invalid e
  | Invalid e, Valid _ => Invalid e
  | Invalid e1, Invalid e2 => Invalid (e1 ++ e2)
  end.

Definition vmap {A B : Type} (f : A -> B) (x : validation A) : validation B :=
  match x with Valid a => Valid (f a) | Invalid e => Invalid e end.

Infix "<*>" := vap (at level 50, left associativity).

(** The errors of a field are located under the name of the field. *)
Definition under {A : Type} (field : string) (x : validation A) : validation A :=
  match x with
  | Valid a => Valid a
  | Invalid errs => Invalid (map (fun e => (field :: fst e, snd e)) errs)
  end.

Definition required {A : Type} (d : list (string * json)) (field : string)
           (check : json -> validation A) : validation A :=
  match lookup field d with
  | Some v => under field (check v)
  | None => Invalid [([field], "missing")]
  end.

(** [Optional[...] = None]: an absent field and an explicit [None] both give [None]. *)
Definition optional {A : Type} (d : list (string * json)) (field : string)
           (check : json -> validation A) : validation (option A) :=
  match lookup field d with
  | None | Some JNull => Valid None
  | Some v => under field (vmap Some (check v))
  end.

(** A field with an alias in a model that is also populated by field name. *)
Definition required_aliased {A : Type} (d : list (string * json)) (alias name : string)
           (check : json -> validation A) : validation A :=
  match lookup alias d with
  | Some v => under alias (check v)
  | None =>
      match lookup name d with
      | Some v => under alias (check v)
      | None => Invalid [([alias], "missing")]
      end
  end.

Definition v_str (v : json) : validation string :=
  match v with
  | JStr s => Valid s
  | _ => Invalid [([], "string_type")]
  end.

(** A model is validated from a [dict]. *)
Definition v_model {A : Type} (fields : list (string * json) -> validation A)
           (v : json) : validation A :=
  match v with
  | JDict d => fields d
  | _ => Invalid [([], "model_type")]
  end.

(** ** rapydmoney.py *)

Module RapydMoneyUser.

Record t : Type := {
  id : string;
  email : string;
  first_name : string;
  last_name : string;
  public_key : string;
  payment_identifier : string;
}.

Definition fields (d : list (string * json)) : validation t :=
  Valid Build_t
    <*> required d "id" v_str
    <*> required d "email" v_str
    <*> required_aliased d "firstName" "first_name" v_str
    <*> required_aliased d "lastName" "last_name" v_str
    <*> required_aliased d "publicKey" "public_key" v_str
    <*> required_aliased d "paymentIdentifier" "payment_identifier" v_str.

Definition from_api (data : json) : outcome t :=
  match v_model fields data with
  | Valid u => Ok u
  | Invalid errs => Raise (ValidationError "RapydMoneyUser" errs)
  end.

(** A model instance defines neither [__bool__] nor [__len__]. *)
Definition truthy (u : t) : bool := true.

End RapydMoneyUser.

Module RapydMoneyBalance.

(** Simple balance wrapper with two attributes: ZAR and USD. *)
Record t : Type := {
  zar : Decimal;
  usd : Decimal;
}.

(** Validation of the two [Decimal] fields: a value that is not finite is
    refused. *)
Definition model_validate (zar usd : Decimal) : outcome t :=
  match is_finite zar, is_finite usd with
  | true, true => Ok {| zar := zar; usd := usd |}
  | false, true => Raise (ValidationError "RapydMoneyBalance" [(["zar"], "finite_number")])
  | true, false => Raise (ValidationError "RapydMoneyBalance" [(["usd"], "finite_number")])
  | false, false =>
      Raise (ValidationError "RapydMoneyBalance"
               [(["zar"], "finite_number"); (["usd"], "finite_number")])
  end.

Section FromApi.

Variable lib : PyLib.

(** The body of the loop over the tokens, on the pair [(zar, usd)]. *)
Definition scan_token (acc : Decimal * Decimal) (t : json) : Decimal * Decimal :=
  match t with
  | JDict td =>
      let name := dict_get "name" td in
      let bal_raw := dict_get_default "balance" td (JStr "0") in
      let bal :=
        match Decimal_of_str lib (py_str lib bal_raw) with
        | Some b => b
        | None => Decimal_zero
        end in
      if eq_str name "L ZAR Coin" then (bal, snd acc)
      else if eq_str name "L USD Coin" then (fst acc, bal)
      else acc
  | _ => acc
  end.

(** The object that contains "tokens". *)
Definition tokens_source (data : json) : list (string * json) :=
  match data with
  | JDict d =>
      if has_key "tokens" d then d
      else
        match lookup "balance" d with
        | Some (JDict b) => b
        | _ => []
        end
  | _ => []
  end.

Definition from_api (data : json) : outcome t :=
  let src := tokens_source data in
  let tokens := dict_get_default "tokens" src (JList []) in
  let '(zar, usd) :=
    match tokens with
    | JList ts => fold_left scan_token ts (Decimal_zero, Decimal_zero)
    | _ => (Decimal_zero, Decimal_zero)
    end in
  model_validate zar usd.

End FromApi.

Definition truthy (b : t) : bool := true.

End RapydMoneyBalance.

Record RapydMoneyService : Type := {
  api_token : option string;
  base_url : string;
  default_timeout : Z;
}.

(** The factory, with the constructor's [base_url.rstrip('/')]. *)
Definition create_rapydmoney_service (api_token base_url : option string)
  : outcome RapydMoneyService :=
  match base_url with
  | None => Raise AttributeError
  | Some u =>
      Ok {| api_token := api_token; base_url := rstrip_slash u; default_timeout := 10 |}
  end.

Definition status_ok (status_code : Z) : bool :=
  ((200 <=? status_code) && (status_code <? 300))%bool.

Section Service.

Variable env : Env.
Variable self : RapydMoneyService.

Let lib := pylib env.

Definition _headers : string :=
  "Bearer " @@ match api_token self with Some t => t | None => "None" end.

Definition url_of (path : string) : string :=
  base_url self @@ "/" @@ lstrip_slash path.

Definition timeout_or_default (timeout : option Z) : Z :=
  match timeout with
  | Some t => if t =? 0 then default_timeout self else t
  | None => default_timeout self
  end.

Definition _request (method path : string) (json_body : option json)
           (timeout : option Z) : M json :=
  let url := url_of path in
  resp <- requests_request env
            {| rq_method := upper method; rq_url := url;
               rq_authorization := _headers; rq_json := json_body;
               rq_timeout := timeout_or_default timeout |} ;;
  match resp with
  | RequestException e =>
      raise (RapydMoneyAPIError (-1) url (Some e) "Network error")
  | Response status_code text decoded =>
      if negb (status_ok status_code) then
        raise (RapydMoneyAPIError status_code url (Some text)
                 ("API Error " @@ string_of_Z status_code @@ " for " @@ url))
      else if String.eqb text EmptyString then ret JNull
      else
        match decoded with
        | Some v => ret v
        | None => ret (JStr text)
        end
  end.

Definition create_user (user_data : json) (timeout : option Z) : M json :=
  data <- _request "POST" "/users" (Some user_data) timeout ;;
  match data with
  | JDict d =>
      match lookup "user" d with
      | Some (JDict u) => ret (JDict u)
      | _ => ret data
      end
  | _ => ret data
  end.

Definition get_user (user_id : json) (timeout : option Z) : M RapydMoneyUser.t :=
  data <- _request "GET" ("/users/" @@ py_str lib user_id) None timeout ;;
  match data with
  | JDict d =>
      match lookup "user" d with
      | Some (JDict u) => lift (RapydMoneyUser.from_api (JDict u))
      | _ => lift (RapydMoneyUser.from_api data)
      end
  | _ =>
      raise (RapydMoneyAPIError (-1) (base_url self @@ "/users/" @@ py_str lib user_id)
               (Some (py_str lib data)) "Unexpected response shape for get_user")
  end.

Definition get_balance (user_id : json) (timeout : option Z) : M RapydMoneyBalance.t :=
  data <- _request "GET" ("/" @@ py_str lib user_id @@ "/balance") None timeout ;;
  let src :=
    match data with
    | JDict d =>
        match lookup "balance" d with
        | Some (JDict b) => JDict b
        | _ => data
        end
    | _ => JDict []
    end in
  lift (RapydMoneyBalance.from_api lib src).

Definition activate_pay (user_id : string) (timeout : option Z) : M json :=
  data <- _request "POST" ("/activate-pay/" @@ user_id) None timeout ;;
  match data with
  | JDict _ => ret data
  | _ => ret (JDict [("success", JBool true)])
  end.

Definition get_recipient (payment_identifier : string) (timeout : option Z) : M json :=
  data <- _request "GET" ("/recipient/" @@ payment_identifier) None timeout ;;
  match data with
  | JDict d =>
      match lookup "recipient" d with
      | Some (JDict r) => ret (JDict r)
      | _ => ret data
      end
  | _ => ret data
  end.

Definition mint (mint_data : json) (timeout : option Z) : M json :=
  _request "POST" "/mint" (Some mint_data) timeout.

(** [if data: if 'message' in data: if 'successful' in str(data['message']).lower()],
    the test made by [do_transfer] and again by the handlers. *)
Definition message_successful (data : json) : outcome bool :=
  if truthy data then
    match py_in "message" data with
    | Raise e => Raise e
    | Ok false => Ok false
    | Ok true =>
        match py_getitem data "message" with
        | Raise e => Raise e
        | Ok msg => Ok (contains "successful" (lower (py_str lib msg)))
        end
    end
  else Ok false.

Definition transfer_body (to_user_identifier : string) (amount : spec_float)
           (trx_id : string) : json :=
  JDict [("transactionAmount", JFloat amount);
         ("transactionRecipient", JStr to_user_identifier);
         ("transactionNotes", JStr trx_id)].

Definition do_transfer (from_user_id to_user_identifier : string)
           (amount : spec_float) (trx_id : string) : M json :=
  let trx := transfer_body to_user_identifier amount trx_id in
  data <- _request "POST" ("/transfer/" @@ from_user_id) (Some trx) (Some 60) ;;
  ok <- lift (message_successful data) ;;
  if ok then ret data else ret (JBool false).

End Service.

(** ** parsemessage.py *)

Inductive EventType : Type :=
| USER_REGISTERED
| STUDENT_MAGIC_LINK_REQUESTED.

Definition EventType_value (e : EventType) : string :=
  match e with
  | USER_REGISTERED => "USER_REGISTERED"
  | STUDENT_MAGIC_LINK_REQUESTED => "STUDENT_MAGIC_LINK_REQUESTED"
  end.

Definition EventType_eqb (a b : EventType) : bool :=
  match a, b with
  | USER_REGISTERED, USER_REGISTERED => true
  | STUDENT_MAGIC_LINK_REQUESTED, STUDENT_MAGIC_LINK_REQUESTED => true
  | _, _ => false
  end.

(** [EventType(value)]: the member with that value, if there is one. *)
Definition EventType_of (v : json) : option EventType :=
  match v with
  | JStr s =>
      if String.eqb s "USER_REGISTERED" then Some USER_REGISTERED
      else if String.eqb s "STUDENT_MAGIC_LINK_REQUESTED" then Some STUDENT_MAGIC_LINK_REQUESTED
      else None
  | _ => None
  end.

Inductive UserRole : Type := merchant | student | admin | sponsor.

Definition UserRole_value (r : UserRole) : string :=
  match r with
  | merchant => "merchant"
  | student => "student"
  | admin => "admin"
  | sponsor => "sponsor"
  end.

Definition v_role (v : json) : validation UserRole :=
  match v with
  | JStr s =>
      if String.eqb s "merchant" then Valid merchant
      else if String.eqb s "student" then Valid student
      else if String.eqb s "admin" then Valid admin
      else if String.eqb s "sponsor" then Valid sponsor
      else Invalid [([], "enum")]
  | _ => Invalid [([], "enum")]
  end.

Definition v_email (lib : PyLib) (v : json) : validation string :=
  match v with
  | JStr s =>
      match validate_email lib s with
      | Some e => Valid e
      | None => Invalid [([], "value_error")]
      end
  | _ => Invalid [([], "string_type")]
  end.

Definition v_bool (lib : PyLib) (v : json) : validation bool :=
  match validate_bool lib v with
  | Some b => Valid b
  | None => Invalid [([], "bool_parsing")]
  end.

(** [Literal[e] = e]: the default when the field is absent, else that very value. *)
Definition v_literal (d : list (string * json)) (field : string) (e : EventType)
  : validation EventType :=
  match lookup field d with
  | None => Valid e
  | Some v =>
      match EventType_of v with
      | Some e' => if EventType_eqb e e' then Valid e else Invalid [([field], "literal_error")]
      | None => Invalid [([field], "literal_error")]
      end
  end.

Module Keys.
Record t : Type := { Pk : string; Sk : string }.

Definition fields (d : list (string * json)) : validation t :=
  Valid Build_t <*> required d "Pk" v_str <*> required d "Sk" v_str.
End Keys.

Module UserEnvelope.
Record t : Type := {
  id : string;
  email : string;
  role : option UserRole;
  firstName : option string;
  lastName : option string;
  studentNumber : option string;
  is_active : option bool;
  created_at : option string;
}.

Definition fields (lib : PyLib) (d : list (string * json)) : validation t :=
  Valid Build_t
    <*> required d "id" v_str
    <*> required d "email" (v_email lib)
    <*> optional d "role" v_role
    <*> optional d "firstName" v_str
    <*> optional d "lastName" v_str
    <*> optional d "studentNumber" v_str
    <*> optional d "is_active" (v_bool lib)
    <*> optional d "created_at" v_str.
End UserEnvelope.

Module UserRegisteredMessage.
Record t : Type := {
  eventType : EventType;
  timestamp : string;
  user : UserEnvelope.t;
  keys : Keys.t;
  table : string;
  source : string;
}.

Definition fields (lib : PyLib) (d : list (string * json)) : validation t :=
  Valid Build_t
    <*> v_literal d "eventType" USER_REGISTERED
    <*> required d "timestamp" v_str
    <*> required d "user" (v_model (UserEnvelope.fields lib))
    <*> required d "keys" (v_model Keys.fields)
    <*> required d "table" v_str
    <*> required d "source" v_str.
End UserRegisteredMessage.

Module StudentMagicLinkRequestedMessage.
Record t : Type := {
  eventType : EventType;
  timestamp : string;
  email : string;
  magicToken : string;
  linkUrl : option string;
  source : option string;
}.

Definition fields (lib : PyLib) (d : list (string * json)) : validation t :=
  Valid Build_t
    <*> v_literal d "eventType" STUDENT_MAGIC_LINK_REQUESTED
    <*> required d "timestamp" v_str
    <*> required d "email" (v_email lib)
    <*> required d "magicToken" v_str
    <*> optional d "linkUrl" v_str
    <*> optional d "source" v_str.
End StudentMagicLinkRequestedMessage.

(** The registered model classes and their instances. *)
Inductive model_cls : Type :=
| _UserRegistered
| _StudentMagicLinkRequested.

Definition cls_name (c : model_cls) : string :=
  match c with
  | _UserRegistered => "_UserRegistered"
  | _StudentMagicLinkRequested => "_StudentMagicLinkRequested"
  end.

Inductive SqsMessage : Type :=
| UserRegistered (m : UserRegisteredMessage.t)
| StudentMagicLinkRequested (m : StudentMagicLinkRequestedMessage.t).

Definition eventType (m : SqsMessage) : EventType :=
  match m with
  | UserRegistered m' => UserRegisteredMessage.eventType m'
  | StudentMagicLinkRequested m' => StudentMagicLinkRequestedMessage.eventType m'
  end.

Definition model_validate (lib : PyLib) (c : model_cls) (data : json) : validation SqsMessage :=
  match c with
  | _UserRegistered =>
      vmap UserRegistered (v_model (UserRegisteredMessage.fields lib) data)
  | _StudentMagicLinkRequested =>
      vmap StudentMagicLinkRequested (v_model (StudentMagicLinkRequestedMessage.fields lib) data)
  end.

Module SqsModelRegistry.

Definition t : Type := list (EventType * model_cls).

Definition empty : t := [].

(** [self._registry[event] = model_cls]. *)
Fixpoint register (event : EventType) (c : model_cls) (self : t) : t :=
  match self with
  | [] => [(event, c)]
  | (e, c') :: rest =>
      if EventType_eqb e event then (e, c) :: rest
      else (e, c') :: register event c rest
  end.

Fixpoint get_class (self : t) (event : EventType) : option model_cls :=
  match self with
  | [] => None
  | (e, c) :: rest => if EventType_eqb e event then Some c else get_class rest event
  end.

Definition parse (lib : PyLib) (self : t) (data : json) : outcome SqsMessage :=
  match py_in "eventType" data with
  | Raise e => Raise e
  | Ok false => Raise (ValueError MissingEventType)
  | Ok true =>
      let event :=
        match py_getitem data "eventType" with
        | Raise e => Raise e
        | Ok v =>
            match EventType_of v with
            | Some ev => Ok ev
            | None => Raise (OtherError "not a valid EventType")
            end
        end in
      match event with
      | Raise _ =>
          (* except Exception: raise ValueError(f"Unknown eventType: {data.get('eventType')}") *)
          match py_get data "eventType" JNull with
          | Raise e => Raise e
          | Ok shown => Raise (ValueError (UnknownEventType (py_str lib shown)))
          end
      | Ok ev =>
          match get_class self ev with
          | None => Raise (ValueError (NoModelRegistered (EventType_value ev)))
          | Some c =>
              match model_validate lib c data with
              | Valid m => Ok m
              | Invalid errs => Raise (ValueError (FailedToParse (cls_name c) errs))
              end
          end
      end
  end.

End SqsModelRegistry.

(** The registry of the module, after its two registrations. *)
Definition sqs_registry : SqsModelRegistry.t :=
  SqsModelRegistry.register STUDENT_MAGIC_LINK_REQUESTED _StudentMagicLinkRequested
    (SqsModelRegistry.register USER_REGISTERED _UserRegistered SqsModelRegistry.empty).

Definition parse_sqs_message (lib : PyLib) (message : json) : outcome SqsMessage :=
  SqsModelRegistry.parse lib sqs_registry message.

(** ** app.py: the HTTP handlers *)

Definition result_message (result : bool) (message : string) : json :=
  JDict [("result", JBool result); ("message", JStr message)].

Section Handlers.

Variable env : Env.

Let lib := pylib env.

Definition new_service : M RapydMoneyService :=
  lift (create_rapydmoney_service (RAPYD_MONEY_API_TOKEN env) (RAPYD_MONEY_BASE_URL env)).

Definition api_ping : M json := ret (JDict [("message", JStr "pong")]).

Definition api_can_pay (json_body : json) : M json :=
  from_user_id <- lift (py_get json_body "studentId" JNull) ;;
  amount_cents <- lift (py_get json_body "amount_cents" JNull) ;;
  amount <- lift (py_truediv_100 amount_cents) ;;
  if truthy from_user_id then
    rapyd <- new_service ;;
    from_user_balance <- get_balance env rapyd from_user_id None ;;
    if RapydMoneyBalance.truthy from_user_balance then
      short <- lift (Decimal_lt_float (RapydMoneyBalance.zar from_user_balance) amount) ;;
      if short then ret (result_message false "Insufficient funds")
      else ret (JDict [("result", JBool true)])
    else ret JNull
  else ret (result_message false "User not found").

(** A [return] inside the nested [if]s gives [Some] body; [None] falls
    through to the statements after them. *)
Definition api_pay_user (json_body : json) : M json :=
  merchant_id <- lift (py_get json_body "merchantId" JNull) ;;
  student_id <- lift (py_get json_body "studentId" JNull) ;;
  if (truthy merchant_id && truthy student_id)%bool then
    rapyd <- new_service ;;
    idempotency_key <- lift (py_get json_body "idempotency_key" JNull) ;;
    amount_cents <- lift (py_get json_body "amount_cents" JNull) ;;
    amount <- lift (py_truediv_100 amount_cents) ;;
    merchant_user <- get_user env rapyd merchant_id None ;;
    student_user <- get_user env rapyd student_id None ;;
    returned <-
      (if (RapydMoneyUser.truthy merchant_user && RapydMoneyUser.truthy student_user)%bool
       then
         recipient <- get_recipient env rapyd
                        (RapydMoneyUser.payment_identifier student_user) None ;;
         if truthy recipient then
           resp <- do_transfer env rapyd
                     (RapydMoneyUser.id student_user)
                     (RapydMoneyUser.payment_identifier merchant_user)
                     amount
                     ("Idem_" @@ py_str lib idempotency_key) ;;
           ok <- lift (message_successful env resp) ;;
           if ok then
             print "Successful transfer" ;;;
             ret (Some (result_message true "Sponsor user transfer successful"))
           else ret None
         else ret None
       else ret None) ;;
    match returned with
    | Some body => ret body
    | None =>
        print "Failed to transfer funds to student" ;;;
        ret (result_message false "Sponsor transfer failed")
    end
  else
    print "Invalid request: missing sponsorId or studentId" ;;;
    ret (result_message false "Sponsor transfer failed, invalid request").

Definition mint_request (amount : spec_float) (existing_user : RapydMoneyUser.t)
           (sponsor_id : json) : json :=
  JDict [("transactionAmount", JFloat amount);
         ("transactionRecipient", JStr (RapydMoneyUser.payment_identifier existing_user));
         ("transactionNotes",
          JStr ("EFT deposit " @@ str_of_float lib amount @@ " to " @@ py_str lib sponsor_id))].

Definition api_fund_user (json_body : json) : M json :=
  sponsor_id <- lift (py_get json_body "sponsorId" JNull) ;;
  if truthy sponsor_id then
    rapyd <- new_service ;;
    amount_cents <- lift (py_get json_body "amount_cents" JNull) ;;
    amount <- lift (py_truediv_100 amount_cents) ;;
    existing_user <- get_user env rapyd sponsor_id None ;;
    (if RapydMoneyUser.truthy existing_user then
       resp <- mint env rapyd (mint_request amount existing_user sponsor_id) None ;;
       print (py_str lib resp) ;;;
       if truthy resp then print "Mint request successful"
       else print "Mint request failed"
     else print ("User " @@ py_str lib sponsor_id @@ " not found")) ;;;
    ret (JDict [("message", JStr "User can pay")])
  else ret (JDict [("message", JStr "User cannot pay")]).

Definition api_sponsor_user (json_body : json) : M json :=
  print ("Incoming sponsor transfer  request: " @@ py_str lib json_body) ;;;
  sponsor_id <- lift (py_get json_body "sponsorId" JNull) ;;
  student_id <- lift (py_get json_body "studentId" JNull) ;;
  if (truthy sponsor_id && truthy student_id)%bool then
    rapyd <- new_service ;;
    idempotency_key <- lift (py_get json_body "idempotency_key" JNull) ;;
    amount_cents <- lift (py_get json_body "amount_cents" JNull) ;;
    amount <- lift (py_truediv_100 amount_cents) ;;
    sponsor_user <- get_user env rapyd sponsor_id None ;;
    student_user <- get_user env rapyd student_id None ;;
    returned <-
      (if (RapydMoneyUser.truthy sponsor_user && RapydMoneyUser.truthy student_user)%bool
       then
         recipient <- get_recipient env rapyd
                        (RapydMoneyUser.payment_identifier student_user) None ;;
         if truthy recipient then
           resp <- do_transfer env rapyd
                     (RapydMoneyUser.id sponsor_user)
                     (RapydMoneyUser.payment_identifier student_user)
                     amount
                     ("Idem_" @@ py_str lib idempotency_key) ;;
           ok <- lift (message_successful env resp) ;;
           if ok then
             print "Successful transfer" ;;;
             ret (Some (result_message true "Sponsor user transfer successful"))
           else ret None
         else ret None
       else ret None) ;;
    match returned with
    | Some body => ret body
    | None =>
        print "Failed to transfer funds to student" ;;;
        ret (result_message false "Sponsor transfer failed")
    end
  else
    print "Invalid request: missing sponsorId or studentId" ;;;
    ret (result_message false "Sponsor transfer failed, invalid request").

End Handlers.

(** ** app.py: the queue consumer *)

Section Queue.

Variable env : Env.

Let lib := pylib env.

Definition loads (s : string) : outcome json :=
  match json_loads lib s with
  | Some v => Ok v
  | None => Raise JSONDecodeError
  end.

(** The body of the first [try] of the loop: decode the record, and unwrap
    a payload carried in a 'Message' field. *)
Definition normalize (body_str : string) : outcome json :=
  match loads body_str with
  | Raise e => Raise e
  | Ok data =>
      match data with
      | JDict d =>
          match lookup "Message" d with
          | Some (JStr message) =>
              match loads message with
              | Ok (JDict inner) =>
                  if has_key "eventType" inner then Ok (JDict inner) else Ok data
              | Ok _ => Ok data
              | Raise _ => Ok data        (* not a nested JSON payload *)
              end
          | _ => Ok data
          end
      | _ => Ok data
      end
  end.

Definition nonempty (s : option string) : bool :=
  match s with
  | Some x => negb (String.eqb x EmptyString)
  | None => false
  end.

(** Compose a display name if available. *)
Definition display_name (user : UserEnvelope.t) : option string :=
  if (nonempty (UserEnvelope.firstName user) && nonempty (UserEnvelope.lastName user))%bool
  then
    match UserEnvelope.firstName user, UserEnvelope.lastName user with
    | Some f, Some l => Some (f @@ " " @@ l)
    | _, _ => None
    end
  else if nonempty (UserEnvelope.firstName user) then UserEnvelope.firstName user
  else if nonempty (UserEnvelope.lastName user) then UserEnvelope.lastName user
  else None.

Definition json_of_option (s : option string) : json :=
  match s with Some x => JStr x | None => JNull end.

Definition new_user_data (user : UserEnvelope.t) : json :=
  JDict [("id", JStr (UserEnvelope.id user));
         ("email", JStr (UserEnvelope.email user));
         ("firstName", json_of_option (UserEnvelope.firstName user));
         ("lastName", json_of_option (UserEnvelope.lastName user))].

(** [parsed.user], [parsed.email] and [parsed.magicToken]: attributes of
    one model class only. *)
Definition attr_user (parsed : SqsMessage) : outcome UserEnvelope.t :=
  match parsed with
  | UserRegistered m => Ok (UserRegisteredMessage.user m)
  | StudentMagicLinkRequested _ => Raise AttributeError
  end.

Definition attr_email (parsed : SqsMessage) : outcome string :=
  match parsed with
  | StudentMagicLinkRequested m => Ok (StudentMagicLinkRequestedMessage.email m)
  | UserRegistered _ => Raise AttributeError
  end.

Definition attr_magicToken (parsed : SqsMessage) : outcome string :=
  match parsed with
  | StudentMagicLinkRequested m => Ok (StudentMagicLinkRequestedMessage.magicToken m)
  | UserRegistered _ => Raise AttributeError
  end.

(** [getattr(parsed, 'linkUrl', None)]. *)
Definition getattr_linkUrl (parsed : SqsMessage) : option string :=
  match parsed with
  | StudentMagicLinkRequested m => StudentMagicLinkRequestedMessage.linkUrl m
  | UserRegistered _ => None
  end.

Definition on_user_registered (parsed : SqsMessage) : M unit :=
  try_except
    (user <- lift (attr_user parsed) ;;
     let user_name := display_name user in
     let role := option_map UserRole_value (UserEnvelope.role user) in
     ok <- mailer_call env (send_welcome_email (UserEnvelope.email user) user_name role) ;;
     if ok then log INFO ("Sent welcome email to " @@ UserEnvelope.email user) None
     else log ERROR ("Failed to send welcome email to " @@ UserEnvelope.email user) None)
    (fun exc => log ERROR "Error handling USER_REGISTERED" (Some exc)) ;;;
  try_except
    (user <- lift (attr_user parsed) ;;
     if negb (String.eqb (UserEnvelope.email user) EmptyString) then
       let new_user := new_user_data user in
       print ("New User to add :   " @@ py_str lib new_user) ;;;
       rapyd <- new_service env ;;
       create_user env rapyd new_user (Some 60) ;;;
       activate_pay env rapyd (UserEnvelope.id user) (Some 60) ;;;
       print ("User added and activated :: ID:  " @@ UserEnvelope.id user)
     else ret tt)
    (fun exc => log ERROR "Error handling USER_REGISTERED - RapydMoney Registration" (Some exc)).

Definition on_magic_link (parsed : SqsMessage) : M unit :=
  try_except
    (email <- lift (attr_email parsed) ;;
     token <- lift (attr_magicToken parsed) ;;
     let link_url := getattr_linkUrl parsed in
     ok <- mailer_call env (send_magic_link_email email token link_url) ;;
     if ok then log INFO ("Sent magic link email to " @@ email) None
     else log ERROR ("Failed to send magic link email to " @@ email) None)
    (fun exc => log ERROR "Error handling STUDENT_MAGIC_LINK_REQUESTED" (Some exc)).

(** Route by event type. *)
Definition dispatch (parsed : SqsMessage) : M unit :=
  if EventType_eqb (eventType parsed) USER_REGISTERED then on_user_registered parsed
  else if EventType_eqb (eventType parsed) STUDENT_MAGIC_LINK_REQUESTED then on_magic_link parsed
  else log WARNING ("Unhandled eventType: " @@ EventType_value (eventType parsed)) None.

(** One turn of the loop; [continue] is the [None] of the two first steps. *)
Definition handle_record (body_str : string) : M unit :=
  log INFO ("Got message: " @@ body_str) None ;;;
  data <- try_except
            (d <- lift (normalize body_str) ;; ret (Some d))
            (fun exc =>
               log ERROR "Failed to parse SQS record body as JSON" (Some exc) ;;;
               ret None) ;;
  match data with
  | None => ret tt
  | Some data =>
      parsed <- try_except
                  (p <- lift (parse_sqs_message lib data) ;; ret (Some p))
                  (fun exc =>
                     log ERROR "Failed to parse message with schema" (Some exc) ;;;
                     ret None) ;;
      match parsed with
      | None => ret tt
      | Some parsed => dispatch parsed
      end
  end.

Fixpoint handle_my_queue (event : list string) : M unit :=
  match event with
  | [] => ret tt
  | body_str :: rest => handle_record body_str ;;; handle_my_queue rest
  end.

End Queue.

(** The four payment routes of the application. *)
Inductive payment_route : Type :=
| can_pay        (* POST /can-pay *)
| pay_user       (* POST /pay-user *)
| fund_user      (* POST /fund-user *)
| sponsor_user.  (* POST /sponsor-user *)

Definition handler (env : Env) (route : payment_route) : json -> M json :=
  match route with
  | can_pay => api_can_pay env
  | pay_user => api_pay_user env
  | fund_user => api_fund_user env
  | sponsor_user => api_sponsor_user env
  end.

(** ** What the properties speak about *)

(** An exchange failed: a transport failure or a status outside 200..299. *)
Definition failed (rs : http_result) : bool :=
  match rs with
  | RequestException _ => true
  | Response status_code _ _ => negb (status_ok status_code)
  end.

(** The error that [_request] raises for a failed exchange. *)
Definition client_error (rq : http_request) (rs : http_result) : exn :=
  match rs with
  | RequestException e => RapydMoneyAPIError (-1) (rq_url rq) (Some e) "Network error"
  | Response status_code text _ =>
      RapydMoneyAPIError status_code (rq_url rq) (Some text)
        ("API Error " @@ string_of_Z status_code @@ " for " @@ rq_url rq)
  end.

(** What [_request] returns for an exchange that did not fail. *)
Definition response_value (rs : http_result) : json :=
  match rs with
  | RequestException _ => JNull
  | Response _ text decoded =>
      if String.eqb text EmptyString then JNull
      else match decoded with Some v => v | None => JStr text end
  end.

(** No exchange of the trace failed. *)
Definition clean (tr : trace) : Prop :=
  forall rq rs, In (Http rq rs) tr -> failed rs = false.

(** A computation through which the client's error passes: run after
    exchanges that all succeeded, it either leaves a trace of that kind, or
    its last event is a failed exchange and it raises the error of that
    exchange. *)
Definition propagates {A : Type} (m : M A) : Prop :=
  forall tr, clean tr ->
    clean (snd (m tr)) \/
    exists tr0 rq rs,
      snd (m tr) = tr0 ++ [Http rq rs] /\ clean tr0 /\ failed rs = true /\
      fst (m tr) = Raise (client_error rq rs).

(** The request that [do_transfer] sends. *)
Definition transfer_request (self : RapydMoneyService) (from_user_id to_user_identifier : string)
           (amount : spec_float) (trx_id : string) : http_request :=
  {| rq_method := "POST";
     rq_url := base_url self @@ "/transfer/" @@ from_user_id;
     rq_authorization := _headers self;
     rq_json := Some (transfer_body to_user_identifier amount trx_id);
     rq_timeout := 60 |}.

(** The provider's success signal: a map whose 'message' contains
    "successful", whatever the case of its letters. *)
Definition says_successful (lib : PyLib) (data : json) : bool :=
  match data with
  | JDict d =>
      match lookup "message" d with
      | Some msg => contains "successful" (lower (py_str lib msg))
      | None => false
      end
  | _ => false
  end.

(** The token entries that carry a given name, and the balance of the last
    of them, zero when there is none. *)
Definition named (name : string) (t : json) : bool :=
  match t with
  | JDict td => eq_str (dict_get "name" td) name
  | _ => false
  end.

Definition entry_balance (lib : PyLib) (t : json) : Decimal :=
  match t with
  | JDict td =>
      match Decimal_of_str lib (py_str lib (dict_get_default "balance" td (JStr "0"))) with
      | Some b => b
      | None => Decimal_zero
      end
  | _ => Decimal_zero
  end.

Definition balance_named (lib : PyLib) (name : string) (tokens : list json) : Decimal :=
  match rev (filter (named name) tokens) with
  | [] => Decimal_zero
  | t :: _ => entry_balance lib t
  end.

(** The request that [_request] sends. *)
Definition client_request (self : RapydMoneyService) (method path : string)
           (json_body : option json) (timeout : option Z) : http_request :=
  {| rq_method := upper method;
     rq_url := url_of self path;
     rq_authorization := _headers self;
     rq_json := json_body;
     rq_timeout := timeout_or_default self timeout |}.

Definition is_http (ev : event) : bool :=
  match ev with Http _ _ => true | _ => false end.

(** A run of pay-user or sponsor-user, started after the events [tr], reaches
    the transfer step: both ids are given, the service is configured, the
    amount is computed, the party named by [party_key] and the student are
    resolved, and so is the student's recipient; [tr3] is the trace at that
    point. *)
Definition reaches_transfer (env : Env) (party_key : string) (d : list (string * json))
           (tr : trace) (rapyd : RapydMoneyService) (amount : spec_float)
           (party_user student_user : RapydMoneyUser.t) (tr3 : trace) : Prop :=
  truthy (dict_get party_key d) = true /\
  truthy (dict_get "studentId" d) = true /\
  create_rapydmoney_service (RAPYD_MONEY_API_TOKEN env) (RAPYD_MONEY_BASE_URL env)
    = Ok rapyd /\
  py_truediv_100 (dict_get "amount_cents" d) = Ok amount /\
  exists tr1 tr2 recipient,
    get_user env rapyd (dict_get party_key d) None tr = (Ok party_user, tr1) /\
    get_user env rapyd (dict_get "studentId" d) None tr1 = (Ok student_user, tr2) /\
    get_recipient env rapyd (RapydMoneyUser.payment_identifier student_user) None tr2
      = (Ok recipient, tr3) /\
    truthy recipient = true.

(** The transaction reference built from the request. *)
Definition trx_id_of (lib : PyLib) (d : list (string * json)) : string :=
  "Idem_" @@ py_str lib (dict_get "idempotency_key" d).

(** What the two transfer handlers do once the transfer step is reached and
    the provider has answered [rs] to the transfer request [rq]. *)
Definition transfer_step (env : Env) (tr3 : trace) (rq : http_request) : outcome json * trace :=
  let rs := provider env tr3 rq in
  let tr4 := tr3 ++ [Http rq rs] in
  if failed rs then (Raise (client_error rq rs), tr4)
  else
    match message_successful env (response_value rs) with
    | Raise e => (Raise e, tr4)
    | Ok true =>
        (Ok (result_message true "Sponsor user transfer successful"),
         tr4 ++ [Print "Successful transfer"])
    | Ok false =>
        (Ok (result_message false "Sponsor transfer failed"),
         tr4 ++ [Print "Failed to transfer funds to student"])
    end.

(** The two shapes of a balance answer: the token list at top level (and no
    map under 'balance'), or the token list in the map under 'balance'. *)
Definition balance_shape (data : json) (tokens : list json) : Prop :=
  exists d,
    data = JDict d /\
    ((lookup "tokens" d = Some (JList tokens) /\
      match lookup "balance" d with Some (JDict _) => False | _ => True end) \/
     (exists b, lookup "balance" d = Some (JDict b) /\
                lookup "tokens" b = Some (JList tokens))).

Definition zar_or_usd (t : json) : bool :=
  (named "L ZAR Coin" t || named "L USD Coin" t)%bool.

(** The top-level fields that the model classes declare, those among them
    that are required, and the required ones that must be strings. *)
Definition declared_fields : list string :=
  ["eventType"; "timestamp"; "user"; "keys"; "table"; "source";
   "email"; "magicToken"; "linkUrl"].

Definition required_fields (c : model_cls) : list string :=
  match c with
  | _UserRegistered => ["timestamp"; "user"; "keys"; "table"; "source"]
  | _StudentMagicLinkRequested => ["timestamp"; "email"; "magicToken"]
  end.

Definition string_fields (c : model_cls) : list string :=
  match c with
  | _UserRegistered => ["timestamp"; "table"; "source"]
  | _StudentMagicLinkRequested => ["timestamp"; "email"; "magicToken"]
  end.

Definition is_invalid {A : Type} (x : validation A) : bool :=
  match x with Invalid _ => true | Valid _ => false end.

(** A computation that returns whatever happened before it. *)
Definition never_raises {A : Type} (m : M A) : Prop :=
  forall tr, exists a, fst (m tr) = Ok a.

Definition is_mail (ev : event) : bool :=
  match ev with Mail _ _ => true | _ => false end.

(** ** Sample data *)

Definition digit_of (c : ascii) : option N :=
  let n := N_of_ascii c in
  if ((48 <=? n) && (n <=? 57))%N then Some (n - 48)%N else None.

(** Digits with at most one point. *)
Fixpoint scan_plain (s : string) (coeff : N) (frac : option Z) (any : bool)
  : option (N * Z) :=
  match s with
  | EmptyString =>
      if any then Some (coeff, match frac with Some k => - k | None => 0 end) else None
  | String c s' =>
      if Ascii.eqb c "." then
        match frac with
        | None => scan_plain s' coeff (Some 0) any
        | Some _ => None
        end
      else
        match digit_of c with
        | Some dg => scan_plain s' (10 * coeff + dg)%N (option_map Z.succ frac) true
        | None => None
        end
  end.

(** The [Decimal] constructor on plain numerals and on the names of the
    special values. *)
Definition Decimal_of_plain (s : string) : option Decimal :=
  if String.eqb s "NaN" then Some Dnan
  else if String.eqb s "Infinity" then Some (Dinfinity false)
  else
    match s with
    | String "-" s' =>
        option_map (fun ce => Dfinite true (fst ce) (snd ce)) (scan_plain s' 0%N None false)
    | _ => option_map (fun ce => Dfinite false (fst ce) (snd ce)) (scan_plain s 0%N None false)
    end.

(** A few documents, by name, for the decoder of the sample library. *)
Definition registered_event : json :=
  JDict [("eventType", JStr "USER_REGISTERED");
         ("timestamp", JStr "2025-08-08T14:43:25.029Z");
         ("user", JDict [("id", JStr "u-1"); ("email", JStr "wikus@example.org");
                         ("role", JStr "merchant"); ("firstName", JStr "Wikus");
                         ("lastName", JStr "Schalkwyk")]);
         ("keys", JDict [("Pk", JStr "MERCHANT#u-1"); ("Sk", JStr "USER")]);
         ("table", JStr "kudupay-prod");
         ("source", JStr "auth.registerUser")].

Definition magic_link_event : json :=
  JDict [("eventType", JStr "STUDENT_MAGIC_LINK_REQUESTED");
         ("timestamp", JStr "2025-08-08T15:00:00.000Z");
         ("email", JStr "student@example.org");
         ("magicToken", JStr "tok-1")].

Definition sample_documents : list (string * json) :=
  [("registered", registered_event);
   ("magic-link", magic_link_event);
   ("relayed", JDict [("Type", JStr "Notification"); ("Message", JStr "registered")]);
   ("relayed-twice", JDict [("Message", JStr "relayed-inner")]);
   ("relayed-inner", JDict [("eventType", JStr "USER_REGISTERED");
                            ("Message", JStr "registered")]);
   ("relayed-text", JDict [("Message", JStr "hello"); ("eventType", JStr "USER_REGISTERED")]);
   ("no-type", JDict [("timestamp", JStr "2025-08-08T15:00:00.000Z")]);
   ("bad-type", JDict [("eventType", JStr "PAYMENT_COMPLETED")]);
   ("bad-schema", JDict [("eventType", JStr "STUDENT_MAGIC_LINK_REQUESTED")])].

Definition sample_lib : PyLib :=
  {| json_loads := fun s => lookup s sample_documents;
     Decimal_of_str := Decimal_of_plain;
     str_of_float := fun _ => "<float>";
     repr_str := fun s => "'" @@ s @@ "'";
     validate_email := fun s => if contains "@" s then Some s else None;
     validate_bool := fun v => match v with JBool b => Some b | _ => None end |}.

Definition sample_base : string := "https://provider.test/api/v1".

Definition sample_user (id : string) : json :=
  JDict [("id", JStr id); ("email", JStr (id @@ "@example.org"));
         ("firstName", JStr "First"); ("lastName", JStr "Last");
         ("publicKey", JStr ("pk-" @@ id));
         ("paymentIdentifier", JStr ("pay-" @@ id))].

(** An answer with status 200 whose body decodes to [v]. *)
Definition answer (v : json) : http_result := Response 200 "<json>" (Some v).

(** A provider that knows the parties M1, S1 and P1, resolves every
    recipient, and answers the other requests with [other]. *)
Definition sample_provider (other : http_result) : trace -> http_request -> http_result :=
  fun _ rq =>
    if String.eqb (rq_url rq) (sample_base @@ "/users/M1") then answer (sample_user "M1")
    else if String.eqb (rq_url rq) (sample_base @@ "/users/S1") then
      answer (JDict [("user", sample_user "S1")])
    else if String.eqb (rq_url rq) (sample_base @@ "/users/P1") then answer (sample_user "P1")
    else if prefix (sample_base @@ "/recipient/") (rq_url rq) then
      answer (JDict [("recipient", JDict [("active", JBool true)])])
    else other.

Definition sample_env (other : http_result) : Env :=
  {| pylib := sample_lib;
     RAPYD_MONEY_API_TOKEN := Some "secret";
     RAPYD_MONEY_BASE_URL := Some (sample_base @@ "/");
     provider := sample_provider other;
     mailer := fun _ _ => Ok true |}.

(** An environment whose provider is out of order. *)
Definition broken_env : Env :=
  {| pylib := sample_lib;
     RAPYD_MONEY_API_TOKEN := Some "secret";
     RAPYD_MONEY_BASE_URL := Some sample_base;
     provider := fun _ _ => Response 500 "Internal Server Error" None;
     mailer := fun _ _ => Raise (OtherError "SMTP") |}.

Definition pay_request : json :=
  JDict [("merchantId", JStr "M1"); ("studentId", JStr "S1");
         ("idempotency_key", JStr "k-42"); ("amount_cents", JInt 5000)].

Definition sponsor_request : json :=
  JDict [("sponsorId", JStr "P1"); ("studentId", JStr "S1");
         ("idempotency_key", JStr "k-43"); ("amount_cents", JInt 5000)].

Definition fund_request : json :=
  JDict [("sponsorId", JStr "P1"); ("amount_cents", JInt 5000)].

Definition can_pay_request (amount_cents : json) : json :=
  JDict [("studentId", JStr "S1"); ("amount_cents", amount_cents)].

Definition zar_tokens (balance : string) : json :=
  JDict [("tokens", JList [JDict [("name", JStr "L ZAR Coin"); ("balance", JStr balance)]])].

Definition sample_service : RapydMoneyService :=
  {| api_token := Some "secret"; base_url := sample_base; default_timeout := 10 |}.

(** The party that [sample_provider] describes under [id]. *)
Definition sample_party (id : string) : RapydMoneyUser.t :=
  {| RapydMoneyUser.id := id;
     RapydMoneyUser.email := id @@ "@example.org";
     RapydMoneyUser.first_name := "First";
     RapydMoneyUser.last_name := "Last";
     RapydMoneyUser.public_key := "pk-" @@ id;
     RapydMoneyUser.payment_identifier := "pay-" @@ id |}.

Definition transfer_accepted : http_result :=
  answer (JDict [("message", JStr "Transfer successful")]).

Definition fifty : spec_float := float_div (float_of_Z 5000) hundred.

Definition twelve_and_a_half : Decimal := Dfinite false 125 (-1).

(** Ten records, the third of which is refused by its schema. *)
Definition ten_records : list string :=
  ["registered"; "magic-link"; "bad-schema"; "relayed"; "magic-link";
   "registered"; "relayed"; "magic-link"; "registered"; "magic-link"].

(** ** rapydmoney.py: the error class and the other methods of the client *)

(** [RapydMoneyAPIError.__init__]: the message, or the default one. *)
Definition RapydMoneyAPIError_init (status_code : Z) (url : string) (body : option string)
           (message : option string) : exn :=
  RapydMoneyAPIError status_code url body
    (match message with
     | Some m =>
         if String.eqb m EmptyString
         then "API Error " @@ string_of_Z status_code @@ " for " @@ url
         else m
     | None => "API Error " @@ string_of_Z status_code @@ " for " @@ url
     end).

(** [RapydMoneyAPIError.__str__]; the other exceptions are not formatted here. *)
Definition RapydMoneyAPIError_str (e : exn) : string :=
  match e with
  | RapydMoneyAPIError _ _ body message =>
      let suffix :=
        match body with
        | Some b => if String.eqb b EmptyString then EmptyString else " Body: " @@ b
        | None => EmptyString
        end in
      message @@ suffix
  | _ => EmptyString
  end.

(** [[RapydMoneyUser.from_api(u) for u in users_data]]: the first entry that
    is refused raises. *)
Fixpoint users_from_api (users_data : list json) : outcome (list RapydMoneyUser.t) :=
  match users_data with
  | [] => Ok []
  | u :: rest =>
      match RapydMoneyUser.from_api u with
      | Raise e => Raise e
      | Ok user =>
          match users_from_api rest with
          | Raise e => Raise e
          | Ok users => Ok (user :: users)
          end
      end
  end.

Section OtherMethods.

Variable env : Env.
Variable self : RapydMoneyService.

Definition list_users (timeout : option Z) : M (list RapydMoneyUser.t) :=
  data <- _request env self "GET" "/users" None timeout ;;
  match data with
  | JDict d =>
      match lookup "users" d with
      | Some (JList us) => lift (users_from_api (filter is_dict us))
      | _ => ret []
      end
  | JList us => lift (users_from_api (filter is_dict us))
  | _ => ret []
  end.

Definition get_transactions (user_id : string) (timeout : option Z) : M (list json) :=
  data <- _request env self "GET" ("/" @@ user_id @@ "/transactions") None timeout ;;
  match data with
  | JDict d =>
      match lookup "transactions" d with
      | Some (JList ts) => ret ts
      | _ => ret []
      end
  | JList ts => ret ts
  | _ => ret []
  end.

Definition create_bank_account (user_id : string) (bank_data : json)
           (timeout : option Z) : M json :=
  data <- _request env self "POST" ("/bank/" @@ user_id) (Some bank_data) timeout ;;
  match data with
  | JDict d =>
      match lookup "bankAccount" d with
      | Some (JDict account) => ret (JDict account)
      | _ => ret data
      end
  | _ => ret data
  end.

Definition get_bank_account (user_id : string) (timeout : option Z) : M json :=
  data <- _request env self "GET" ("/bank/" @@ user_id) None timeout ;;
  match data with
  | JDict d =>
      match lookup "bankAccount" d with
      | Some (JDict account) => ret (JDict account)
      | _ => ret data
      end
  | _ => ret data
  end.

End OtherMethods.

(** A call that makes one exchange with the provider, with the request [rq],
    and adds nothing else to the trace. *)
Definition sends_once {A : Type} (env : Env) (m : M A) (rq : http_request) : Prop :=
  forall tr, snd (m tr) = tr ++ [Http rq (provider env tr rq)].

(** The map that [get_user] reads the party from: the map under 'user', or
    the answer itself. *)
Definition user_map (data : json) : option (list (string * json)) :=
  match data with
  | JDict d =>
      match lookup "user" d with
      | Some (JDict u) => Some u
      | _ => Some d
      end
  | _ => None
  end.

(** A party written as the provider writes it. *)
Definition user_json (u : RapydMoneyUser.t) : list (string * json) :=
  [("id", JStr (RapydMoneyUser.id u));
   ("email", JStr (RapydMoneyUser.email u));
   ("firstName", JStr (RapydMoneyUser.first_name u));
   ("lastName", JStr (RapydMoneyUser.last_name u));
   ("publicKey", JStr (RapydMoneyUser.public_key u));
   ("paymentIdentifier", JStr (RapydMoneyUser.payment_identifier u))].

(** The string under [alias], or else under [name]. *)
Definition aliased_str (d : list (string * json)) (alias name : string) (s : string) : Prop :=
  lookup alias d = Some (JStr s) \/
  (lookup alias d = None /\ lookup name d = Some (JStr s)).

Fixpoint ends_with_slash (s : string) : bool :=
  match s with
  | EmptyString => false
  | String c EmptyString => Ascii.eqb c "/"
  | String _ s' => ends_with_slash s'
  end.

Definition starts_with_slash (s : string) : bool :=
  match s with
  | String c _ => Ascii.eqb c "/"
  | EmptyString => false
  end.

Definition count_http (tr : trace) : nat := List.length (filter is_http tr).

(** A run of pay-user or sponsor-user, started after the events [tr], has
    resolved the two parties and asked for the student's recipient, which the
    provider answered with [recipient]; [tr3] is the trace at that point. *)
Definition reaches_recipient (env : Env) (party_key : string) (d : list (string * json))
           (tr : trace) (rapyd : RapydMoneyService) (amount : spec_float)
           (party_user student_user : RapydMoneyUser.t) (recipient : json)
           (tr3 : trace) : Prop :=
  truthy (dict_get party_key d) = true /\
  truthy (dict_get "studentId" d) = true /\
  create_rapydmoney_service (RAPYD_MONEY_API_TOKEN env) (RAPYD_MONEY_BASE_URL env)
    = Ok rapyd /\
  py_truediv_100 (dict_get "amount_cents" d) = Ok amount /\
  exists tr1 tr2,
    get_user env rapyd (dict_get party_key d) None tr = (Ok party_user, tr1) /\
    get_user env rapyd (dict_get "studentId" d) None tr1 = (Ok student_user, tr2) /\
    get_recipient env rapyd (RapydMoneyUser.payment_identifier student_user) None tr2
      = (Ok recipient, tr3).

(** The exchanges with the provider that a route may make for one request. *)
Definition exchange_budget (route : payment_route) : nat :=
  match route with
  | can_pay => 1
  | pay_user => 4
  | fund_user => 2
  | sponsor_user => 4
  end.

(** A computation that makes at most [n] exchanges with the provider. *)
Definition at_most (n : nat) {A : Type} (m : M A) : Prop :=
  forall tr, (count_http (snd (m tr)) <= count_http tr + n)%nat.

(** An environment whose provider knows the parties and answers every other
    request, the recipient lookup among them, with an empty body. *)
Definition no_recipient_env : Env :=
  {| pylib := sample_lib;
     RAPYD_MONEY_API_TOKEN := Some "secret";
     RAPYD_MONEY_BASE_URL := Some sample_base;
     provider := fun tr rq =>
                   if prefix (sample_base @@ "/recipient/") (rq_url rq)
                   then Response 200 EmptyString None
                   else sample_provider (Response 200 EmptyString None) tr rq;
     mailer := fun _ _ => Ok true |}.


Definition magic_link_log (to : string) (r : outcome bool) : event :=
  match r with
  | Ok true => Log INFO ("Sent magic link email to " @@ to) None
  | Ok false => Log ERROR ("Failed to send magic link email to " @@ to) None
  | Raise e => Log ERROR "Error handling STUDENT_MAGIC_LINK_REQUESTED" (Some e)
  end.


(** A registered user with a first name and an empty last name. *)
Definition first_name_only : UserEnvelope.t :=
  {| UserEnvelope.id := "u-1";
     UserEnvelope.email := "wikus@example.org";
     UserEnvelope.role := Some merchant;
     UserEnvelope.firstName := Some "Wikus";
     UserEnvelope.lastName := Some EmptyString;
     UserEnvelope.studentNumber := None;
     UserEnvelope.is_active := None;
     UserEnvelope.created_at := None |}.

Definition registered_record (user : UserEnvelope.t) : UserRegisteredMessage.t :=
  {| UserRegisteredMessage.eventType := USER_REGISTERED;
     UserRegisteredMessage.timestamp := "2025-08-08T14:43:25.029Z";
     UserRegisteredMessage.user := user;
     UserRegisteredMessage.keys := {| Keys.Pk := "MERCHANT#u-1"; Keys.Sk := "USER" |};
     UserRegisteredMessage.table := "kudupay-prod";
     UserRegisteredMessage.source := "auth.registerUser" |}.

Definition registered_message (user : UserEnvelope.t) : SqsMessage :=
  UserRegistered (registered_record user).


(** ** parsemessage.py: the class of a message *)

(** [get_sqs_model_class]: the registered class of the message, without
    validating the payload. *)
Definition get_sqs_model_class (lib : PyLib) (message : json) : outcome model_cls :=
  match py_in "eventType" message with
  | Raise e => Raise e
  | Ok false => Raise (ValueError MissingEventType)
  | Ok true =>
      let event :=
        match py_getitem message "eventType" with
        | Raise e => Raise e
        | Ok v =>
            match EventType_of v with
            | Some ev => Ok ev
            | None => Raise (OtherError "not a valid EventType")
            end
        end in
      match event with
      | Raise _ =>
          match py_get message "eventType" JNull with
          | Raise e => Raise e
          | Ok shown => Raise (ValueError (UnknownEventType (py_str lib shown)))
          end
      | Ok ev =>
          match SqsModelRegistry.get_class sqs_registry ev with
          | None => Raise (ValueError (NoModelRegistered (EventType_value ev)))
          | Some c => Ok c
          end
      end
  end.

(** [type(parsed)]. *)
Definition type_of (parsed : SqsMessage) : model_cls :=
  match parsed with
  | UserRegistered _ => _UserRegistered
  | StudentMagicLinkRequested _ => _StudentMagicLinkRequested
  end.

(** The event type a registered class is a model of. *)
Definition event_of (c : model_cls) : EventType :=
  match c with
  | _UserRegistered => USER_REGISTERED
  | _StudentMagicLinkRequested => STUDENT_MAGIC_LINK_REQUESTED
  end.

(** The value of an optional string field read from the entry of a map. *)
Definition optional_entry (entry : option json) (field : option string) : Prop :=
  match entry with
  | None | Some JNull => field = None
  | Some v => exists s, v = JStr s /\ field = Some s
  end.

(** The value of an optional role read from the entry of a map. *)
Definition optional_role (entry : option json) (field : option UserRole) : Prop :=
  match entry with
  | None | Some JNull => field = None
  | Some v => exists r, v = JStr (UserRole_value r) /\ field = Some r
  end.

(** An entry that is a string which the e-mail validation turns into [address]. *)
Definition validated_email (lib : PyLib) (entry : option json) (address : string) : Prop :=
  exists s, entry = Some (JStr s) /\ validate_email lib s = Some address.

(** A magic-link request as it comes out of the queue. *)
Definition magic_link_payload : list (string * json) :=
  [("eventType", JStr "STUDENT_MAGIC_LINK_REQUESTED");
   ("timestamp", JStr "2025-08-08T14:43:25.029Z");
   ("email", JStr "thandi@example.org");
   ("magicToken", JStr "tok-123");
   ("linkUrl", JNull)].

Definition magic_link_record : StudentMagicLinkRequestedMessage.t :=
  {| StudentMagicLinkRequestedMessage.eventType := STUDENT_MAGIC_LINK_REQUESTED;
     StudentMagicLinkRequestedMessage.timestamp := "2025-08-08T14:43:25.029Z";
     StudentMagicLinkRequestedMessage.email := "thandi@example.org";
     StudentMagicLinkRequestedMessage.magicToken := "tok-123";
     StudentMagicLinkRequestedMessage.linkUrl := None;
     StudentMagicLinkRequestedMessage.source := None |}.

(** The registration of [first_name_only] as it comes out of the queue. *)
Definition registered_payload : list (string * json) :=
  [("eventType", JStr "USER_REGISTERED");
   ("timestamp", JStr "2025-08-08T14:43:25.029Z");
   ("user", JDict [("id", JStr "u-1"); ("email", JStr "wikus@example.org");
                   ("role", JStr "merchant"); ("firstName", JStr "Wikus");
                   ("lastName", JStr EmptyString)]);
   ("keys", JDict [("Pk", JStr "MERCHANT#u-1"); ("Sk", JStr "USER")]);
   ("table", JStr "kudupay-prod");
   ("source", JStr "auth.registerUser")].

(** ** rapydmoney.py: balances of answers without a token list *)

Definition zero_balance : RapydMoneyBalance.t :=
  {| RapydMoneyBalance.zar := Decimal_zero; RapydMoneyBalance.usd := Decimal_zero |}.

(** An answer with a token list at the top and an empty map under 'balance'. *)
Definition shadowed_tokens : json :=
  JDict [("tokens", JList [JDict [("name", JStr "L ZAR Coin"); ("balance", JStr "12.5")]]);
         ("balance", JDict [])].

(** ** mailer.py

    The mailer keeps its configuration in the process environment, a map from
    names to strings, talks to an SMTP server through [smtplib] and writes to
    its own logger.  What it does is a list of [mailer_event]s: the commands
    of the SMTP sessions with what they raised, and the log records.  The
    functions of the runtime library whose text is not in the repository are
    the fields of [MailLib]. *)

Record MailLib : Type := {
  str_strip : string -> string;                      (* s.strip() *)
  int_of_str : string -> option Z;                   (* int(s) *)
  environ_refuses : string -> string -> option exn;  (* what os.environ[key] = value raises *)
  header_refused : string -> string -> option exn;   (* what msg[name] = value raises *)
  content_refused : string -> option exn;            (* what set_content / add_alternative raises *)
  header_str : string -> string -> string;           (* str(msg[name]) of a stored value *)
}.

(** A double quote and a line feed. *)
Definition dq : string := String (ascii_of_nat 34) EmptyString.
Definition nl : string := String (ascii_of_nat 10) EmptyString.

Definition environ_t : Type := list (string * string).

(** [os.environ[key] = value]. *)
Fixpoint environ_set (key value : string) (environ : environ_t) : environ_t :=
  match environ with
  | [] => [(key, value)]
  | (k, v) :: rest =>
      if String.eqb key k then (k, value) :: rest else (k, v) :: environ_set key value rest
  end.

(** [os.environ.get(key, default)]. *)
Definition environ_get (key : string) (environ : environ_t) (dflt : string) : string :=
  match lookup key environ with Some v => v | None => dflt end.

(** [line.split("=", 1)] for a line that contains "=". *)
Fixpoint split_eq (line : string) : string * string :=
  match line with
  | EmptyString => (EmptyString, EmptyString)
  | String c rest =>
      if Ascii.eqb c "=" then (EmptyString, rest)
      else let (key, value) := split_eq rest in (String c key, value)
  end.

(** The file [.smtp.env] beside the package: absent, or the lines that were
    read and what [open] or the reading raised, if anything. *)
Inductive env_file : Type :=
| NoFile
| File (lines : list string) (failure : option exn).

(** One turn of the loop of [_load_smtp_env_file_if_present]. *)
Definition load_line (lib : MailLib) (environ : environ_t) (raw_line : string)
  : outcome environ_t :=
  let line := str_strip lib raw_line in
  if (String.eqb line EmptyString || prefix "#" line)%bool then Ok environ
  else if negb (contains "=" line) then Ok environ
  else
    let (key, value) := split_eq line in
    let key := str_strip lib key in
    let value := str_strip lib value in
    if (negb (String.eqb key EmptyString) && negb (has_key key environ))%bool then
      match environ_refuses lib key value with
      | Some exc => Raise exc
      | None => Ok (environ_set key value environ)
      end
    else Ok environ.

(** The loop: the environment it leaves and the exception that ended it. *)
Fixpoint load_lines (lib : MailLib) (environ : environ_t) (lines : list string)
         (failure : option exn) : environ_t * option exn :=
  match lines with
  | [] => (environ, failure)
  | raw_line :: rest =>
      match load_line lib environ raw_line with
      | Ok environ' => load_lines lib environ' rest failure
      | Raise exc => (environ, Some exc)
      end
  end.

Inductive smtp_command : Type :=
| SMTP_SSL (server : string) (port : Z)   (* create_default_context(); smtplib.SMTP_SSL(...) *)
| SMTP (server : string) (port : Z)       (* smtplib.SMTP(server, port) *)
| starttls                                (* smtp.starttls(context=create_default_context()) *)
| login (username password : string)
| send_message (Subject From To : string) (content : string) (alternative : option string)
| quit.                                   (* leaving the [with] block *)

Inductive mailer_event : Type :=
| Smtp (command : smtp_command) (raised : option exn)
| Logged (level : log_level) (msg : string) (args : list string) (exc : option exn).

Definition mailer_trace : Type := list mailer_event.

(** [_load_smtp_env_file_if_present]: the environment afterwards and the
    warning, if the loading was cut short. *)
Definition _load_smtp_env_file_if_present (lib : MailLib) (file : env_file)
           (environ : environ_t) : environ_t * mailer_trace :=
  match file with
  | NoFile => (environ, [])
  | File lines failure =>
      match load_lines lib environ lines failure with
      | (environ', None) => (environ', [])
      | (environ', Some exc) =>
          (environ', [Logged WARNING "Failed to load .smtp.env: %s" [] (Some exc)])
      end
  end.

(** What the mailer runs in: the library, the environment at the time of the
    call, and the SMTP server, whose answers may depend on what happened
    before. *)
Record MailEnv : Type := {
  maillib : MailLib;
  environ : environ_t;
  smtp_server : mailer_trace -> smtp_command -> option exn;
}.

(** Computations of the mailer. *)
Definition W (A : Type) : Type := mailer_trace -> outcome A * mailer_trace.

Definition wret {A : Type} (a : A) : W A := fun tr => (Ok a, tr).

Definition wbind {A B : Type} (m : W A) (f : A -> W B) : W B :=
  fun tr =>
    match m tr with
    | (Ok a, tr') => f a tr'
    | (Raise e, tr') => (Raise e, tr')
    end.

Definition wtry {A : Type} (m : W A) (h : exn -> W A) : W A :=
  fun tr =>
    match m tr with
    | (Ok a, tr') => (Ok a, tr')
    | (Raise e, tr') => h e tr'
    end.

Definition logged (level : log_level) (msg : string) (args : list string)
           (exc : option exn) : W unit :=
  fun tr => (Ok tt, tr ++ [Logged level msg args exc]).

(** A call of the library that may raise and leaves no trace. *)
Definition accepted (refusal : option exn) : W unit :=
  fun tr => (match refusal with Some e => Raise e | None => Ok tt end, tr).

(** A command of an SMTP session. *)
Definition smtp (menv : MailEnv) (command : smtp_command) : W unit :=
  fun tr =>
    let raised := smtp_server menv tr command in
    (match raised with Some e => Raise e | None => Ok tt end, tr ++ [Smtp command raised]).

(** [with <opened> as smtp: body]: the session is left with [quit] whether
    the body returned or raised, and what [quit] raises replaces what the
    body raised. *)
Definition with_session (menv : MailEnv) (opened : smtp_command) (body : W unit) : W unit :=
  wbind (smtp menv opened)
    (fun _ tr =>
       let (r, tr') := body tr in
       match smtp menv quit tr' with
       | (Ok _, tr'') => (r, tr'')
       | (Raise e, tr'') => (Raise e, tr'')
       end).

(** [to: str | Iterable[str]]. *)
Inductive recipients_arg : Type :=
| One (to : string)
| Many (to : list string).

Definition welcome_strong (user_name : option string) : string :=
  match user_name with
  | Some n => if String.eqb n EmptyString then EmptyString else ", <strong>" @@ n @@ "</strong>"
  | None => EmptyString
  end.

Definition welcome_html (user_name : option string) : string :=
  nl @@
  "        <div style=" @@ dq @@ "font-family: Arial, sans-serif; max-width: 600px; margin: 0 auto;" @@ dq @@ ">" @@ nl @@
  "          <h1 style=" @@ dq @@ "color: #333;" @@ dq @@ ">ü¶å Welcome to KuduPay!</h1>" @@ nl @@
  "          <p>Welcome to KuduPay" @@ welcome_strong user_name @@ "!</p>" @@ nl @@
  "          <p>Thank you for joining our platform. We're excited to have you on board.</p>" @@ nl @@
  "          <p>If you have any questions, feel free to reach out to our support team.</p>" @@ nl @@
  "          <p>Best regards,<br>The KuduPay Team</p>" @@ nl @@
  "        </div>" @@ nl @@
  "        ".

Definition magic_link_html (verify_link : string) : string :=
  nl @@
  "        <div style=" @@ dq @@ "font-family: Arial, sans-serif; max-width: 600px; margin: 0 auto; padding: 20px;" @@ dq @@ ">" @@ nl @@
  "          <h1 style=" @@ dq @@ "color: #333; font-size: 24px;" @@ dq @@ ">üîê Your Secure Login Link</h1>" @@ nl @@
  "          <p style=" @@ dq @@ "font-size: 16px; line-height: 1.5;" @@ dq @@ ">Hi there!</p>" @@ nl @@
  "          <p style=" @@ dq @@ "font-size: 16px; line-height: 1.5;" @@ dq @@ ">Someone (hopefully you!) requested to sign in to your KuduPay student account.</p>" @@ nl @@
  "          <div style=" @@ dq @@ "text-align: center; margin: 30px 0;" @@ dq @@ ">" @@ nl @@
  "            <a href=" @@ dq @@ verify_link @@ dq @@ " style=" @@ dq @@ "background-color: #007bff; color: white; padding: 15px 30px; text-decoration: none; border-radius: 8px; display: inline-block; font-size: 16px; font-weight: bold;" @@ dq @@ ">" @@ nl @@
  "              Sign In Securely" @@ nl @@
  "            </a>" @@ nl @@
  "          </div>" @@ nl @@
  "          <p style=" @@ dq @@ "font-size: 14px; color: #666; text-align: center;" @@ dq @@ ">Or copy and paste this link into your browser:</p>" @@ nl @@
  "          <p style=" @@ dq @@ "font-size: 12px; color: #666; word-break: break-all; text-align: center; background-color: #f8f9fa; padding: 10px; border-radius: 4px;" @@ dq @@ ">" @@ verify_link @@ "</p>" @@ nl @@
  "          <div style=" @@ dq @@ "background-color: #fff3cd; padding: 15px; border-radius: 8px; border-left: 4px solid #ffc107; margin: 20px 0;" @@ dq @@ ">" @@ nl @@
  "            <p style=" @@ dq @@ "margin: 0; font-size: 14px; color: #856404;" @@ dq @@ "><strong>‚è∞ Important:</strong> This secure link will expire in 15 minutes for your protection.</p>" @@ nl @@
  "          </div>" @@ nl @@
  "          <p style=" @@ dq @@ "font-size: 14px; line-height: 1.5; color: #666;" @@ dq @@ ">If you didn't request this login link, you can safely ignore this email. Your account remains secure.</p>" @@ nl @@
  "          <p style=" @@ dq @@ "font-size: 14px; line-height: 1.5;" @@ dq @@ ">Need help? Feel free to reach out to our student support team.</p>" @@ nl @@
  "          <hr style=" @@ dq @@ "border: none; border-top: 1px solid #eee; margin: 30px 0;" @@ dq @@ ">" @@ nl @@
  "          <p style=" @@ dq @@ "font-size: 14px; color: #666;" @@ dq @@ ">Best regards,<br><strong>The KuduPay Team</strong></p>" @@ nl @@
  "        </div>" @@ nl @@
  "        ".

Module SMTPMailer.

Record t : Type := {
  server : option string;
  port : Z;
  username : option string;
  password : option string;
  secure : bool;
  default_from : string;
}.

(** [a or b] for an optional string [a]. *)
Definition or_else (a : option string) (b : string) : string :=
  match a with
  | Some s => if String.eqb s EmptyString then b else s
  | None => b
  end.

(** [SMTPMailer()]: the environment after the loading of the file, what the
    loading logged, and the mailer, unless SMTP_PORT is not a number. *)
Definition init (lib : MailLib) (file : env_file) (environ : environ_t)
  : outcome t * environ_t * mailer_trace :=
  let (environ, logs) := _load_smtp_env_file_if_present lib file environ in
  let server := lookup "SMTP_SERVER" environ in
  match int_of_str lib (environ_get "SMTP_PORT" environ "587") with
  | None => (Raise (OtherError "ValueError"), environ, logs)
  | Some port =>
      let username := lookup "SMTP_USER" environ in
      let password := lookup "SMTP_PASS" environ in
      let secure := String.eqb (lower (environ_get "SMTP_SECURE" environ "false")) "true" in
      let default_from :=
        or_else (lookup "SMTP_FROM" environ) (or_else username "noreply@kudupay.com") in
      (Ok {| server := server; port := port; username := username; password := password;
             secure := secure; default_from := default_from |},
       environ, logs)
  end.

Section Calls.

Variable menv : MailEnv.
Variable self : t.

Let lib := maillib menv.

Definition login_if_configured : W unit :=
  if (nonempty (username self) && nonempty (password self))%bool then
    match username self, password self with
    | Some u, Some p => smtp menv (login u p)
    | _, _ => wret tt
    end
  else wret tt.

Definition send_email (to : recipients_arg) (subject : string) (text html : option string)
           (from_addr : option string) : W bool :=
  if negb (nonempty (server self)) then
    wbind (logged ERROR "SMTP_SERVER is not configured; skipping email send" [] None)
      (fun _ => wret false)
  else if String.eqb subject EmptyString then
    wbind (logged ERROR "Missing subject for email; skipping" [] None) (fun _ => wret false)
  else if (negb (nonempty text) && negb (nonempty html))%bool then
    wbind (logged ERROR "Email requires text or html content; skipping" [] None)
      (fun _ => wret false)
  else
    let From := or_else from_addr (default_from self) in
    wbind (accepted (header_refused lib "Subject" subject)) (fun _ =>
    wbind (accepted (header_refused lib "From" From)) (fun _ =>
    let recipients := match to with One a => [a] | Many l => l end in
    match recipients with
    | [] =>
        wbind (logged ERROR "No recipients provided; skipping email" [] None)
          (fun _ => wret false)
    | _ =>
        let To := join ", " recipients in
        wbind (accepted (header_refused lib "To" To)) (fun _ =>
        let content :=
          if (nonempty text && nonempty html)%bool then or_else text EmptyString
          else if nonempty html then
            "This message contains HTML content. Use an HTML-capable email client."
          else or_else text EmptyString in
        let alternative := if nonempty html then html else None in
        wbind (accepted (content_refused lib content)) (fun _ =>
        wbind (match alternative with
               | Some h => accepted (content_refused lib h)
               | None => wret tt
               end) (fun _ =>
        let msg := send_message subject From To content alternative in
        let host := or_else (server self) EmptyString in
        wtry
          (wbind
             (if secure self then
                with_session menv (SMTP_SSL host (port self))
                  (wbind login_if_configured (fun _ => smtp menv msg))
              else
                with_session menv (SMTP host (port self))
                  (wbind (wtry (smtp menv starttls) (fun _ => wret tt)) (fun _ =>
                   wbind login_if_configured (fun _ => smtp menv msg))))
             (fun _ =>
                wbind (logged INFO "Email sent to %s with subject '%s'"
                         [header_str lib "To" To; subject] None)
                  (fun _ => wret true)))
          (fun exc =>
             wbind (logged ERROR "Failed to send email via SMTP: %s" [] (Some exc))
               (fun _ => wret false)))))
    end)).

Definition send_welcome_email (to : string) (user_name user_role : option string) : W bool :=
  let subject := "Welcome to KuduPay!" in
  let greeting_name :=
    match user_name with
    | Some n => if String.eqb n EmptyString then EmptyString else ", " @@ n
    | None => EmptyString
    end in
  let text :=
    "Welcome to KuduPay" @@ greeting_name @@ "!" @@ nl @@ nl @@
    "Thank you for joining our platform. We're excited to have you on board." @@ nl @@ nl @@
    "If you have any questions, feel free to reach out to our support team." @@ nl @@ nl @@
    "Best regards," @@ nl @@ "The KuduPay Team" in
  let html := welcome_html user_name in
  send_email (One to) subject (Some text) (Some html) None.

(** The link of a magic-link mail. *)
Definition verify_link (magic_token : string) (link_url : option string) : string :=
  if nonempty link_url then or_else link_url EmptyString
  else
    let base_url :=
      environ_get "FRONTEND_URL" (environ menv) "http://localhost:5173/for-students/login" in
    rstrip_slash base_url @@ "/verify-intent?token=" @@ magic_token.

Definition magic_link_text (verify_link : string) : string :=
  "Hi there!" @@ nl @@ nl @@
  "Someone (hopefully you!) requested to sign in to your KuduPay student account." @@ nl @@ nl @@
  "Click the link below to securely sign in:" @@ nl @@
  verify_link @@ nl @@ nl @@
  "This secure link will expire in 15 minutes for your protection." @@ nl @@ nl @@
  "If you didn't request this login link, you can safely ignore this email. Your account remains secure." @@ nl @@ nl @@
  "Need help? Feel free to reach out to our student support team." @@ nl @@ nl @@
  "Best regards," @@ nl @@ "The KuduPay Team".

Definition send_magic_link_email (to magic_token : string) (link_url : option string)
  : W bool :=
  let link := verify_link magic_token link_url in
  let subject := "Your Secure Login Link - KuduPay" in
  send_email (One to) subject (Some (magic_link_text link)) (Some (magic_link_html link)) None.

End Calls.

End SMTPMailer.

(** *** Vocabulary of the properties of the mailer *)

(** The binding that a line of [.smtp.env] stands for: none for a blank
    line, a comment, a line without "=" and a line with an empty key. *)
Definition binding (lib : MailLib) (raw_line : string) : option (string * string) :=
  let line := str_strip lib raw_line in
  if (String.eqb line EmptyString || prefix "#" line)%bool then None
  else if negb (contains "=" line) then None
  else
    let key := str_strip lib (fst (split_eq line)) in
    if String.eqb key EmptyString then None
    else Some (key, str_strip lib (snd (split_eq line))).

Definition binds (lib : MailLib) (key : string) (raw_line : string) : bool :=
  match binding lib raw_line with
  | Some (k, _) => String.eqb key k
  | None => false
  end.

(** The environment after the loading of a file. *)
Definition loaded (lib : MailLib) (file : env_file) (environ : environ_t) : environ_t :=
  fst (_load_smtp_env_file_if_present lib file environ).

(** A library that strips blanks at both ends, reads decimal digits and
    refuses nothing. *)
Fixpoint lstrip_blank (s : string) : string :=
  match s with
  | String c s' => if Ascii.eqb c " " then lstrip_blank s' else s
  | EmptyString => EmptyString
  end.

Fixpoint rstrip_blank (s : string) : string :=
  match s with
  | EmptyString => EmptyString
  | String c s' =>
      match rstrip_blank s' with
      | EmptyString => if Ascii.eqb c " " then EmptyString else String c EmptyString
      | r => String c r
      end
  end.

Definition sample_maillib : MailLib :=
  {| str_strip := fun s => rstrip_blank (lstrip_blank s);
     int_of_str := fun s => if String.eqb s "587" then Some 587 else
                            if String.eqb s "465" then Some 465 else None;
     environ_refuses := fun _ _ => None;
     header_refused := fun _ _ => None;
     content_refused := fun _ => None;
     header_str := fun _ value => value |}.

Definition sample_smtp_env : env_file :=
  File ["# mail relay"; "SMTP_SERVER = smtp.example.org"; EmptyString; "SMTP_PORT=465";
        "SMTP_SERVER=other.example.org"; "no binding here"; "SMTP_SECURE=TRUE"] None.

(** The SMTP commands of a list of events, in order. *)
Definition commands (tr : mailer_trace) : list smtp_command :=
  flat_map (fun ev => match ev with Smtp c _ => [c] | Logged _ _ _ _ => [] end) tr.

(** No command raised, [starttls] apart. *)
Definition all_accepted (tr : mailer_trace) : bool :=
  forallb (fun ev => match ev with
                     | Smtp starttls _ => true
                     | Smtp _ (Some _) => false
                     | _ => true
                     end) tr.

(** The first command raised. *)
Definition refused_at_once (tr : mailer_trace) : bool :=
  match tr with
  | Smtp _ (Some _) :: _ => true
  | _ => false
  end.

(** An e-mail that passes the guards of [send_email]. *)
Definition sendable (self : SMTPMailer.t) (to : recipients_arg) (subject : string)
           (text html : option string) : bool :=
  (nonempty (SMTPMailer.server self) && negb (String.eqb subject EmptyString)
   && (nonempty text || nonempty html)
   && match to with Many [] => false | _ => true end)%bool.

(** The message that [send_email] builds. *)
Definition message (self : SMTPMailer.t) (to : recipients_arg) (subject : string)
           (text html from_addr : option string) : smtp_command :=
  send_message subject
    (SMTPMailer.or_else from_addr (SMTPMailer.default_from self))
    (join ", " (match to with One a => [a] | Many l => l end))
    (if nonempty html then
       if nonempty text then SMTPMailer.or_else text EmptyString
       else "This message contains HTML content. Use an HTML-capable email client."
     else SMTPMailer.or_else text EmptyString)
    (if nonempty html then html else None).

(** The library accepts the headers and the contents of a message. *)
Definition library_accepts (lib : MailLib) (msg : smtp_command) : Prop :=
  match msg with
  | send_message Subject From To content alternative =>
      header_refused lib "Subject" Subject = None /\
      header_refused lib "From" From = None /\
      header_refused lib "To" To = None /\
      content_refused lib content = None /\
      match alternative with Some h => content_refused lib h = None | None => True end
  | _ => True
  end.

(** The session of a mailer for a message: its opening and what follows. *)
Definition opening (self : SMTPMailer.t) : smtp_command :=
  let host := SMTPMailer.or_else (SMTPMailer.server self) EmptyString in
  if SMTPMailer.secure self then SMTP_SSL host (SMTPMailer.port self)
  else SMTP host (SMTPMailer.port self).

Definition credentials (self : SMTPMailer.t) : list smtp_command :=
  match SMTPMailer.username self, SMTPMailer.password self with
  | Some u, Some p =>
      if (negb (String.eqb u EmptyString) && negb (String.eqb p EmptyString))%bool
      then [login u p] else []
  | _, _ => []
  end.

Definition session_body (self : SMTPMailer.t) (msg : smtp_command) : list smtp_command :=
  (if SMTPMailer.secure self then [] else [starttls]) ++ credentials self ++ [msg].

(** A mailer for the sessions of the examples. *)
Definition sample_mailer (secure : bool) : SMTPMailer.t :=
  {| SMTPMailer.server := Some "smtp.example.org";
     SMTPMailer.port := 587;
     SMTPMailer.username := Some "relay";
     SMTPMailer.password := Some "secret";
     SMTPMailer.secure := secure;
     SMTPMailer.default_from := "relay" |}.

(** A server that does not know STARTTLS and accepts everything else; and a
    server that refuses the login. *)
Definition plain_server : mailer_trace -> smtp_command -> option exn :=
  fun _ c => match c with starttls => Some (OtherError "SMTPNotSupportedError") | _ => None end.

Definition closed_server : mailer_trace -> smtp_command -> option exn :=
  fun _ c => match c with
             | login _ _ => Some (OtherError "SMTPAuthenticationError")
             | _ => None
             end.

Definition sample_menv (server : mailer_trace -> smtp_command -> option exn) : MailEnv :=
  {| maillib := sample_maillib;
     environ := [("FRONTEND_URL", "https://kudupay.example//")];
     smtp_server := server |}.

(** [exc] is what the library raised for a header or a content of the message. *)
Definition refusal (lib : MailLib) (msg : smtp_command) (exc : exn) : Prop :=
  match msg with
  | send_message Subject From To content alternative =>
      header_refused lib "Subject" Subject = Some exc \/
      header_refused lib "From" From = Some exc \/
      header_refused lib "To" To = Some exc \/
      content_refused lib content = Some exc \/
      exists h, alternative = Some h /\ content_refused lib h = Some exc
  | _ => False
  end.

(** The two mails of the queue consumer, as the server receives them. *)
Definition magic_link_message (self : SMTPMailer.t) (to link : string) : smtp_command :=
  send_message "Your Secure Login Link - KuduPay" (SMTPMailer.default_from self) to
    (SMTPMailer.magic_link_text link) (Some (magic_link_html link)).

(** The settings of a mailer, as they are read from an environment. *)
Definition configured_by (lib : MailLib) (environ : environ_t) (self : SMTPMailer.t) : Prop :=
  SMTPMailer.server self = lookup "SMTP_SERVER" environ /\
  int_of_str lib (environ_get "SMTP_PORT" environ "587") = Some (SMTPMailer.port self) /\
  SMTPMailer.username self = lookup "SMTP_USER" environ /\
  SMTPMailer.password self = lookup "SMTP_PASS" environ /\
  SMTPMailer.secure self
  = String.eqb (lower (environ_get "SMTP_SECURE" environ "false")) "true".

Definition welcome_text (user_name : option string) : string :=
  "Welcome to KuduPay" @@
  match user_name with
  | Some n => if String.eqb n EmptyString then EmptyString else ", " @@ n
  | None => EmptyString
  end @@ "!" @@ nl @@ nl @@
  "Thank you for joining our platform. We're excited to have you on board." @@ nl @@ nl @@
  "If you have any questions, feel free to reach out to our support team." @@ nl @@ nl @@
  "Best regards," @@ nl @@ "The KuduPay Team".

Definition welcome_message (self : SMTPMailer.t) (to : string) (user_name : option string)
  : smtp_command :=
  send_message "Welcome to KuduPay!" (SMTPMailer.default_from self) to
    (welcome_text user_name) (Some (welcome_html user_name)).

(** The events of a session after its opening: the commands of [cmds] are
    sent one after the other, from the events [tr] on, up to the first that
    raises, STARTTLS not counting, and then QUIT is sent. *)
Fixpoint session_after_opening (menv : MailEnv) (tr : mailer_trace)
         (cmds : list smtp_command) : mailer_trace :=
  match cmds with
  | [] => [Smtp quit (smtp_server menv tr quit)]
  | c :: rest =>
      let raised := smtp_server menv tr c in
      let tr' := tr ++ [Smtp c raised] in
      Smtp c raised ::
      match raised, c with
      | Some _, starttls | None, _ => session_after_opening menv tr' rest
      | Some _, _ => [Smtp quit (smtp_server menv tr' quit)]
      end
  end.

(** The events of the session of a message: the opening and, unless it
    raised, what follows it. *)
Definition session_events (menv : MailEnv) (self : SMTPMailer.t) (msg : smtp_command)
           (tr : mailer_trace) : mailer_trace :=
  let raised := smtp_server menv tr (opening self) in
  Smtp (opening self) raised ::
  match raised with
  | Some _ => []
  | None =>
      session_after_opening menv (tr ++ [Smtp (opening self) raised]) (session_body self msg)
  end.

(** What the last command that raised, STARTTLS not counting, raised. *)
Definition last_raise (session : mailer_trace) : option exn :=
  fold_left (fun found ev =>
               match ev with
               | Smtp starttls _ => found
               | Smtp _ (Some exc) => Some exc
               | _ => found
               end) session None.

(** The log record of a session: [sent] when no command raised, STARTTLS
    apart, and else the failure with the exception that ended the session. *)
Definition session_record (sent : mailer_event) (session : mailer_trace) : mailer_event :=
  match last_raise session with
  | None => sent
  | Some exc => Logged ERROR "Failed to send email via SMTP: %s" [] (Some exc)
  end.

(** * Properties *)

(** ** Computations: equations and the passage of the client's error *)

Lemma bind_ok {A B : Type} (m : M A) (f : A -> M B) tr a tr' :
  m tr = (Ok a, tr') -> bind m f tr = f a tr'.
Proof. intros H. unfold bind. now rewrite H. Qed.

Lemma bind_raise {A B : Type} (m : M A) (f : A -> M B) tr e tr' :
  m tr = (Raise e, tr') -> bind m f tr = (Raise e, tr').
Proof. intros H. unfold bind. now rewrite H. Qed.

Lemma clean_nil : clean [].
Proof. intros rq rs []. Qed.

Lemma clean_snoc tr ev :
  clean tr ->
  (forall rq rs, ev = Http rq rs -> failed rs = false) ->
  clean (tr ++ [ev]).
Proof.
  intros Hc Hev rq rs Hin. apply in_app_or in Hin. destruct Hin as [Hin | [Heq | []]].
  - now apply (Hc rq).
  - now apply (Hev rq).
Qed.

Lemma propagates_ret {A : Type} (a : A) : propagates (ret a).
Proof. intros tr Hc. now left. Qed.

Lemma propagates_raise {A : Type} (e : exn) : propagates (@raise A e).
Proof. intros tr Hc. now left. Qed.

Lemma propagates_lift {A : Type} (o : outcome A) : propagates (lift o).
Proof. intros tr Hc. now left. Qed.

Lemma propagates_print (line : string) : propagates (print line).
Proof.
  intros tr Hc. left. cbn. apply clean_snoc; [assumption | discriminate].
Qed.

Lemma propagates_bind {A B : Type} (m : M A) (f : A -> M B) :
  propagates m -> (forall a, propagates (f a)) -> propagates (bind m f).
Proof.
  intros Hm Hf tr Hc. specialize (Hm tr Hc). unfold bind.
  destruct (m tr) as [[a | e] tr'] eqn:E; cbn in Hm.
  - destruct Hm as [Hc' | (tr0 & rq & rs & _ & _ & _ & Hr)]; [| discriminate].
    now apply Hf.
  - cbn. destruct Hm as [Hc' | (tr0 & rq & rs & Ht & Hc0 & Hfail & Hr)]; [now left |].
    right. exists tr0, rq, rs. repeat split; try assumption.
    injection Hr as ->. reflexivity.
Qed.

Lemma propagates_request env self method path json_body timeout :
  propagates (_request env self method path json_body timeout).
Proof.
  intros tr Hc. unfold _request, bind, requests_request.
  set (rq := {| rq_method := upper method; rq_url := url_of self path;
                rq_authorization := _headers self; rq_json := json_body;
                rq_timeout := timeout_or_default self timeout |}).
  destruct (provider env tr rq) as [what | status_code text decoded] eqn:E.
  - right. exists tr, rq, (RequestException what). cbn. auto.
  - destruct (status_ok status_code) eqn:Hs; cbn.
    + left.
      assert (Hc' : clean (tr ++ [Http rq (Response status_code text decoded)])).
      { apply clean_snoc; [assumption |]. intros rq' rs' [= <- <-]. cbn. now rewrite Hs. }
      destruct (String.eqb text EmptyString); [exact Hc' |]. destruct decoded; exact Hc'.
    + right. exists tr, rq, (Response status_code text decoded). cbn. rewrite Hs. auto.
Qed.

(** Programs made of the constructs above, with no [try], let the error pass. *)
Ltac propagate :=
  repeat first
    [ apply propagates_ret
    | apply propagates_raise
    | apply propagates_lift
    | apply propagates_print
    | apply propagates_request
    | apply propagates_bind; [| intros ? ]
    | match goal with
      | |- propagates (match ?x with _ => _ end) => destruct x
      | |- propagates (if ?b then _ else _) => destruct b
      end ].

Lemma propagates_get_user env self user_id timeout :
  propagates (get_user env self user_id timeout).
Proof. unfold get_user. propagate. Qed.

Lemma propagates_get_balance env self user_id timeout :
  propagates (get_balance env self user_id timeout).
Proof. unfold get_balance. propagate. Qed.

Lemma propagates_get_recipient env self payment_identifier timeout :
  propagates (get_recipient env self payment_identifier timeout).
Proof. unfold get_recipient. propagate. Qed.

Lemma propagates_mint env self mint_data timeout :
  propagates (mint env self mint_data timeout).
Proof. unfold mint. propagate. Qed.

Lemma propagates_do_transfer env self from_user_id to_user_identifier amount trx_id :
  propagates (do_transfer env self from_user_id to_user_identifier amount trx_id).
Proof. unfold do_transfer. propagate. Qed.

Ltac propagate_calls :=
  repeat first
    [ apply propagates_get_user
    | apply propagates_get_balance
    | apply propagates_get_recipient
    | apply propagates_mint
    | apply propagates_do_transfer
    | apply propagates_ret
    | apply propagates_raise
    | apply propagates_lift
    | apply propagates_print
    | apply propagates_bind; [| intros ? ]
    | match goal with
      | |- propagates (match ?x with _ => _ end) => destruct x
      | |- propagates (if ?b then _ else _) => destruct b
      end ].

Lemma propagates_api_can_pay env json_body : propagates (api_can_pay env json_body).
Proof. unfold api_can_pay, new_service. propagate_calls. Qed.

Lemma propagates_api_pay_user env json_body : propagates (api_pay_user env json_body).
Proof. unfold api_pay_user, new_service. propagate_calls. Qed.

Lemma propagates_api_fund_user env json_body : propagates (api_fund_user env json_body).
Proof. unfold api_fund_user, new_service. propagate_calls. Qed.

Lemma propagates_api_sponsor_user env json_body : propagates (api_sponsor_user env json_body).
Proof. unfold api_sponsor_user, new_service. propagate_calls. Qed.

(** From [propagates] to the statement about one run of a handler. *)
Lemma failed_exchange_is_raised {A : Type} (m : M A) rq rs :
  propagates m ->
  In (Http rq rs) (snd (m [])) -> failed rs = true ->
  fst (m []) = Raise (client_error rq rs).
Proof.
  intros Hm Hin Hf. destruct (Hm [] clean_nil) as [Hc | (tr0 & rq' & rs' & Ht & Hc & _ & Hr)].
  - rewrite (Hc rq rs Hin) in Hf. discriminate.
  - rewrite Ht in Hin. apply in_app_or in Hin. destruct Hin as [Hin | [Heq | []]].
    + rewrite (Hc rq rs Hin) in Hf. discriminate.
    + injection Heq as <- <-. exact Hr.
Qed.

(** ** Provider errors and the HTTP handlers *)

(** C1, as stated, fails: with a provider that answers 500, the pay-user
    handler returns no body at all; the client's error leaves the handler. *)
Lemma provider_error_leaves_handler :
  fst (api_pay_user broken_env pay_request []) =
  Raise (RapydMoneyAPIError 500 "https://provider.test/api/v1/users/M1"
           (Some "Internal Server Error")
           "API Error 500 for https://provider.test/api/v1/users/M1").
Proof. vm_compute. reflexivity. Qed.

(** C1, amended: for each of the four payment routes, when an exchange with
    the provider made by the handler fails (transport failure or a status
    outside 2xx), the client's error for that exchange is raised out of the
    handler: no handler catches it, and no body is returned. *)
Theorem provider_errors_propagate env route json_body rq rs :
  In (Http rq rs) (snd (handler env route json_body [])) ->
  failed rs = true ->
  fst (handler env route json_body []) = Raise (client_error rq rs).
Proof.
  apply failed_exchange_is_raised. destruct route; cbn [handler].
  - apply propagates_api_can_pay.
  - apply propagates_api_pay_user.
  - apply propagates_api_fund_user.
  - apply propagates_api_sponsor_user.
Qed.

Lemma provider_errors_propagate_witness :
  fst (handler broken_env pay_user pay_request []) =
  Raise (client_error
           {| rq_method := "GET"; rq_url := "https://provider.test/api/v1/users/M1";
              rq_authorization := "Bearer secret"; rq_json := None; rq_timeout := 10 |}
           (Response 500 "Internal Server Error" None)).
Proof.
  apply (provider_errors_propagate broken_env pay_user pay_request).
  - vm_compute. left. reflexivity.
  - reflexivity.
Defined.

(** ** CanPay *)

Lemma model_validate_finite zar usd b :
  RapydMoneyBalance.model_validate zar usd = Ok b ->
  b = {| RapydMoneyBalance.zar := zar; RapydMoneyBalance.usd := usd |} /\
  is_finite zar = true /\ is_finite usd = true.
Proof.
  unfold RapydMoneyBalance.model_validate.
  destruct (is_finite zar), (is_finite usd); intros [= <-]; auto.
Qed.

Lemma from_api_finite lib data b :
  RapydMoneyBalance.from_api lib data = Ok b ->
  is_finite (RapydMoneyBalance.zar b) = true /\ is_finite (RapydMoneyBalance.usd b) = true.
Proof.
  unfold RapydMoneyBalance.from_api.
  destruct (match dict_get_default "tokens" (RapydMoneyBalance.tokens_source data) (JList [])
            with
            | JList ts => fold_left (RapydMoneyBalance.scan_token lib) ts
                            (Decimal_zero, Decimal_zero)
            | _ => (Decimal_zero, Decimal_zero)
            end) as [z u].
  intros H. apply model_validate_finite in H. destruct H as (-> & Hz & Hu). now split.
Qed.

Lemma get_balance_finite env self user_id timeout tr b tr' :
  get_balance env self user_id timeout tr = (Ok b, tr') ->
  is_finite (RapydMoneyBalance.zar b) = true /\ is_finite (RapydMoneyBalance.usd b) = true.
Proof.
  unfold get_balance, bind, lift.
  destruct (_request env self "GET" _ None timeout tr) as [[data | e] tr1]; [| discriminate].
  intros [= H _]. now apply from_api_finite in H.
Qed.

Lemma Decimal_lt_float_total d f :
  is_finite d = true -> is_nan f = false ->
  exists short, Decimal_lt_float d f = Ok short.
Proof.
  destruct d; try discriminate. intros _.
  destruct f; try discriminate; intros _; cbn; eauto.
Qed.

(** The two branches of the handler that do not touch the provider. *)
Lemma api_can_pay_not_a_map env json_body tr :
  is_dict json_body = false ->
  api_can_pay env json_body tr = (Raise AttributeError, tr).
Proof. destruct json_body; try discriminate; reflexivity. Qed.

Lemma api_can_pay_user_not_found env d tr amount :
  py_truediv_100 (dict_get "amount_cents" d) = Ok amount ->
  truthy (dict_get "studentId" d) = false ->
  api_can_pay env (JDict d) tr = (Ok (result_message false "User not found"), tr).
Proof.
  intros Ha Hs. unfold api_can_pay, bind, lift. cbn [py_get].
  change (dict_get_default "amount_cents" d JNull) with (dict_get "amount_cents" d).
  change (dict_get_default "studentId" d JNull) with (dict_get "studentId" d).
  rewrite Ha, Hs. reflexivity.
Qed.

(** The branch that asks for the balance. *)
Lemma api_can_pay_with_balance env d tr rapyd amount b tr' :
  py_truediv_100 (dict_get "amount_cents" d) = Ok amount ->
  truthy (dict_get "studentId" d) = true ->
  create_rapydmoney_service (RAPYD_MONEY_API_TOKEN env) (RAPYD_MONEY_BASE_URL env) = Ok rapyd ->
  get_balance env rapyd (dict_get "studentId" d) None tr = (Ok b, tr') ->
  api_can_pay env (JDict d) tr =
  (match Decimal_lt_float (RapydMoneyBalance.zar b) amount with
   | Ok true => Ok (result_message false "Insufficient funds")
   | Ok false => Ok (JDict [("result", JBool true)])
   | Raise e => Raise e
   end, tr').
Proof.
  intros Ha Hs Hsvc Hb. unfold api_can_pay, bind, lift, new_service. cbn [py_get].
  change (dict_get_default "amount_cents" d JNull) with (dict_get "amount_cents" d).
  change (dict_get_default "studentId" d JNull) with (dict_get "studentId" d).
  rewrite Ha, Hs, Hsvc. unfold lift. rewrite Hb. cbn.
  destruct (Decimal_lt_float (RapydMoneyBalance.zar b) amount) as [[|] | e]; reflexivity.
Qed.

(** C3, at the failing input: a request with neither 'studentId' nor
    'amount_cents' is not answered by "User not found"; the division by 100.0,
    made before the test of the user id, raises [TypeError]. *)
Theorem can_pay_empty_request_raises env tr :
  api_can_pay env (JDict []) tr = (Raise TypeError, tr).
Proof. reflexivity. Qed.

(** The comparison is made with the binary64 quotient: a balance of exactly
    0.1 is refused for 10 cents, although 0.1 is not less than 10/100. *)
Lemma can_pay_equal_balance_refused :
  fst (api_can_pay (sample_env (answer (zar_tokens "0.1"))) (can_pay_request (JInt 10)) [])
  = Ok (result_message false "Insufficient funds")
  /\ Qeq (Q_of_Decimal (Dfinite false 1 (-1))) (10 # 100).
Proof. split; vm_compute; reflexivity. Qed.

(** The two examples of the specification: 5000 cents against 40.00 and 60.00. *)
Lemma can_pay_examples :
  fst (api_can_pay (sample_env (answer (zar_tokens "40.00"))) (can_pay_request (JInt 5000)) [])
  = Ok (result_message false "Insufficient funds")
  /\ fst (api_can_pay (sample_env (answer (zar_tokens "60.00"))) (can_pay_request (JInt 5000)) [])
  = Ok (JDict [("result", JBool true)]).
Proof. split; vm_compute; reflexivity. Qed.

(** C10, as stated, fails: the balance call returns a balance, and the
    handler still returns no result map, because the amount is a NaN and the
    comparison of a [Decimal] with it raises. *)
Lemma can_pay_nan_amount_raises :
  fst (get_balance (sample_env (answer (zar_tokens "60.00")))
         {| api_token := Some "secret"; base_url := sample_base; default_timeout := 10 |}
         (JStr "S1") None [])
  = Ok {| RapydMoneyBalance.zar := Dfinite false 6000 (-2);
          RapydMoneyBalance.usd := Decimal_zero |}
  /\ fst (api_can_pay (sample_env (answer (zar_tokens "60.00")))
            (can_pay_request (JFloat S754_nan)) [])
     = Raise InvalidOperation.
Proof. split; vm_compute; reflexivity. Qed.

(** C10, amended: [get_balance] never returns an absent or falsy value: what
    it returns is a balance object with finite [zar] and [usd]; so the branch
    of CanPay without a [return] is never taken: the handler never returns
    [None]; and for every request with a truthy 'studentId' whose amount is
    not a NaN and whose balance call returns, CanPay returns an explicit
    result map. *)
Theorem can_pay_returns_explicit_result env :
  (forall self user_id timeout tr b tr',
      get_balance env self user_id timeout tr = (Ok b, tr') ->
      RapydMoneyBalance.truthy b = true /\
      is_finite (RapydMoneyBalance.zar b) = true /\
      is_finite (RapydMoneyBalance.usd b) = true) /\
  (forall json_body tr, fst (api_can_pay env json_body tr) <> Ok JNull) /\
  (forall d tr rapyd amount b tr',
      truthy (dict_get "studentId" d) = true ->
      py_truediv_100 (dict_get "amount_cents" d) = Ok amount ->
      is_nan amount = false ->
      create_rapydmoney_service (RAPYD_MONEY_API_TOKEN env) (RAPYD_MONEY_BASE_URL env)
        = Ok rapyd ->
      get_balance env rapyd (dict_get "studentId" d) None tr = (Ok b, tr') ->
      exists short,
        Decimal_lt_float (RapydMoneyBalance.zar b) amount = Ok short /\
        api_can_pay env (JDict d) tr =
        (Ok (if short then result_message false "Insufficient funds"
             else JDict [("result", JBool true)]), tr')).
Proof.
  split; [| split].
  - intros self user_id timeout tr b tr' H. split; [reflexivity |].
    now apply get_balance_finite in H.
  - intros json_body tr. unfold api_can_pay, new_service, bind, lift, ret.
    destruct (py_get json_body "studentId" JNull) as [sid | e]; [| discriminate].
    destruct (py_get json_body "amount_cents" JNull) as [cents | e]; [| discriminate].
    destruct (py_truediv_100 cents) as [amount | e]; [| discriminate].
    destruct (truthy sid); [| discriminate].
    destruct (create_rapydmoney_service _ _) as [rapyd | e]; [| discriminate].
    destruct (get_balance env rapyd sid None tr) as [[b | e] tr1]; [| discriminate].
    cbn. destruct (Decimal_lt_float (RapydMoneyBalance.zar b) amount) as [[|] | e];
      discriminate.
  - intros d tr rapyd amount b tr' Hs Ha Hn Hsvc Hb.
    destruct (get_balance_finite _ _ _ _ _ _ _ Hb) as [Hz _].
    destruct (Decimal_lt_float_total _ _ Hz Hn) as [short Hshort].
    exists short. split; [exact Hshort |].
    rewrite (api_can_pay_with_balance env d tr rapyd amount b tr' Ha Hs Hsvc Hb), Hshort.
    now destruct short.
Qed.

(** ** The client, call by call *)

Lemma request_run env self method path json_body timeout tr :
  _request env self method path json_body timeout tr =
  let rq := client_request self method path json_body timeout in
  let rs := provider env tr rq in
  (if failed rs then Raise (client_error rq rs) else Ok (response_value rs),
   tr ++ [Http rq rs]).
Proof.
  unfold _request, bind, requests_request, client_request. cbv zeta.
  destruct (provider env tr _) as [what | status_code text decoded]; [reflexivity |].
  cbn [failed client_error response_value rq_url].
  destruct (status_ok status_code); cbn [negb]; [| reflexivity].
  destruct (String.eqb text EmptyString); [reflexivity |].
  destruct decoded; reflexivity.
Qed.

Lemma transfer_request_is_client_request self from_user_id to_user_identifier amount trx_id :
  client_request self "POST" ("/transfer/" @@ from_user_id)
    (Some (transfer_body to_user_identifier amount trx_id)) (Some 60)
  = transfer_request self from_user_id to_user_identifier amount trx_id.
Proof. reflexivity. Qed.

Lemma do_transfer_run env self from_user_id to_user_identifier amount trx_id tr :
  do_transfer env self from_user_id to_user_identifier amount trx_id tr =
  let rq := transfer_request self from_user_id to_user_identifier amount trx_id in
  let rs := provider env tr rq in
  (if failed rs then Raise (client_error rq rs)
   else
     match message_successful env (response_value rs) with
     | Raise e => Raise e
     | Ok true => Ok (response_value rs)
     | Ok false => Ok (JBool false)
     end,
   tr ++ [Http rq rs]).
Proof.
  unfold do_transfer, bind. rewrite request_run, transfer_request_is_client_request.
  cbv zeta. destruct (failed _); [reflexivity |].
  unfold lift. destruct (message_successful env _) as [[|] | e]; reflexivity.
Qed.

(** The test of the answer, in terms of the provider's success signal. *)
Lemma message_successful_true env data :
  message_successful env data = Ok true <-> says_successful (pylib env) data = true.
Proof.
  unfold message_successful, says_successful.
  destruct data as [| b | n | f | s | l | d]; cbn.
  - split; discriminate.
  - destruct b; split; discriminate.
  - destruct (n =? 0); split; discriminate.
  - destruct f; split; discriminate.
  - destruct (negb (String.eqb s EmptyString)); [| split; discriminate].
    destruct (contains "message" s); split; discriminate.
  - destruct l; [split; discriminate |].
    destruct (existsb (fun x => eq_str x "message") (j :: l)); split; discriminate.
  - destruct d as [| kv d']; [split; discriminate |].
    unfold has_key. destruct (lookup "message" (kv :: d')) as [msg |]; cbn.
    + split; intros H; [now injection H | now rewrite H].
    + split; discriminate.
Qed.

Lemma message_successful_map_or_falsy env data :
  (is_dict data || negb (truthy data))%bool = true ->
  message_successful env data = Ok (says_successful (pylib env) data).
Proof.
  unfold message_successful, says_successful.
  destruct data as [| b | n | f | s | l | d]; cbn.
  - reflexivity.
  - destruct b; [discriminate | reflexivity].
  - destruct (n =? 0); [reflexivity | discriminate].
  - destruct f; try discriminate; reflexivity.
  - destruct (String.eqb s EmptyString); [reflexivity | discriminate].
  - destruct l; [reflexivity | discriminate].
  - intros _. destruct d as [| kv d']; [reflexivity |].
    unfold has_key. destruct (lookup "message" (kv :: d')); reflexivity.
Qed.

(** ** PayUser and SponsorUser, from the transfer step on *)

Ltac at_transfer_step H :=
  destruct H as (Hparty & Hstudent & Hsvc & Hamount & tr1 & tr2 & recipient &
                 Hu1 & Hu2 & Hrcp & Hrt).

Lemma api_pay_user_transfer env d tr rapyd amount merchant_user student_user tr3 :
  reaches_transfer env "merchantId" d tr rapyd amount merchant_user student_user tr3 ->
  api_pay_user env (JDict d) tr =
  transfer_step env tr3
    (transfer_request rapyd (RapydMoneyUser.id student_user)
       (RapydMoneyUser.payment_identifier merchant_user) amount (trx_id_of (pylib env) d)).
Proof.
  intros H. at_transfer_step H.
  unfold api_pay_user, new_service, bind, lift. cbn [py_get].
  change (dict_get_default "merchantId" d JNull) with (dict_get "merchantId" d).
  change (dict_get_default "studentId" d JNull) with (dict_get "studentId" d).
  change (dict_get_default "amount_cents" d JNull) with (dict_get "amount_cents" d).
  change (dict_get_default "idempotency_key" d JNull) with (dict_get "idempotency_key" d).
  rewrite Hparty, Hstudent, Hsvc, Hamount. cbn [andb]. rewrite Hu1, Hu2.
  cbn [RapydMoneyUser.truthy andb]. rewrite Hrcp, Hrt, do_transfer_run.
  unfold transfer_step, trx_id_of. cbv zeta.
  destruct (failed _); [reflexivity |].
  destruct (message_successful env (response_value _)) as [[|] | e] eqn:E.
  - rewrite E. reflexivity.
  - reflexivity.
  - reflexivity.
Qed.

Lemma api_sponsor_user_transfer env d tr rapyd amount sponsor_user student_user tr3 :
  reaches_transfer env "sponsorId" d
    (tr ++ [Print ("Incoming sponsor transfer  request: " @@ py_str (pylib env) (JDict d))])
    rapyd amount sponsor_user student_user tr3 ->
  api_sponsor_user env (JDict d) tr =
  transfer_step env tr3
    (transfer_request rapyd (RapydMoneyUser.id sponsor_user)
       (RapydMoneyUser.payment_identifier student_user) amount (trx_id_of (pylib env) d)).
Proof.
  intros H. at_transfer_step H.
  unfold api_sponsor_user, new_service, bind, lift, print, emit. cbn [py_get].
  change (dict_get_default "sponsorId" d JNull) with (dict_get "sponsorId" d).
  change (dict_get_default "studentId" d JNull) with (dict_get "studentId" d).
  change (dict_get_default "amount_cents" d JNull) with (dict_get "amount_cents" d).
  change (dict_get_default "idempotency_key" d JNull) with (dict_get "idempotency_key" d).
  rewrite Hparty, Hstudent, Hsvc, Hamount. cbn [andb]. rewrite Hu1, Hu2.
  cbn [RapydMoneyUser.truthy andb]. rewrite Hrcp, Hrt, do_transfer_run.
  unfold transfer_step, trx_id_of. cbv zeta.
  destruct (failed _); [reflexivity |].
  destruct (message_successful env (response_value _)) as [[|] | e] eqn:E.
  - rewrite E. reflexivity.
  - reflexivity.
  - reflexivity.
Qed.


Lemma transfer_step_result env tr3 rq :
  let rs := provider env tr3 rq in
  let data := response_value rs in
  (failed rs = true -> fst (transfer_step env tr3 rq) = Raise (client_error rq rs)) /\
  (failed rs = false ->
   (fst (transfer_step env tr3 rq) = Ok (result_message true "Sponsor user transfer successful")
    <-> says_successful (pylib env) data = true) /\
   ((is_dict data || negb (truthy data))%bool = true ->
    says_successful (pylib env) data = false ->
    fst (transfer_step env tr3 rq) = Ok (result_message false "Sponsor transfer failed"))).
Proof.
  cbv zeta. unfold transfer_step. cbv zeta. split; intros Hf; rewrite Hf; [reflexivity |].
  set (data := response_value (provider env tr3 rq)). split.
  - rewrite <- message_successful_true.
    destruct (message_successful env data) as [[|] | e]; cbn [fst]; split;
      try reflexivity; discriminate.
  - intros Hshape Hno. rewrite (message_successful_map_or_falsy env data Hshape), Hno.
    reflexivity.
Qed.

(** C2, as stated, fails: the parties and the recipient are resolved and the
    provider answers the transfer with status 400 and a map whose message
    does not contain "successful"; PayUser returns no body with a false flag,
    the client's error leaves the handler. *)
Lemma pay_user_refused_transfer_raises :
  fst (api_pay_user
         (sample_env
            (Response 400 "<json>"
               (Some (JDict [("message", JStr "Transfer failed: insufficient liquidity")]))))
         pay_request [])
  = Raise (RapydMoneyAPIError 400 "https://provider.test/api/v1/transfer/S1" (Some "<json>")
             "API Error 400 for https://provider.test/api/v1/transfer/S1").
Proof. vm_compute. reflexivity. Qed.

(** C2, amended: for every PayUser request, and every SponsorUser request,
    that reaches the transfer step: when the provider answers the transfer
    with a status outside 2xx (or not at all) the client's error is raised
    out of the handler; when the transfer call returns, the handler answers
    with a true flag if and only if the answer is a map whose 'message'
    contains "successful" in any case of its letters, and for every other
    answer that is a map or is falsy it answers with a false flag and the
    transfer-failed message. *)
Theorem transfer_success_signal env d tr rapyd amount party_user student_user tr3 :
  let lib := pylib env in
  let success := result_message true "Sponsor user transfer successful" in
  let failure := result_message false "Sponsor transfer failed" in
  (reaches_transfer env "merchantId" d tr rapyd amount party_user student_user tr3 ->
   let rq := transfer_request rapyd (RapydMoneyUser.id student_user)
               (RapydMoneyUser.payment_identifier party_user) amount (trx_id_of lib d) in
   let rs := provider env tr3 rq in
   let data := response_value rs in
   (failed rs = true -> fst (api_pay_user env (JDict d) tr) = Raise (client_error rq rs)) /\
   (failed rs = false ->
    (fst (api_pay_user env (JDict d) tr) = Ok success <-> says_successful lib data = true) /\
    ((is_dict data || negb (truthy data))%bool = true ->
     says_successful lib data = false ->
     fst (api_pay_user env (JDict d) tr) = Ok failure))) /\
  (reaches_transfer env "sponsorId" d
     (tr ++ [Print ("Incoming sponsor transfer  request: " @@ py_str lib (JDict d))])
     rapyd amount party_user student_user tr3 ->
   let rq := transfer_request rapyd (RapydMoneyUser.id party_user)
               (RapydMoneyUser.payment_identifier student_user) amount (trx_id_of lib d) in
   let rs := provider env tr3 rq in
   let data := response_value rs in
   (failed rs = true -> fst (api_sponsor_user env (JDict d) tr) = Raise (client_error rq rs)) /\
   (failed rs = false ->
    (fst (api_sponsor_user env (JDict d) tr) = Ok success <-> says_successful lib data = true) /\
    ((is_dict data || negb (truthy data))%bool = true ->
     says_successful lib data = false ->
     fst (api_sponsor_user env (JDict d) tr) = Ok failure))).
Proof.
  cbv zeta. split; intros H.
  - rewrite (api_pay_user_transfer _ _ _ _ _ _ _ _ H). apply transfer_step_result.
  - rewrite (api_sponsor_user_transfer _ _ _ _ _ _ _ _ H). apply transfer_step_result.
Qed.

(** The two examples of the specification for PayUser. *)
Lemma pay_user_examples :
  fst (api_pay_user (sample_env (answer (JDict [("message", JStr "Transfer successful")])))
         pay_request [])
  = Ok (result_message true "Sponsor user transfer successful")
  /\ fst (api_pay_user
            (sample_env
               (answer (JDict [("message", JStr "Transfer failed: insufficient liquidity")])))
            pay_request [])
  = Ok (result_message false "Sponsor transfer failed").
Proof. split; vm_compute; reflexivity. Qed.

(** An answer to the transfer with status 200 and a body that is truthy and
    not a map (a text that is not JSON and holds the word "message", or the
    JSON value [true]): the membership test and the subscript of
    [do_transfer], made without a test of the type, raise [TypeError]. *)
Lemma pay_user_answer_not_a_map_raises :
  fst (api_pay_user (sample_env (Response 200 "see message log" None)) pay_request [])
  = Raise TypeError
  /\ fst (api_pay_user (sample_env (answer (JBool true))) pay_request [])
  = Raise TypeError
  /\ fst (api_sponsor_user (sample_env (answer (JBool true))) sponsor_request [])
  = Raise TypeError.
Proof. repeat split; vm_compute; reflexivity. Qed.


Lemma sample_reaches_transfer_pay :
  exists tr3,
    reaches_transfer (sample_env transfer_accepted) "merchantId"
      [("merchantId", JStr "M1"); ("studentId", JStr "S1");
       ("idempotency_key", JStr "k-42"); ("amount_cents", JInt 5000)]
      [] sample_service fifty (sample_party "M1") (sample_party "S1") tr3.
Proof.
  eexists. repeat split; try reflexivity.
  do 3 eexists. repeat split; reflexivity.
Defined.

Lemma sample_reaches_transfer_sponsor :
  exists tr3,
    reaches_transfer (sample_env transfer_accepted) "sponsorId"
      [("sponsorId", JStr "P1"); ("studentId", JStr "S1");
       ("idempotency_key", JStr "k-43"); ("amount_cents", JInt 5000)]
      ([] ++ [Print ("Incoming sponsor transfer  request: "
                       @@ py_str sample_lib sponsor_request)])
      sample_service fifty (sample_party "P1") (sample_party "S1") tr3.
Proof.
  eexists. repeat split; try reflexivity.
  do 3 eexists. repeat split; reflexivity.
Defined.

Lemma transfer_success_signal_witness :
  fst (api_pay_user (sample_env transfer_accepted) pay_request [])
  = Ok (result_message true "Sponsor user transfer successful")
  /\ fst (api_sponsor_user (sample_env transfer_accepted) sponsor_request [])
     = Ok (result_message true "Sponsor user transfer successful").
Proof.
  split.
  - destruct sample_reaches_transfer_pay as [tr3 H].
    exact (proj2 (proj1 (proj2 (proj1 (transfer_success_signal _ _ _ _ _ _ _ _) H) eq_refl))
             eq_refl).
  - destruct sample_reaches_transfer_sponsor as [tr3 H].
    exact (proj2 (proj1 (proj2 (proj2 (transfer_success_signal _ _ _ _ _ _ _ _) H) eq_refl))
             eq_refl).
Defined.


(** ** FundUser *)

Lemma mint_run env self mint_data timeout tr :
  mint env self mint_data timeout tr =
  let rq := client_request self "POST" "/mint" (Some mint_data) timeout in
  let rs := provider env tr rq in
  (if failed rs then Raise (client_error rq rs) else Ok (response_value rs),
   tr ++ [Http rq rs]).
Proof. unfold mint. apply request_run. Qed.

(** C9, as stated, fails: 'sponsorId' is supplied, the party is found, and
    the provider refuses the mint with status 500; FundUser returns no message
    and logs nothing: the client's error leaves the handler.  It fails in the
    same way when the provider refuses the lookup of the party: the error of
    that exchange leaves the handler and the mint is never asked for. *)
Lemma fund_user_refused_calls_raise :
  fst (api_fund_user (sample_env (Response 500 "Internal Server Error" None)) fund_request [])
  = Raise (RapydMoneyAPIError 500 "https://provider.test/api/v1/mint"
             (Some "Internal Server Error")
             "API Error 500 for https://provider.test/api/v1/mint") /\
  api_fund_user broken_env fund_request []
  = (Raise (RapydMoneyAPIError 500 "https://provider.test/api/v1/users/P1"
              (Some "Internal Server Error")
              "API Error 500 for https://provider.test/api/v1/users/P1"),
     [Http (client_request sample_service "GET" "/users/P1" None None)
        (Response 500 "Internal Server Error" None)]).
Proof. vm_compute. split; reflexivity. Qed.

(** C9, amended: when 'sponsorId' is supplied, every body that FundUser
    returns is the same message, "User can pay"; once the party is resolved,
    that body is returned whenever the mint call returns, whether its answer
    is truthy (printed as successful) or falsy (printed as failed, and nothing
    more); when the lookup of the party fails at the provider, or raises for
    any other reason, and when the mint call fails at the provider, the error
    (the client's error of the failed exchange) is raised out of the handler,
    no body is returned, and nothing more is sent or printed; when
    'sponsorId' is absent the body is another message. *)
Theorem fund_user_message env :
  let can := JDict [("message", JStr "User can pay")] in
  let cannot := JDict [("message", JStr "User cannot pay")] in
  (forall d tr body,
      truthy (dict_get "sponsorId" d) = true ->
      fst (api_fund_user env (JDict d) tr) = Ok body -> body = can) /\
  (forall d tr rapyd amount existing_user tr1,
      truthy (dict_get "sponsorId" d) = true ->
      create_rapydmoney_service (RAPYD_MONEY_API_TOKEN env) (RAPYD_MONEY_BASE_URL env)
        = Ok rapyd ->
      py_truediv_100 (dict_get "amount_cents" d) = Ok amount ->
      get_user env rapyd (dict_get "sponsorId" d) None tr = (Ok existing_user, tr1) ->
      let rq := client_request rapyd "POST" "/mint"
                  (Some (mint_request env amount existing_user (dict_get "sponsorId" d)))
                  None in
      let rs := provider env tr1 rq in
      let resp := response_value rs in
      (failed rs = false ->
       api_fund_user env (JDict d) tr =
       (Ok can,
        tr1 ++ [Http rq rs; Print (py_str (pylib env) resp);
                Print (if truthy resp then "Mint request successful"
                       else "Mint request failed")])) /\
      (failed rs = true ->
       api_fund_user env (JDict d) tr = (Raise (client_error rq rs), tr1 ++ [Http rq rs]))) /\
  (forall d tr rapyd amount,
      truthy (dict_get "sponsorId" d) = true ->
      create_rapydmoney_service (RAPYD_MONEY_API_TOKEN env) (RAPYD_MONEY_BASE_URL env)
        = Ok rapyd ->
      py_truediv_100 (dict_get "amount_cents" d) = Ok amount ->
      let rq := client_request rapyd "GET"
                  ("/users/" @@ py_str (pylib env) (dict_get "sponsorId" d)) None None in
      let rs := provider env tr rq in
      (failed rs = true ->
       api_fund_user env (JDict d) tr = (Raise (client_error rq rs), tr ++ [Http rq rs])) /\
      (forall exc tr1,
          get_user env rapyd (dict_get "sponsorId" d) None tr = (Raise exc, tr1) ->
          api_fund_user env (JDict d) tr = (Raise exc, tr1))) /\
  (forall d tr,
      lookup "sponsorId" d = None ->
      api_fund_user env (JDict d) tr = (Ok cannot, tr)) /\
  can <> cannot.
Proof.
  cbv zeta. split; [| split; [| split; [| split]]].
  - intros d tr body Hs. unfold api_fund_user, new_service, bind, lift, ret. cbn [py_get].
    change (dict_get_default "sponsorId" d JNull) with (dict_get "sponsorId" d).
    rewrite Hs.
    destruct (create_rapydmoney_service _ _) as [rapyd | e]; [| discriminate].
    destruct (py_truediv_100 _) as [amount | e]; [| discriminate].
    destruct (get_user env rapyd _ None tr) as [[u | e] tr1]; [| discriminate].
    cbn [RapydMoneyUser.truthy].
    destruct (mint env rapyd _ None tr1) as [[resp | e] tr2]; [| discriminate].
    unfold print, emit. destruct (truthy resp); cbn; now intros [= <-].
  - intros d tr rapyd amount u tr1 Hs Hsvc Ha Hu.
    unfold api_fund_user, new_service, bind, lift, ret. cbn [py_get].
    change (dict_get_default "sponsorId" d JNull) with (dict_get "sponsorId" d).
    change (dict_get_default "amount_cents" d JNull) with (dict_get "amount_cents" d).
    rewrite Hs, Hsvc, Ha, Hu. cbn [RapydMoneyUser.truthy].
    rewrite mint_run. cbv zeta.
    split; intros Hf; rewrite Hf; [| reflexivity].
    unfold print, emit.
    destruct (truthy (response_value _)); cbn; rewrite <- !app_assoc; reflexivity.
  - intros d tr rapyd amount Hs Hsvc Ha.
    assert (Hraise : forall exc tr1,
               get_user env rapyd (dict_get "sponsorId" d) None tr = (Raise exc, tr1) ->
               api_fund_user env (JDict d) tr = (Raise exc, tr1)).
    { intros exc tr1 Hu. unfold api_fund_user, new_service, bind, lift, ret. cbn [py_get].
      change (dict_get_default "sponsorId" d JNull) with (dict_get "sponsorId" d).
      change (dict_get_default "amount_cents" d JNull) with (dict_get "amount_cents" d).
      now rewrite Hs, Hsvc, Ha, Hu. }
    split; [| exact Hraise].
    intros Hf. apply Hraise. unfold get_user, bind. rewrite request_run. cbv zeta.
    now rewrite Hf.
  - intros d tr Hs. unfold api_fund_user, bind, lift, ret. cbn [py_get].
    unfold dict_get_default. rewrite Hs. reflexivity.
  - discriminate.
Qed.

(** ** Balance normalization *)

(** The balance of the last entry of [l], or [dflt] when [l] is empty. *)
Lemma last_balance_cons lib t l dflt :
  match rev (t :: l) with [] => dflt | x :: _ => entry_balance lib x end =
  match rev l with [] => entry_balance lib t | x :: _ => entry_balance lib x end.
Proof. cbn [rev]. destruct (rev l); reflexivity. Qed.

Lemma scan_tokens lib ts : forall zar usd,
  fold_left (RapydMoneyBalance.scan_token lib) ts (zar, usd) =
  (match rev (filter (named "L ZAR Coin") ts) with
   | [] => zar
   | t :: _ => entry_balance lib t
   end,
   match rev (filter (named "L USD Coin") ts) with
   | [] => usd
   | t :: _ => entry_balance lib t
   end).
Proof.
  induction ts as [| t ts IH]; intros zar usd; [reflexivity |].
  cbn [fold_left filter].
  destruct t as [| b | n | f | s | l | td]; try (cbn; apply IH).
  unfold RapydMoneyBalance.scan_token at 2. cbn [named fst snd].
  destruct (eq_str (dict_get "name" td) "L ZAR Coin") eqn:Ez.
  - assert (Eu : eq_str (dict_get "name" td) "L USD Coin" = false).
    { destruct (dict_get "name" td); try reflexivity. cbn in *.
      apply String.eqb_eq in Ez. subst. reflexivity. }
    rewrite Eu, IH, last_balance_cons. reflexivity.
  - destruct (eq_str (dict_get "name" td) "L USD Coin") eqn:Eu.
    + rewrite IH, last_balance_cons. reflexivity.
    + apply IH.
Qed.

Lemma from_api_tokens lib d ts :
  has_key "tokens" d = true ->
  lookup "tokens" d = Some (JList ts) ->
  RapydMoneyBalance.from_api lib (JDict d) =
  RapydMoneyBalance.model_validate (balance_named lib "L ZAR Coin" ts)
                                   (balance_named lib "L USD Coin" ts).
Proof.
  intros Hk Hl. unfold RapydMoneyBalance.from_api, RapydMoneyBalance.tokens_source.
  rewrite Hk. unfold dict_get_default. rewrite Hl, scan_tokens. reflexivity.
Qed.

Lemma filter_filter_named name (keep : json -> bool) ts :
  (forall t, named name t = true -> keep t = true) ->
  filter (named name) (filter keep ts) = filter (named name) ts.
Proof.
  intros H. induction ts as [| t ts IH]; [reflexivity |]. cbn [filter].
  destruct (keep t) eqn:Ek; cbn [filter].
  - now rewrite IH.
  - destruct (named name t) eqn:En; [| exact IH].
    rewrite (H t En) in Ek. discriminate.
Qed.

Lemma filter_none {A : Type} (p : A -> bool) l :
  (forall x, In x l -> p x = false) -> filter p l = [].
Proof.
  induction l as [| x l IH]; intros H; [reflexivity |]. cbn [filter].
  rewrite (H x (or_introl eq_refl)). apply IH. intros y Hy. apply H. now right.
Qed.

(** [from_api] reads the list of tokens at the top of the map and, when
    there is none, the one of the map under 'balance'. *)
Lemma from_api_normalization lib d ts :
  lookup "tokens" d = Some (JList ts) \/
  (lookup "tokens" d = None /\
   exists b, lookup "balance" d = Some (JDict b) /\ lookup "tokens" b = Some (JList ts)) ->
  RapydMoneyBalance.from_api lib (JDict d) =
  RapydMoneyBalance.model_validate (balance_named lib "L ZAR Coin" ts)
                                   (balance_named lib "L USD Coin" ts).
Proof.
  intros [Ht | (Hn & b & Hb & Ht)].
  - apply from_api_tokens; [| exact Ht]. unfold has_key. now rewrite Ht.
  - unfold RapydMoneyBalance.from_api, RapydMoneyBalance.tokens_source, has_key.
    rewrite Hn, Hb. unfold dict_get_default. rewrite Ht, scan_tokens. reflexivity.
Qed.

(** Off the answers that hold a map under 'balance' beside a list of tokens
    at the top: for an answer of one of the two shapes, [get_balance]
    builds the balance from the entries of the token list named "L ZAR Coin"
    (into [zar]) and "L USD Coin" (into [usd]), the last entry of a name
    giving the value; entries of any other name change nothing; a name with
    no entry gives zero; and the example of the specification gives 12.5 and
    0.  (The two values then pass the validation of the model, which refuses
    a value that is not finite.) *)
Lemma balance_normalization env self user_id timeout tr :
  let lib := pylib env in
  let rq := client_request self "GET" ("/" @@ py_str lib user_id @@ "/balance") None timeout in
  let rs := provider env tr rq in
  (forall ts,
      failed rs = false ->
      balance_shape (response_value rs) ts ->
      get_balance env self user_id timeout tr =
      (RapydMoneyBalance.model_validate (balance_named lib "L ZAR Coin" ts)
                                        (balance_named lib "L USD Coin" ts),
       tr ++ [Http rq rs])) /\
  (forall ts,
      balance_named lib "L ZAR Coin" (filter zar_or_usd ts) = balance_named lib "L ZAR Coin" ts /\
      balance_named lib "L USD Coin" (filter zar_or_usd ts) = balance_named lib "L USD Coin" ts) /\
  (forall name ts,
      (forall t, In t ts -> named name t = false) ->
      balance_named lib name ts = Decimal_zero) /\
  (Decimal_of_str lib "12.5" = Some twelve_and_a_half ->
   RapydMoneyBalance.from_api lib (zar_tokens "12.5") =
   Ok {| RapydMoneyBalance.zar := twelve_and_a_half; RapydMoneyBalance.usd := Decimal_zero |}).
Proof.
  cbv zeta. repeat split.
  - intros ts Hf (d & Hd & Hshape).
    unfold get_balance, bind. rewrite request_run. cbv zeta. rewrite Hf, Hd. unfold lift.
    f_equal. destruct Hshape as [[Ht Hb] | (b & Hb & Ht)].
    + assert (Hsrc : match lookup "balance" d with
                     | Some (JDict b) => JDict b
                     | _ => JDict d
                     end = JDict d).
      { destruct (lookup "balance" d) as [[] |]; try reflexivity. contradiction. }
      rewrite Hsrc. apply from_api_tokens; [| exact Ht]. unfold has_key. now rewrite Ht.
    + rewrite Hb. apply from_api_tokens; [| exact Ht]. unfold has_key. now rewrite Ht.
  - unfold balance_named. rewrite filter_filter_named; [reflexivity |].
    intros t Ht. unfold zar_or_usd. now rewrite Ht.
  - unfold balance_named. rewrite filter_filter_named; [reflexivity |].
    intros t Ht. unfold zar_or_usd. rewrite Ht. apply orb_true_r.
  - intros name ts H. unfold balance_named. now rewrite (filter_none _ _ H).
  - intros H. unfold zar_tokens.
    erewrite from_api_tokens; [| reflexivity | reflexivity].
    unfold balance_named. cbn. rewrite H. reflexivity.
Qed.


(** ** The registry of envelopes *)

Lemma is_invalid_vap {A B : Type} (f : validation (A -> B)) (x : validation A) :
  is_invalid (f <*> x) = (is_invalid f || is_invalid x)%bool.
Proof. destruct f, x; reflexivity. Qed.

Lemma is_invalid_required_missing {A : Type} d field (check : json -> validation A) :
  lookup field d = None -> is_invalid (required d field check) = true.
Proof. intros H. unfold required. now rewrite H. Qed.

Lemma is_invalid_under {A : Type} field (x : validation A) :
  is_invalid (under field x) = is_invalid x.
Proof. destruct x; reflexivity. Qed.

Lemma is_invalid_required_not_str d field v :
  lookup field d = Some v -> is_str v = false -> is_invalid (required d field v_str) = true.
Proof.
  intros H Hs. unfold required. rewrite H, is_invalid_under. destruct v; try reflexivity.
  discriminate.
Qed.

Lemma is_invalid_vmap {A B : Type} (f : A -> B) (x : validation A) :
  is_invalid (vmap f x) = is_invalid x.
Proof. destruct x; reflexivity. Qed.

Lemma lookup_extra {A : Type} (k k' : string) (v : A) d :
  k' <> k -> lookup k' (d ++ [(k, v)]) = lookup k' d.
Proof.
  intros Hne. induction d as [| [k0 v0] d IH]; cbn.
  - destruct (String.eqb_spec k' k); [contradiction | reflexivity].
  - destruct (String.eqb k' k0); [reflexivity | exact IH].
Qed.

Lemma get_class_registered ev :
  SqsModelRegistry.get_class sqs_registry ev =
  Some match ev with
       | USER_REGISTERED => _UserRegistered
       | STUDENT_MAGIC_LINK_REQUESTED => _StudentMagicLinkRequested
       end.
Proof. destruct ev; reflexivity. Qed.

Lemma v_literal_value d field e e' :
  v_literal d field e = Valid e' -> e' = e.
Proof.
  unfold v_literal. destruct (lookup field d) as [v |]; [| now intros [= <-]].
  destruct (EventType_of v) as [e0 |]; [| discriminate].
  destruct (EventType_eqb e e0); [now intros [= <-] | discriminate].
Qed.

Lemma vap_valid {A B : Type} (f : validation (A -> B)) (x : validation A) b :
  f <*> x = Valid b -> exists g a, f = Valid g /\ x = Valid a /\ b = g a.
Proof. destruct f, x; try discriminate. intros [= <-]. eauto. Qed.

Lemma model_validate_eventType lib ev c data m :
  SqsModelRegistry.get_class sqs_registry ev = Some c ->
  model_validate lib c data = Valid m -> eventType m = ev.
Proof.
  rewrite get_class_registered. intros [= <-].
  destruct ev; cbn [model_validate]; destruct data; try discriminate; cbn [v_model vmap].
  - destruct (UserRegisteredMessage.fields lib d) as [m' |] eqn:E; [| discriminate].
    intros [= <-]. unfold UserRegisteredMessage.fields in E.
    repeat (apply vap_valid in E; destruct E as (? & ? & E & ? & ->)).
    injection E as <-. cbn. eapply v_literal_value; eassumption.
  - destruct (StudentMagicLinkRequestedMessage.fields lib d) as [m' |] eqn:E; [| discriminate].
    intros [= <-]. unfold StudentMagicLinkRequestedMessage.fields in E.
    repeat (apply vap_valid in E; destruct E as (? & ? & E & ? & ->)).
    injection E as <-. cbn. eapply v_literal_value; eassumption.
Qed.

Lemma is_invalid_required_email_not_str lib d field v :
  lookup field d = Some v -> is_str v = false ->
  is_invalid (required d field (v_email lib)) = true.
Proof.
  intros H Hs. unfold required. rewrite H, is_invalid_under. destruct v; try reflexivity.
  discriminate.
Qed.

Ltac not_declared H :=
  let E := fresh in intros E; apply H; rewrite <- E; cbn; tauto.

Lemma fields_extra lib d k x :
  ~ In k declared_fields ->
  UserRegisteredMessage.fields lib (d ++ [(k, x)]) = UserRegisteredMessage.fields lib d /\
  StudentMagicLinkRequestedMessage.fields lib (d ++ [(k, x)])
  = StudentMagicLinkRequestedMessage.fields lib d.
Proof.
  intros H.
  unfold UserRegisteredMessage.fields, StudentMagicLinkRequestedMessage.fields,
    required, optional, v_literal.
  rewrite !lookup_extra by not_declared H. split; reflexivity.
Qed.

(** C4: for a decoded message that is a map, [parse] fails first on a
    missing 'eventType', then on a value outside the two event types, then on
    the rejection of the payload by the schema registered for the event type
    (a missing required field or a required string field of another type is
    rejected), and otherwise returns the typed envelope of that event type;
    each event type has its schema, and a field that no schema declares
    changes nothing. *)
Theorem parse_checks_in_order lib d :
  let data := JDict d in
  (lookup "eventType" d = None ->
   parse_sqs_message lib data = Raise (ValueError MissingEventType)) /\
  (forall v,
      lookup "eventType" d = Some v -> EventType_of v = None ->
      parse_sqs_message lib data = Raise (ValueError (UnknownEventType (py_str lib v)))) /\
  (forall v ev c,
      lookup "eventType" d = Some v -> EventType_of v = Some ev ->
      SqsModelRegistry.get_class sqs_registry ev = Some c ->
      (forall errs,
          model_validate lib c data = Invalid errs ->
          parse_sqs_message lib data = Raise (ValueError (FailedToParse (cls_name c) errs))) /\
      (forall m,
          model_validate lib c data = Valid m ->
          parse_sqs_message lib data = Ok m /\ eventType m = ev) /\
      (forall field,
          In field (required_fields c) -> lookup field d = None ->
          is_invalid (model_validate lib c data) = true) /\
      (forall field x,
          In field (string_fields c) -> lookup field d = Some x -> is_str x = false ->
          is_invalid (model_validate lib c data) = true)) /\
  (forall ev, exists c, SqsModelRegistry.get_class sqs_registry ev = Some c) /\
  (forall k x,
      ~ In k declared_fields ->
      parse_sqs_message lib (JDict (d ++ [(k, x)])) = parse_sqs_message lib data).
Proof.
  cbv zeta. repeat split.
  - intros H. unfold parse_sqs_message, SqsModelRegistry.parse. cbn [py_in].
    unfold has_key. now rewrite H.
  - intros v H Hv. unfold parse_sqs_message, SqsModelRegistry.parse.
    cbn [py_in py_getitem py_get]. unfold has_key, dict_get_default. now rewrite H, Hv.
  - intros errs Hm. unfold parse_sqs_message, SqsModelRegistry.parse.
    cbn [py_in py_getitem py_get]. unfold has_key. rewrite H, H0, H1, Hm. reflexivity.
  - unfold parse_sqs_message, SqsModelRegistry.parse.
    cbn [py_in py_getitem py_get]. unfold has_key. rewrite H, H0, H1, H2. reflexivity.
  - eapply model_validate_eventType; eassumption.
  - intros field Hin Hmiss. rewrite get_class_registered in H1. injection H1 as <-.
    destruct ev; cbn [model_validate v_model required_fields In] in *;
      rewrite is_invalid_vmap;
      unfold UserRegisteredMessage.fields, StudentMagicLinkRequestedMessage.fields;
      rewrite !is_invalid_vap;
      repeat (destruct Hin as [<- | Hin];
              [rewrite (is_invalid_required_missing _ _ _ Hmiss);
               rewrite ?orb_true_r; reflexivity |]);
      contradiction.
  - intros field x Hin Hx Hs. rewrite get_class_registered in H1. injection H1 as <-.
    destruct ev; cbn [model_validate v_model string_fields In] in *;
      rewrite is_invalid_vmap;
      unfold UserRegisteredMessage.fields, StudentMagicLinkRequestedMessage.fields;
      rewrite !is_invalid_vap;
      repeat (destruct Hin as [<- | Hin];
              [first [ rewrite (is_invalid_required_not_str _ _ _ Hx Hs)
                     | rewrite (is_invalid_required_email_not_str _ _ _ _ Hx Hs) ];
               rewrite ?orb_true_r; reflexivity |]);
      contradiction.
  - intros ev. rewrite get_class_registered. eauto.
  - intros k x H. unfold parse_sqs_message, SqsModelRegistry.parse.
    cbn [py_in py_getitem py_get]. unfold has_key, dict_get_default.
    rewrite lookup_extra by not_declared H.
    destruct (lookup "eventType" d) as [v |]; [| reflexivity].
    destruct (EventType_of v) as [ev |]; [| reflexivity].
    rewrite get_class_registered.
    destruct (fields_extra lib d k x H) as [Hu Hs].
    destruct ev; cbn [model_validate v_model]; [rewrite Hu | rewrite Hs]; reflexivity.
Qed.

(** ** The queue consumer *)

Lemma never_raises_ret {A : Type} (a : A) : never_raises (ret a).
Proof. intros tr. now exists a. Qed.

Lemma never_raises_emit ev : never_raises (emit ev).
Proof. intros tr. now exists tt. Qed.

Lemma never_raises_bind {A B : Type} (m : M A) (f : A -> M B) :
  never_raises m -> (forall a, never_raises (f a)) -> never_raises (bind m f).
Proof.
  intros Hm Hf tr. destruct (Hm tr) as [a Ha]. unfold bind.
  destruct (m tr) as [[a' | e] tr']; cbn in Ha; [| discriminate]. apply Hf.
Qed.

Lemma never_raises_try_except {A : Type} (m : M A) (h : exn -> M A) :
  (forall e, never_raises (h e)) -> never_raises (try_except m h).
Proof.
  intros Hh tr. unfold try_except. destruct (m tr) as [[a | e] tr'].
  - now exists a.
  - apply Hh.
Qed.

Ltac no_raise :=
  repeat first
    [ apply never_raises_ret
    | apply never_raises_emit
    | apply never_raises_try_except; intros ?
    | apply never_raises_bind; [| intros ? ]
    | match goal with
      | |- never_raises (match ?x with _ => _ end) => destruct x
      | |- never_raises (if ?b then _ else _) => destruct b
      end ].

Lemma never_raises_dispatch env parsed : never_raises (dispatch env parsed).
Proof. unfold dispatch, on_user_registered, on_magic_link, log. no_raise. Qed.

Lemma never_raises_handle_record env body_str : never_raises (handle_record env body_str).
Proof.
  unfold handle_record, log. no_raise. apply never_raises_dispatch.
Qed.

Lemma never_raises_handle_my_queue env event : never_raises (handle_my_queue env event).
Proof.
  induction event as [| body_str rest IH]; cbn [handle_my_queue].
  - apply never_raises_ret.
  - apply never_raises_bind; [apply never_raises_handle_record | intros _; exact IH].
Qed.

Lemma handle_my_queue_cons env body_str rest tr :
  handle_my_queue env (body_str :: rest) tr =
  handle_my_queue env rest (snd (handle_record env body_str tr)).
Proof.
  cbn [handle_my_queue]. unfold bind.
  destruct (never_raises_handle_record env body_str tr) as [[] H].
  destruct (handle_record env body_str tr) as [[[] | e] tr']; cbn in H; [| discriminate].
  reflexivity.
Qed.

Lemma handle_my_queue_app env before after tr :
  handle_my_queue env (before ++ after) tr =
  handle_my_queue env after (snd (handle_my_queue env before tr)).
Proof.
  revert tr. induction before as [| body_str before IH]; intros tr; [reflexivity |].
  rewrite <- app_comm_cons, !handle_my_queue_cons. apply IH.
Qed.

(** A record that decodes and passes its schema is dispatched. *)
Lemma handle_record_dispatches env body_str data parsed tr :
  normalize env body_str = Ok data ->
  parse_sqs_message (pylib env) data = Ok parsed ->
  handle_record env body_str tr =
  dispatch env parsed (tr ++ [Log INFO ("Got message: " @@ body_str) None]).
Proof.
  intros Hn Hp. unfold handle_record, log, emit, bind, try_except, lift, ret.
  rewrite Hn, Hp. reflexivity.
Qed.

Lemma handle_record_drops_undecoded env body_str exc tr :
  normalize env body_str = Raise exc ->
  handle_record env body_str tr =
  (Ok tt, tr ++ [Log INFO ("Got message: " @@ body_str) None;
                 Log ERROR "Failed to parse SQS record body as JSON" (Some exc)]).
Proof.
  intros Hn. unfold handle_record, log, emit, bind, try_except, lift, ret.
  rewrite Hn. rewrite <- app_assoc. reflexivity.
Qed.

Lemma handle_record_drops_invalid env body_str data exc tr :
  normalize env body_str = Ok data ->
  parse_sqs_message (pylib env) data = Raise exc ->
  handle_record env body_str tr =
  (Ok tt, tr ++ [Log INFO ("Got message: " @@ body_str) None;
                 Log ERROR "Failed to parse message with schema" (Some exc)]).
Proof.
  intros Hn Hp. unfold handle_record, log, emit, bind, try_except, lift, ret.
  rewrite Hn, Hp. rewrite <- app_assoc. reflexivity.
Qed.

(** C5: a record body that decodes to a map with a string under 'Message' is
    replaced by the decoding of that string when this is a map with an
    'eventType', and kept as it is when the string does not decode or decodes
    to anything else; what is substituted is never unwrapped again, whatever
    it holds; a body without such a field is kept; and a body that does not
    decode is dropped: two lines are logged and the loop goes on with the
    next record. *)
Theorem normalize_unwraps_once env body_str :
  let lib := pylib env in
  (forall d message,
      json_loads lib body_str = Some (JDict d) ->
      lookup "Message" d = Some (JStr message) ->
      (forall inner,
          json_loads lib message = Some (JDict inner) ->
          has_key "eventType" inner = true ->
          normalize env body_str = Ok (JDict inner)) /\
      (forall v,
          json_loads lib message = Some v ->
          match v with
          | JDict inner => has_key "eventType" inner = false
          | _ => True
          end ->
          normalize env body_str = Ok (JDict d)) /\
      (json_loads lib message = None -> normalize env body_str = Ok (JDict d))) /\
  (forall data,
      json_loads lib body_str = Some data ->
      match data with
      | JDict d => match lookup "Message" d with Some (JStr _) => False | _ => True end
      | _ => True
      end ->
      normalize env body_str = Ok data) /\
  (json_loads lib body_str = None ->
   normalize env body_str = Raise JSONDecodeError /\
   forall rest tr,
     handle_my_queue env (body_str :: rest) tr =
     handle_my_queue env rest
       (tr ++ [Log INFO ("Got message: " @@ body_str) None;
               Log ERROR "Failed to parse SQS record body as JSON" (Some JSONDecodeError)])).
Proof.
  cbv zeta. split; [| split].
  - intros d message Hb Hm. unfold normalize, loads. rewrite Hb, Hm. repeat split.
    + intros inner Hi Hk. now rewrite Hi, Hk.
    + intros v Hv Hshape. rewrite Hv. destruct v; try reflexivity. now rewrite Hshape.
    + intros Hi. now rewrite Hi.
  - intros data Hb Hshape. unfold normalize, loads. rewrite Hb.
    destruct data as [| | | | | | d]; try reflexivity.
    destruct (lookup "Message" d) as [[] |]; try reflexivity. contradiction.
  - intros Hb.
    assert (Hn : normalize env body_str = Raise JSONDecodeError).
    { unfold normalize, loads. now rewrite Hb. }
    split; [exact Hn |]. intros rest tr.
    now rewrite handle_my_queue_cons, (handle_record_drops_undecoded _ _ _ _ Hn).
Qed.

Lemma normalize_unwraps_once_witness :
  normalize (sample_env transfer_accepted) "relayed" = Ok registered_event
  /\ normalize (sample_env transfer_accepted) "relayed-twice"
     = Ok (JDict [("eventType", JStr "USER_REGISTERED"); ("Message", JStr "registered")])
  /\ normalize (sample_env transfer_accepted) "relayed-text"
     = Ok (JDict [("Message", JStr "hello"); ("eventType", JStr "USER_REGISTERED")])
  /\ normalize (sample_env transfer_accepted) "registered" = Ok registered_event
  /\ normalize (sample_env transfer_accepted) "junk" = Raise JSONDecodeError.
Proof.
  split; [| split; [| split; [| split]]].
  - apply (proj1 (proj1 (normalize_unwraps_once (sample_env transfer_accepted) "relayed")
                    _ "registered" eq_refl eq_refl) _ eq_refl eq_refl).
  - apply (proj1 (proj1 (normalize_unwraps_once (sample_env transfer_accepted) "relayed-twice")
                    _ "relayed-inner" eq_refl eq_refl) _ eq_refl eq_refl).
  - apply (proj2 (proj2 (proj1 (normalize_unwraps_once (sample_env transfer_accepted)
                                  "relayed-text")
                           _ "hello" eq_refl eq_refl)) eq_refl).
  - apply (proj1 (proj2 (normalize_unwraps_once (sample_env transfer_accepted) "registered"))
             registered_event eq_refl). exact I.
  - apply (proj1 (proj2 (proj2 (normalize_unwraps_once (sample_env transfer_accepted) "junk"))
                    eq_refl)).
Defined.

(** C7: whatever the records before it did (a body that does not decode, a
    payload refused by its schema, an exception inside a handler), a record
    is handled in full on the events they left: the batch never raises, its
    run is the run of the records before, then of the record, then of those
    after; a record that decodes and passes its schema is dispatched; a
    record that does not decode, or that its schema refuses, leaves two log
    lines and nothing else; and neither the handling of a record nor a
    dispatch raises. *)
Theorem batch_isolation env before body_str after tr :
  let lib := pylib env in
  let tr1 := snd (handle_my_queue env before tr) in
  let got := Log INFO ("Got message: " @@ body_str) None in
  fst (handle_my_queue env (before ++ body_str :: after) tr) = Ok tt /\
  handle_my_queue env (before ++ body_str :: after) tr =
  handle_my_queue env after (snd (handle_record env body_str tr1)) /\
  (forall data parsed,
      normalize env body_str = Ok data ->
      parse_sqs_message lib data = Ok parsed ->
      handle_record env body_str tr1 = dispatch env parsed (tr1 ++ [got])) /\
  (forall exc,
      normalize env body_str = Raise exc ->
      handle_record env body_str tr1 =
      (Ok tt, tr1 ++ [got; Log ERROR "Failed to parse SQS record body as JSON" (Some exc)])) /\
  (forall data exc,
      normalize env body_str = Ok data ->
      parse_sqs_message lib data = Raise exc ->
      handle_record env body_str tr1 =
      (Ok tt, tr1 ++ [got; Log ERROR "Failed to parse message with schema" (Some exc)])) /\
  fst (handle_record env body_str tr1) = Ok tt /\
  (forall parsed tr0, fst (dispatch env parsed tr0) = Ok tt).
Proof.
  cbv zeta. split; [| split; [| split; [| split; [| split; [| split]]]]].
  - destruct (never_raises_handle_my_queue env (before ++ body_str :: after) tr) as [[] H].
    exact H.
  - now rewrite handle_my_queue_app, handle_my_queue_cons.
  - intros data parsed Hn Hp. now apply handle_record_dispatches with (data := data).
  - intros exc Hn. now apply handle_record_drops_undecoded.
  - intros data exc Hn Hp. now apply handle_record_drops_invalid with (data := data).
  - destruct (never_raises_handle_record env body_str
                (snd (handle_my_queue env before tr))) as [[] H]. exact H.
  - intros parsed tr0. destruct (never_raises_dispatch env parsed tr0) as [[] H]. exact H.
Qed.

Lemma batch_isolation_witness :
  handle_record broken_env "magic-link"
    (snd (handle_my_queue broken_env ["registered"; "junk"; "bad-schema"] []))
  = dispatch broken_env
      (StudentMagicLinkRequested
         {| StudentMagicLinkRequestedMessage.eventType := STUDENT_MAGIC_LINK_REQUESTED;
            StudentMagicLinkRequestedMessage.timestamp := "2025-08-08T15:00:00.000Z";
            StudentMagicLinkRequestedMessage.email := "student@example.org";
            StudentMagicLinkRequestedMessage.magicToken := "tok-1";
            StudentMagicLinkRequestedMessage.linkUrl := None;
            StudentMagicLinkRequestedMessage.source := None |})
      (snd (handle_my_queue broken_env ["registered"; "junk"; "bad-schema"] [])
         ++ [Log INFO ("Got message: " @@ "magic-link") None]).
Proof.
  apply (proj1 (proj2 (proj2 (batch_isolation broken_env ["registered"; "junk"; "bad-schema"]
                                "magic-link" ["registered"] [])))
           magic_link_event); reflexivity.
Defined.

(** The example of the specification: of ten records of which the third is
    refused by its schema, the nine others are dispatched, here to a mailer
    and a provider that both fail. *)
Lemma nine_of_ten_dispatched :
  fst (handle_my_queue broken_env ten_records []) = Ok tt
  /\ List.length (filter is_mail (snd (handle_my_queue broken_env ten_records []))) = 9%nat.
Proof. split; vm_compute; reflexivity. Qed.

(** ** The properties at the sample data *)

Lemma can_pay_returns_explicit_result_witness :
  exists short,
    Decimal_lt_float (Dfinite false 6000 (-2)) fifty = Ok short /\
    api_can_pay (sample_env (answer (zar_tokens "60.00")))
      (JDict [("studentId", JStr "S1"); ("amount_cents", JInt 5000)]) []
    = (Ok (if short then result_message false "Insufficient funds"
           else JDict [("result", JBool true)]),
       snd (get_balance (sample_env (answer (zar_tokens "60.00"))) sample_service
              (JStr "S1") None [])).
Proof.
  apply (proj2 (proj2 (can_pay_returns_explicit_result
                         (sample_env (answer (zar_tokens "60.00")))))
           [("studentId", JStr "S1"); ("amount_cents", JInt 5000)] [] sample_service fifty
           {| RapydMoneyBalance.zar := Dfinite false 6000 (-2);
              RapydMoneyBalance.usd := Decimal_zero |});
    reflexivity.
Defined.

Lemma fund_user_message_witness :
  fst (api_fund_user (sample_env (answer (JDict []))) fund_request [])
  = Ok (JDict [("message", JStr "User can pay")])
  /\ fst (api_fund_user broken_env fund_request [])
     = Raise (client_error (client_request sample_service "GET" "/users/P1" None None)
                (Response 500 "Internal Server Error" None))
  /\ api_fund_user (sample_env (answer (JDict []))) (JDict []) []
     = (Ok (JDict [("message", JStr "User cannot pay")]), []).
Proof.
  split; [| split].
  2: exact (f_equal fst
              (proj1 (proj1 (proj2 (proj2 (fund_user_message broken_env)))
                        [("sponsorId", JStr "P1"); ("amount_cents", JInt 5000)] []
                        sample_service fifty eq_refl eq_refl eq_refl)
                 eq_refl)).
  - exact (f_equal fst
             (proj1 (proj1 (proj2 (fund_user_message (sample_env (answer (JDict [])))))
                       [("sponsorId", JStr "P1"); ("amount_cents", JInt 5000)] []
                       sample_service fifty (sample_party "P1")
                       (snd (get_user (sample_env (answer (JDict []))) sample_service
                               (JStr "P1") None []))
                       eq_refl eq_refl eq_refl eq_refl)
                eq_refl)).
  - exact (proj1 (proj2 (proj2 (proj2 (fund_user_message (sample_env (answer (JDict [])))))))
             [] [] eq_refl).
Defined.

Lemma balance_normalization_witness :
  fst (get_balance (sample_env (answer (zar_tokens "12.5"))) sample_service (JStr "S1") None [])
  = Ok {| RapydMoneyBalance.zar := twelve_and_a_half; RapydMoneyBalance.usd := Decimal_zero |}
  /\ RapydMoneyBalance.from_api sample_lib (zar_tokens "12.5")
     = Ok {| RapydMoneyBalance.zar := twelve_and_a_half; RapydMoneyBalance.usd := Decimal_zero |}.
Proof.
  split.
  - refine (f_equal fst
              (proj1 (balance_normalization (sample_env (answer (zar_tokens "12.5")))
                        sample_service (JStr "S1") None [])
                 [JDict [("name", JStr "L ZAR Coin"); ("balance", JStr "12.5")]]
                 eq_refl _)).
    eexists. split; [reflexivity |]. left. split; [reflexivity | exact I].
  - exact (proj2 (proj2 (proj2 (balance_normalization
                                  (sample_env (answer (zar_tokens "12.5")))
                                  sample_service (JStr "S1") None [])))
             eq_refl).
Defined.

Lemma parse_checks_in_order_witness :
  parse_sqs_message sample_lib (JDict [("timestamp", JStr "2025-08-08T15:00:00.000Z")])
  = Raise (ValueError MissingEventType)
  /\ parse_sqs_message sample_lib (JDict [("eventType", JStr "PAYMENT_COMPLETED")])
     = Raise (ValueError (UnknownEventType "PAYMENT_COMPLETED"))
  /\ parse_sqs_message sample_lib (JDict [("eventType", JStr "STUDENT_MAGIC_LINK_REQUESTED")])
     = Raise (ValueError (FailedToParse "_StudentMagicLinkRequested"
                            [(["timestamp"], "missing"); (["email"], "missing");
                             (["magicToken"], "missing")]))
  /\ eventType
       (StudentMagicLinkRequested
          {| StudentMagicLinkRequestedMessage.eventType := STUDENT_MAGIC_LINK_REQUESTED;
             StudentMagicLinkRequestedMessage.timestamp := "2025-08-08T15:00:00.000Z";
             StudentMagicLinkRequestedMessage.email := "student@example.org";
             StudentMagicLinkRequestedMessage.magicToken := "tok-1";
             StudentMagicLinkRequestedMessage.linkUrl := None;
             StudentMagicLinkRequestedMessage.source := None |})
     = STUDENT_MAGIC_LINK_REQUESTED.
Proof.
  split; [| split; [| split]].
  - exact (proj1 (parse_checks_in_order sample_lib
                    [("timestamp", JStr "2025-08-08T15:00:00.000Z")]) eq_refl).
  - exact (proj1 (proj2 (parse_checks_in_order sample_lib
                           [("eventType", JStr "PAYMENT_COMPLETED")]))
             (JStr "PAYMENT_COMPLETED") eq_refl eq_refl).
  - exact (proj1 (proj1 (proj2 (proj2 (parse_checks_in_order sample_lib
                                         [("eventType", JStr "STUDENT_MAGIC_LINK_REQUESTED")])))
                    (JStr "STUDENT_MAGIC_LINK_REQUESTED") STUDENT_MAGIC_LINK_REQUESTED
                    _StudentMagicLinkRequested eq_refl eq_refl eq_refl)
             _ eq_refl).
  - refine (proj2 (proj1 (proj2 (proj1 (proj2 (proj2 (parse_checks_in_order sample_lib _)))
                                   (JStr "STUDENT_MAGIC_LINK_REQUESTED")
                                   STUDENT_MAGIC_LINK_REQUESTED
                                   _StudentMagicLinkRequested
                                   (eq_refl : lookup "eventType"
                                                [("eventType", JStr "STUDENT_MAGIC_LINK_REQUESTED");
                                                 ("timestamp", JStr "2025-08-08T15:00:00.000Z");
                                                 ("email", JStr "student@example.org");
                                                 ("magicToken", JStr "tok-1")] = _)
                                   eq_refl eq_refl))
                     _ eq_refl)).
Defined.

(** * More of the code *)

(** ** The client *)

Lemma rstrip_slash_no_trailing s : ends_with_slash (rstrip_slash s) = false.
Proof.
  induction s as [| c s IH]; [reflexivity |]. cbn [rstrip_slash].
  destruct (rstrip_slash s) as [| c' r] eqn:E.
  - destruct (Ascii.eqb c "/") eqn:Ec; [reflexivity |]. cbn. exact Ec.
  - cbn [ends_with_slash]. exact IH.
Qed.

Lemma rstrip_slash_app_slash s : rstrip_slash (s @@ "/") = rstrip_slash s.
Proof.
  induction s as [| c s IH]; [reflexivity |].
  cbn [String.append rstrip_slash]. now rewrite IH.
Qed.

Lemma lstrip_slash_no_leading s : starts_with_slash (lstrip_slash s) = false.
Proof.
  induction s as [| c s IH]; [reflexivity |]. cbn [lstrip_slash].
  destruct (Ascii.eqb c "/") eqn:Ec; [exact IH |]. cbn. exact Ec.
Qed.

(** X1: the base URL kept by the service never ends with a slash, a path is
    joined to it with exactly one slash whether or not it starts with
    slashes, and a configured base URL with or without a final slash gives
    the same service. *)
Theorem url_join api_token u path :
  let self := {| api_token := api_token; base_url := rstrip_slash u; default_timeout := 10 |} in
  create_rapydmoney_service api_token (Some u) = Ok self /\
  create_rapydmoney_service api_token (Some (u @@ "/")) = Ok self /\
  ends_with_slash (base_url self) = false /\
  url_of self path = base_url self @@ "/" @@ lstrip_slash path /\
  starts_with_slash (lstrip_slash path) = false /\
  url_of self ("/" @@ path) = url_of self path.
Proof.
  cbv zeta. repeat split.
  - unfold create_rapydmoney_service. now rewrite rstrip_slash_app_slash.
  - apply rstrip_slash_no_trailing.
  - apply lstrip_slash_no_leading.
Qed.

Lemma request_sends_once env self method path json_body timeout :
  sends_once env (_request env self method path json_body timeout)
    (client_request self method path json_body timeout).
Proof. intros tr. now rewrite request_run. Qed.

(** A continuation that neither calls the provider nor prints. *)
Lemma sends_once_bind {A B : Type} env (m : M A) (k : A -> M B) rq :
  sends_once env m rq -> (forall a tr, snd (k a tr) = tr) -> sends_once env (bind m k) rq.
Proof.
  intros Hm Hk tr. specialize (Hm tr). unfold bind.
  destruct (m tr) as [[a | e] tr']; cbn [snd] in *; [rewrite Hk |]; exact Hm.
Qed.

Ltac silent :=
  intros ? ?;
  repeat match goal with
         | |- context [match ?x with _ => _ end] => destruct x
         end; reflexivity.

(** Each method of the client and the one request it sends. *)
Lemma every_method_sends_once env self timeout :
  let lib := pylib env in
  let rq := client_request self in
  (forall user_data,
      sends_once env (create_user env self user_data timeout)
        (rq "POST" "/users" (Some user_data) timeout)) /\
  sends_once env (list_users env self timeout) (rq "GET" "/users" None timeout) /\
  (forall user_id,
      sends_once env (get_user env self user_id timeout)
        (rq "GET" ("/users/" @@ py_str lib user_id) None timeout)) /\
  (forall user_id,
      sends_once env (get_balance env self user_id timeout)
        (rq "GET" ("/" @@ py_str lib user_id @@ "/balance") None timeout)) /\
  (forall user_id,
      sends_once env (get_transactions env self user_id timeout)
        (rq "GET" ("/" @@ user_id @@ "/transactions") None timeout)) /\
  (forall user_id bank_data,
      sends_once env (create_bank_account env self user_id bank_data timeout)
        (rq "POST" ("/bank/" @@ user_id) (Some bank_data) timeout)) /\
  (forall user_id,
      sends_once env (get_bank_account env self user_id timeout)
        (rq "GET" ("/bank/" @@ user_id) None timeout)) /\
  (forall user_id,
      sends_once env (activate_pay env self user_id timeout)
        (rq "POST" ("/activate-pay/" @@ user_id) None timeout)) /\
  (forall payment_identifier,
      sends_once env (get_recipient env self payment_identifier timeout)
        (rq "GET" ("/recipient/" @@ payment_identifier) None timeout)) /\
  (forall mint_data,
      sends_once env (mint env self mint_data timeout)
        (rq "POST" "/mint" (Some mint_data) timeout)) /\
  (forall from_user_id to_user_identifier amount trx_id,
      sends_once env (do_transfer env self from_user_id to_user_identifier amount trx_id)
        (rq "POST" ("/transfer/" @@ from_user_id)
            (Some (transfer_body to_user_identifier amount trx_id)) (Some 60))).
Proof.
  cbv zeta.
  repeat match goal with |- _ /\ _ => split end; intros;
    try (apply request_sends_once);
    (apply sends_once_bind; [apply request_sends_once |]);
    unfold lift, ret, raise, bind; silent.
Qed.

(** X2: every method of the client makes exactly one exchange with the
    provider per call, whatever the answer and whether it returns or raises:
    the request below, and no second attempt. *)
Theorem client_calls_send_one_request env self timeout :
  let lib := pylib env in
  let rq := client_request self in
  (forall user_data,
      sends_once env (create_user env self user_data timeout)
        (rq "POST" "/users" (Some user_data) timeout)) /\
  sends_once env (list_users env self timeout) (rq "GET" "/users" None timeout) /\
  (forall user_id,
      sends_once env (get_user env self user_id timeout)
        (rq "GET" ("/users/" @@ py_str lib user_id) None timeout)) /\
  (forall user_id,
      sends_once env (get_balance env self user_id timeout)
        (rq "GET" ("/" @@ py_str lib user_id @@ "/balance") None timeout)) /\
  (forall user_id,
      sends_once env (get_transactions env self user_id timeout)
        (rq "GET" ("/" @@ user_id @@ "/transactions") None timeout)) /\
  (forall user_id bank_data,
      sends_once env (create_bank_account env self user_id bank_data timeout)
        (rq "POST" ("/bank/" @@ user_id) (Some bank_data) timeout)) /\
  (forall user_id,
      sends_once env (get_bank_account env self user_id timeout)
        (rq "GET" ("/bank/" @@ user_id) None timeout)) /\
  (forall user_id,
      sends_once env (activate_pay env self user_id timeout)
        (rq "POST" ("/activate-pay/" @@ user_id) None timeout)) /\
  (forall payment_identifier,
      sends_once env (get_recipient env self payment_identifier timeout)
        (rq "GET" ("/recipient/" @@ payment_identifier) None timeout)) /\
  (forall mint_data,
      sends_once env (mint env self mint_data timeout)
        (rq "POST" "/mint" (Some mint_data) timeout)) /\
  (forall from_user_id to_user_identifier amount trx_id,
      sends_once env (do_transfer env self from_user_id to_user_identifier amount trx_id)
        (rq "POST" ("/transfer/" @@ from_user_id)
            (Some (transfer_body to_user_identifier amount trx_id)) (Some 60))).
Proof. exact (every_method_sends_once env self timeout). Qed.

Lemma required_str_valid d field s :
  required d field v_str = Valid s -> lookup field d = Some (JStr s).
Proof.
  unfold required. destruct (lookup field d) as [v |]; [| discriminate].
  destruct v; try discriminate. cbn. now intros [= <-].
Qed.

Lemma required_aliased_str_valid d alias name s :
  required_aliased d alias name v_str = Valid s -> aliased_str d alias name s.
Proof.
  unfold required_aliased, aliased_str.
  destruct (lookup alias d) as [v |].
  - destruct v; try discriminate. cbn. intros [= <-]. now left.
  - destruct (lookup name d) as [v |]; [| discriminate].
    destruct v; try discriminate. cbn. intros [= <-]. now right.
Qed.

Lemma from_api_written u extra :
  RapydMoneyUser.from_api (JDict (user_json u ++ extra)) = Ok u.
Proof. destruct u as [i e f l p q]. reflexivity. Qed.

Lemma from_api_read d u :
  RapydMoneyUser.from_api (JDict d) = Ok u ->
  lookup "id" d = Some (JStr (RapydMoneyUser.id u)) /\
  lookup "email" d = Some (JStr (RapydMoneyUser.email u)) /\
  aliased_str d "firstName" "first_name" (RapydMoneyUser.first_name u) /\
  aliased_str d "lastName" "last_name" (RapydMoneyUser.last_name u) /\
  aliased_str d "publicKey" "public_key" (RapydMoneyUser.public_key u) /\
  aliased_str d "paymentIdentifier" "payment_identifier"
    (RapydMoneyUser.payment_identifier u).
Proof.
  unfold RapydMoneyUser.from_api. cbn [v_model].
  destruct (RapydMoneyUser.fields d) as [u' |] eqn:E; [| discriminate].
  intros [= <-]. unfold RapydMoneyUser.fields in E.
  repeat (apply vap_valid in E; destruct E as (? & ? & E & ? & ->)).
  injection E as <-. cbn.
  repeat split;
    first [ now apply required_str_valid | now apply required_aliased_str_valid ].
Qed.

(** X3: a party is read back as it was written, whatever other fields
    follow; and a party that [from_api] returns holds nothing but strings of
    the map it was read from: 'id' and 'email' under their names, the four
    other fields under their alias or, when the alias is absent, under the
    name of the field. *)
Theorem user_from_api_round_trip :
  (forall u extra, RapydMoneyUser.from_api (JDict (user_json u ++ extra)) = Ok u) /\
  (forall d u,
      RapydMoneyUser.from_api (JDict d) = Ok u ->
      lookup "id" d = Some (JStr (RapydMoneyUser.id u)) /\
      lookup "email" d = Some (JStr (RapydMoneyUser.email u)) /\
      aliased_str d "firstName" "first_name" (RapydMoneyUser.first_name u) /\
      aliased_str d "lastName" "last_name" (RapydMoneyUser.last_name u) /\
      aliased_str d "publicKey" "public_key" (RapydMoneyUser.public_key u) /\
      aliased_str d "paymentIdentifier" "payment_identifier"
        (RapydMoneyUser.payment_identifier u)) /\
  (forall data, is_dict data = false ->
                RapydMoneyUser.from_api data
                = Raise (ValidationError "RapydMoneyUser" [([], "model_type")])).
Proof.
  split; [exact from_api_written | split; [exact from_api_read |]].
  intros data H. destruct data; try reflexivity. discriminate.
Qed.

Lemma user_from_api_round_trip_witness :
  lookup "id" (user_json (sample_party "M1")) = Some (JStr "M1")
  /\ aliased_str (user_json (sample_party "M1")) "paymentIdentifier" "payment_identifier"
       "pay-M1".
Proof.
  pose proof (proj1 (proj2 user_from_api_round_trip)
                (user_json (sample_party "M1")) (sample_party "M1") eq_refl) as H.
  split; [exact (proj1 H) | exact (proj2 (proj2 (proj2 (proj2 (proj2 H)))))].
Defined.

Lemma get_user_run env self user_id timeout tr :
  get_user env self user_id timeout tr =
  let lib := pylib env in
  let rq := client_request self "GET" ("/users/" @@ py_str lib user_id) None timeout in
  let rs := provider env tr rq in
  (if failed rs then Raise (client_error rq rs)
   else
     match user_map (response_value rs) with
     | Some m => RapydMoneyUser.from_api (JDict m)
     | None =>
         Raise (RapydMoneyAPIError (-1) (base_url self @@ "/users/" @@ py_str lib user_id)
                  (Some (py_str lib (response_value rs)))
                  "Unexpected response shape for get_user")
     end,
   tr ++ [Http rq rs]).
Proof.
  unfold get_user, bind. rewrite request_run. cbv zeta.
  destruct (failed _); [reflexivity |].
  destruct (response_value _) as [| | | | | | d]; try reflexivity.
  cbn [user_map]. destruct (lookup "user" d) as [[] |]; reflexivity.
Qed.

(** X4: [get_user] accepts the party as the whole answer or under 'user', the
    map under 'user' being preferred; an answer that is not a map raises the
    client's error with status -1 and the text of the answer as body; and a
    party that is returned was read, string by string, from an answer with a
    2xx status. *)
Theorem get_user_shapes env self user_id timeout tr :
  let lib := pylib env in
  let rq := client_request self "GET" ("/users/" @@ py_str lib user_id) None timeout in
  let rs := provider env tr rq in
  let data := response_value rs in
  (forall u extra,
      failed rs = false ->
      data = JDict (user_json u ++ extra) -> lookup "user" (user_json u ++ extra) = None ->
      fst (get_user env self user_id timeout tr) = Ok u) /\
  (forall u d,
      failed rs = false ->
      data = JDict d -> lookup "user" d = Some (JDict (user_json u)) ->
      fst (get_user env self user_id timeout tr) = Ok u) /\
  (failed rs = false -> is_dict data = false ->
   fst (get_user env self user_id timeout tr) =
   Raise (RapydMoneyAPIError (-1) (base_url self @@ "/users/" @@ py_str lib user_id)
            (Some (py_str lib data)) "Unexpected response shape for get_user")) /\
  (forall u,
      fst (get_user env self user_id timeout tr) = Ok u ->
      failed rs = false /\
      exists m, user_map data = Some m /\
                lookup "id" m = Some (JStr (RapydMoneyUser.id u)) /\
                aliased_str m "paymentIdentifier" "payment_identifier"
                  (RapydMoneyUser.payment_identifier u)).
Proof.
  cbv zeta. rewrite get_user_run. cbv zeta. cbn [fst].
  split; [| split; [| split]].
  - intros u extra Hf Hd Hn. rewrite Hf, Hd. cbn [user_map]. rewrite Hn.
    apply from_api_written.
  - intros u d Hf Hd Hu. rewrite Hf, Hd. cbn [user_map]. rewrite Hu.
    rewrite <- (app_nil_r (user_json u)). apply from_api_written.
  - intros Hf Hd. rewrite Hf.
    destruct (response_value _); try reflexivity. discriminate.
  - intros u. destruct (failed _); [discriminate |]. intros H. split; [reflexivity |].
    destruct (user_map _) as [m |]; [| discriminate].
    exists m. split; [reflexivity |].
    destruct (from_api_read m u H) as (Hi & _ & _ & _ & _ & Hp).
    now split.
Qed.

Lemma get_user_shapes_witness :
  fst (get_user (sample_env transfer_accepted) sample_service (JStr "S1") None [])
  = Ok (sample_party "S1")
  /\ fst (get_user (sample_env transfer_accepted) sample_service (JStr "M1") None [])
     = Ok (sample_party "M1").
Proof.
  split.
  - exact (proj1 (proj2 (get_user_shapes (sample_env transfer_accepted) sample_service
                           (JStr "S1") None []))
             (sample_party "S1") [("user", sample_user "S1")] eq_refl eq_refl eq_refl).
  - exact (proj1 (get_user_shapes (sample_env transfer_accepted) sample_service
                    (JStr "M1") None [])
             (sample_party "M1") [] eq_refl eq_refl eq_refl).
Defined.

Lemma users_from_api_written users :
  users_from_api (map (fun u => JDict (user_json u)) users) = Ok users.
Proof.
  induction users as [| u users IH]; [reflexivity |]. cbn [map users_from_api].
  rewrite <- (app_nil_r (user_json u)), from_api_written, IH. reflexivity.
Qed.

Lemma users_from_api_length l : forall users,
  users_from_api l = Ok users -> List.length users = List.length l.
Proof.
  induction l as [| x l IH]; intros users; cbn [users_from_api].
  - now intros [= <-].
  - destruct (RapydMoneyUser.from_api x); [| discriminate].
    destruct (users_from_api l) as [users' |]; [| discriminate].
    intros [= <-]. cbn. now rewrite (IH users').
Qed.

Lemma filter_length_le {A : Type} (p : A -> bool) l :
  (List.length (filter p l) <= List.length l)%nat.
Proof.
  induction l as [| x l IH]; cbn; [lia |]. destruct (p x); cbn; lia.
Qed.

(** The entries that [list_users] looks at. *)
Lemma list_users_run env self timeout tr :
  list_users env self timeout tr =
  let rq := client_request self "GET" "/users" None timeout in
  let rs := provider env tr rq in
  (if failed rs then Raise (client_error rq rs)
   else
     match response_value rs with
     | JDict d =>
         match lookup "users" d with
         | Some (JList us) => users_from_api (filter is_dict us)
         | _ => Ok []
         end
     | JList us => users_from_api (filter is_dict us)
     | _ => Ok []
     end,
   tr ++ [Http rq rs]).
Proof.
  unfold list_users, bind. rewrite request_run. cbv zeta.
  destruct (failed _); [reflexivity |].
  destruct (response_value _) as [| | | | | us | d]; try reflexivity.
  destruct (lookup "users" d) as [[] |]; reflexivity.
Qed.

(** X5: [list_users] reads the list that is the answer or that stands under
    'users', skips its entries that are not maps, and returns the parties in
    order, as many as there are maps; an answer of any other shape gives the
    empty list rather than an error. *)
Theorem list_users_result env self timeout tr :
  let rq := client_request self "GET" "/users" None timeout in
  let rs := provider env tr rq in
  let data := response_value rs in
  (forall us users,
      failed rs = false ->
      data = JList us \/ (exists d, data = JDict d /\ lookup "users" d = Some (JList us)) ->
      filter is_dict us = map (fun u => JDict (user_json u)) users ->
      fst (list_users env self timeout tr) = Ok users) /\
  (forall us users,
      failed rs = false ->
      data = JList us \/ (exists d, data = JDict d /\ lookup "users" d = Some (JList us)) ->
      fst (list_users env self timeout tr) = Ok users ->
      List.length users = List.length (filter is_dict us) /\
      (List.length users <= List.length us)%nat) /\
  (failed rs = false ->
   match data with
   | JList _ => False
   | JDict d => match lookup "users" d with Some (JList _) => False | _ => True end
   | _ => True
   end ->
   fst (list_users env self timeout tr) = Ok []).
Proof.
  cbv zeta. rewrite list_users_run. cbv zeta. cbn [fst].
  split; [| split].
  - intros us users Hf Hshape Hus. rewrite Hf.
    destruct Hshape as [-> | (d & -> & ->)]; rewrite Hus; apply users_from_api_written.
  - intros us users Hf Hshape. rewrite Hf.
    destruct Hshape as [-> | (d & -> & ->)]; intros H;
      apply users_from_api_length in H; rewrite H;
      (split; [reflexivity | apply filter_length_le]).
  - intros Hf Hshape. rewrite Hf.
    destruct (response_value _) as [| | | | | us | d]; try reflexivity; [contradiction |].
    destruct (lookup "users" d) as [[] |]; try reflexivity. contradiction.
Qed.

Lemma list_users_result_witness :
  fst (list_users
         (sample_env (answer (JList [sample_user "M1"; JStr "noise"; sample_user "S1"])))
         sample_service None [])
  = Ok [sample_party "M1"; sample_party "S1"].
Proof.
  exact (proj1 (list_users_result
                  (sample_env (answer (JList [sample_user "M1"; JStr "noise";
                                              sample_user "S1"])))
                  sample_service None [])
           [sample_user "M1"; JStr "noise"; sample_user "S1"]
           [sample_party "M1"; sample_party "S1"]
           eq_refl (or_introl eq_refl) eq_refl).
Defined.

(** X6: after an exchange that succeeded, [get_transactions] always returns
    a list (the answer, the list under 'transactions', or the empty list) and
    [activate_pay] always returns a map (the answer, or [{"success": True}]
    written as its one binding); neither raises on an answer of an
    unexpected shape. *)
Theorem transactions_and_activation_shapes env self user_id timeout tr :
  (let rs := provider env tr
               (client_request self "GET" ("/" @@ user_id @@ "/transactions") None timeout) in
   failed rs = false ->
   exists ts,
     fst (get_transactions env self user_id timeout tr) = Ok ts /\
     (response_value rs = JList ts \/
      (exists d, response_value rs = JDict d /\ lookup "transactions" d = Some (JList ts)) \/
      ts = [])) /\
  (let rs := provider env tr
               (client_request self "POST" ("/activate-pay/" @@ user_id) None timeout) in
   failed rs = false ->
   (forall d, response_value rs = JDict d ->
              fst (activate_pay env self user_id timeout tr) = Ok (JDict d)) /\
   (is_dict (response_value rs) = false ->
    fst (activate_pay env self user_id timeout tr) = Ok (JDict [("success", JBool true)]))).
Proof.
  split; cbv zeta; intros Hf.
  - unfold get_transactions, bind. rewrite request_run. cbv zeta. rewrite Hf.
    destruct (response_value _) as [| | | | | ts | d] eqn:E; cbn; eauto.
    destruct (lookup "transactions" d) as [[| | | | | ts |] |] eqn:El; cbn; eauto.
    exists ts. split; [reflexivity |]. right. left. eauto.
  - unfold activate_pay, bind. rewrite request_run. cbv zeta. rewrite Hf. split.
    + intros d ->. reflexivity.
    + destruct (response_value _); try reflexivity. discriminate.
Qed.

Lemma transactions_and_activation_shapes_witness :
  fst (activate_pay (sample_env (Response 200 EmptyString None)) sample_service "u-1" None [])
  = Ok (JDict [("success", JBool true)]).
Proof.
  exact (proj2 (proj2 (transactions_and_activation_shapes
                         (sample_env (Response 200 EmptyString None))
                         sample_service "u-1" None [])
                  eq_refl) eq_refl).
Defined.

(** X7: what [do_transfer] returns is either [False] or the provider's
    answer, a map whose 'message' says "successful"; so the test that the
    handlers make again on the returned value never raises and is the truth
    value of that value. *)
Theorem do_transfer_result env self from_user_id to_user_identifier amount trx_id tr v :
  fst (do_transfer env self from_user_id to_user_identifier amount trx_id tr) = Ok v ->
  (v = JBool false \/
   (v = response_value
          (provider env tr
             (transfer_request self from_user_id to_user_identifier amount trx_id)) /\
    says_successful (pylib env) v = true)) /\
  message_successful env v = Ok (truthy v) /\
  (truthy v = true <-> says_successful (pylib env) v = true).
Proof.
  rewrite do_transfer_run. cbv zeta. cbn [fst].
  destruct (failed _); [discriminate |].
  destruct (message_successful env (response_value _)) as [[|] | e] eqn:E; try discriminate;
    intros [= <-].
  - pose proof (proj1 (message_successful_true env _) E) as Hs.
    assert (Ht : truthy (response_value
                           (provider env tr
                              (transfer_request self from_user_id to_user_identifier
                                 amount trx_id))) = true).
    { unfold message_successful in E. destruct (truthy _); [reflexivity | discriminate]. }
    rewrite Ht. repeat split; auto.
  - split; [now left |]. split; [reflexivity |]. split; discriminate.
Qed.

Lemma do_transfer_result_witness :
  message_successful (sample_env transfer_accepted)
    (JDict [("message", JStr "Transfer successful")]) = Ok true.
Proof.
  exact (proj1 (proj2 (do_transfer_result (sample_env transfer_accepted) sample_service
                         "S1" "pay-M1" fifty "Idem_k-42" []
                         (JDict [("message", JStr "Transfer successful")]) eq_refl))).
Defined.

(** ** The HTTP handlers *)

(** X8: PayUser and SponsorUser answer a request in which one of the two ids
    is absent or falsy with the invalid-request body, and make no exchange
    with the provider, whatever else the request holds; and when both ids are
    given, a base URL that is not configured or an amount that is not a
    number raises before any exchange. *)
Theorem no_exchange_before_validation env d tr :
  let lib := pylib env in
  let invalid := result_message false "Sponsor transfer failed, invalid request" in
  let told := Print "Invalid request: missing sponsorId or studentId" in
  let incoming := Print ("Incoming sponsor transfer  request: " @@ py_str lib (JDict d)) in
  ((truthy (dict_get "merchantId" d) && truthy (dict_get "studentId" d))%bool = false ->
   api_pay_user env (JDict d) tr = (Ok invalid, tr ++ [told])) /\
  ((truthy (dict_get "sponsorId" d) && truthy (dict_get "studentId" d))%bool = false ->
   api_sponsor_user env (JDict d) tr = (Ok invalid, tr ++ [incoming; told])) /\
  ((truthy (dict_get "merchantId" d) && truthy (dict_get "studentId" d))%bool = true ->
   (RAPYD_MONEY_BASE_URL env = None ->
    api_pay_user env (JDict d) tr = (Raise AttributeError, tr)) /\
   (forall rapyd e,
       create_rapydmoney_service (RAPYD_MONEY_API_TOKEN env) (RAPYD_MONEY_BASE_URL env)
         = Ok rapyd ->
       py_truediv_100 (dict_get "amount_cents" d) = Raise e ->
       api_pay_user env (JDict d) tr = (Raise e, tr))) /\
  ((truthy (dict_get "sponsorId" d) && truthy (dict_get "studentId" d))%bool = true ->
   (RAPYD_MONEY_BASE_URL env = None ->
    api_sponsor_user env (JDict d) tr = (Raise AttributeError, tr ++ [incoming])) /\
   (forall rapyd e,
       create_rapydmoney_service (RAPYD_MONEY_API_TOKEN env) (RAPYD_MONEY_BASE_URL env)
         = Ok rapyd ->
       py_truediv_100 (dict_get "amount_cents" d) = Raise e ->
       api_sponsor_user env (JDict d) tr = (Raise e, tr ++ [incoming]))).
Proof.
  cbv zeta. split; [| split; [| split]].
  - intros H. unfold api_pay_user, bind, lift, print, emit, ret. cbn [py_get].
    change (dict_get_default "merchantId" d JNull) with (dict_get "merchantId" d).
    change (dict_get_default "studentId" d JNull) with (dict_get "studentId" d).
    now rewrite H.
  - intros H. unfold api_sponsor_user, bind, lift, print, emit, ret. cbn [py_get].
    change (dict_get_default "sponsorId" d JNull) with (dict_get "sponsorId" d).
    change (dict_get_default "studentId" d JNull) with (dict_get "studentId" d).
    rewrite H. now rewrite <- app_assoc.
  - intros H. split.
    + intros Hb. unfold api_pay_user, new_service, bind, lift. cbn [py_get].
      change (dict_get_default "merchantId" d JNull) with (dict_get "merchantId" d).
      change (dict_get_default "studentId" d JNull) with (dict_get "studentId" d).
      rewrite H, Hb. reflexivity.
    + intros rapyd e Hsvc Ha. unfold api_pay_user, new_service, bind, lift. cbn [py_get].
      change (dict_get_default "merchantId" d JNull) with (dict_get "merchantId" d).
      change (dict_get_default "studentId" d JNull) with (dict_get "studentId" d).
      change (dict_get_default "amount_cents" d JNull) with (dict_get "amount_cents" d).
      rewrite H, Hsvc, Ha. reflexivity.
  - intros H. split.
    + intros Hb. unfold api_sponsor_user, new_service, bind, lift, print, emit.
      cbn [py_get].
      change (dict_get_default "sponsorId" d JNull) with (dict_get "sponsorId" d).
      change (dict_get_default "studentId" d JNull) with (dict_get "studentId" d).
      rewrite H, Hb. reflexivity.
    + intros rapyd e Hsvc Ha.
      unfold api_sponsor_user, new_service, bind, lift, print, emit. cbn [py_get].
      change (dict_get_default "sponsorId" d JNull) with (dict_get "sponsorId" d).
      change (dict_get_default "studentId" d JNull) with (dict_get "studentId" d).
      change (dict_get_default "amount_cents" d JNull) with (dict_get "amount_cents" d).
      rewrite H, Hsvc, Ha. reflexivity.
Qed.

Lemma no_exchange_before_validation_witness :
  api_pay_user broken_env (JDict [("merchantId", JStr "M1"); ("amount_cents", JInt 5000)]) []
  = (Ok (result_message false "Sponsor transfer failed, invalid request"),
     [Print "Invalid request: missing sponsorId or studentId"])
  /\ api_pay_user broken_env (JDict [("merchantId", JStr "M1"); ("studentId", JStr "S1")]) []
     = (Raise TypeError, []).
Proof.
  split.
  - exact (proj1 (no_exchange_before_validation broken_env
                    [("merchantId", JStr "M1"); ("amount_cents", JInt 5000)] []) eq_refl).
  - exact (proj2 (proj1 (proj2 (proj2 (no_exchange_before_validation broken_env
                                         [("merchantId", JStr "M1"); ("studentId", JStr "S1")]
                                         [])))
                    eq_refl)
             sample_service TypeError eq_refl eq_refl).
Defined.

Ltac at_recipient H :=
  destruct H as (Hparty & Hstudent & Hsvc & Hamount & tr1 & tr2 & Hu1 & Hu2 & Hrcp).

(** X9: when the lookup of the student's recipient returns a falsy value
    (nothing, an empty map), PayUser and SponsorUser send no transfer: the
    recipient lookup is their last exchange and the body is the
    transfer-failed one. *)
Theorem no_transfer_without_recipient env d tr rapyd amount party_user student_user
        recipient tr3 :
  let lib := pylib env in
  let failure := result_message false "Sponsor transfer failed" in
  let told := Print "Failed to transfer funds to student" in
  truthy recipient = false ->
  (reaches_recipient env "merchantId" d tr rapyd amount party_user student_user recipient tr3 ->
   api_pay_user env (JDict d) tr = (Ok failure, tr3 ++ [told])) /\
  (reaches_recipient env "sponsorId" d
     (tr ++ [Print ("Incoming sponsor transfer  request: " @@ py_str lib (JDict d))])
     rapyd amount party_user student_user recipient tr3 ->
   api_sponsor_user env (JDict d) tr = (Ok failure, tr3 ++ [told])).
Proof.
  cbv zeta. intros Hrt. split; intros H; at_recipient H.
  - unfold api_pay_user, new_service, bind, lift, print, emit, ret. cbn [py_get].
    change (dict_get_default "merchantId" d JNull) with (dict_get "merchantId" d).
    change (dict_get_default "studentId" d JNull) with (dict_get "studentId" d).
    change (dict_get_default "amount_cents" d JNull) with (dict_get "amount_cents" d).
    rewrite Hparty, Hstudent, Hsvc, Hamount. cbn [andb]. rewrite Hu1, Hu2.
    cbn [RapydMoneyUser.truthy andb]. rewrite Hrcp, Hrt. reflexivity.
  - unfold api_sponsor_user, new_service, bind, lift, print, emit, ret. cbn [py_get].
    change (dict_get_default "sponsorId" d JNull) with (dict_get "sponsorId" d).
    change (dict_get_default "studentId" d JNull) with (dict_get "studentId" d).
    change (dict_get_default "amount_cents" d JNull) with (dict_get "amount_cents" d).
    rewrite Hparty, Hstudent, Hsvc, Hamount. cbn [andb]. rewrite Hu1, Hu2.
    cbn [RapydMoneyUser.truthy andb]. rewrite Hrcp, Hrt. reflexivity.
Qed.

Lemma no_transfer_without_recipient_witness :
  exists tr3,
    api_pay_user no_recipient_env pay_request []
    = (Ok (result_message false "Sponsor transfer failed"),
       tr3 ++ [Print "Failed to transfer funds to student"]).
Proof.
  eexists.
  apply (proj1 (no_transfer_without_recipient no_recipient_env
                  [("merchantId", JStr "M1"); ("studentId", JStr "S1");
                   ("idempotency_key", JStr "k-42"); ("amount_cents", JInt 5000)]
                  [] sample_service fifty (sample_party "M1") (sample_party "S1")
                  JNull _ eq_refl)).
  repeat split; try reflexivity.
  do 2 eexists. repeat split; reflexivity.
Defined.

Lemma count_http_snoc tr ev :
  count_http (tr ++ [ev]) = (count_http tr + if is_http ev then 1 else 0)%nat.
Proof.
  unfold count_http. rewrite filter_app, length_app. cbn [filter].
  destruct (is_http ev); reflexivity.
Qed.

Lemma at_most_ret {A : Type} n (a : A) : at_most n (ret a).
Proof. intros tr. unfold ret. cbn [snd]. lia. Qed.

Lemma at_most_raise {A : Type} n e : at_most n (@raise A e).
Proof. intros tr. unfold raise. cbn [snd]. lia. Qed.

Lemma at_most_lift {A : Type} n (o : outcome A) : at_most n (lift o).
Proof. intros tr. unfold lift. cbn [snd]. lia. Qed.

Lemma at_most_print n line : at_most n (print line).
Proof.
  intros tr. unfold print, emit. cbn [snd]. rewrite count_http_snoc. cbn [is_http]. lia.
Qed.

Lemma at_most_bind_silent {A B : Type} n (m : M A) (k : A -> M B) :
  at_most 0 m -> (forall a, at_most n (k a)) -> at_most n (bind m k).
Proof.
  intros Hm Hk tr. specialize (Hm tr). unfold bind.
  destruct (m tr) as [[a | e] tr']; cbn [snd] in *; [| lia].
  specialize (Hk a tr'). lia.
Qed.

Lemma at_most_bind_call {A B : Type} n (m : M A) (k : A -> M B) :
  at_most 1 m -> (forall a, at_most n (k a)) -> at_most (S n) (bind m k).
Proof.
  intros Hm Hk tr. specialize (Hm tr). unfold bind.
  destruct (m tr) as [[a | e] tr']; cbn [snd] in *; [| lia].
  specialize (Hk a tr'). lia.
Qed.

Lemma at_most_bind_then_silent {A B : Type} n (m : M A) (k : A -> M B) :
  at_most n m -> (forall a, at_most 0 (k a)) -> at_most n (bind m k).
Proof.
  intros Hm Hk tr. specialize (Hm tr). unfold bind.
  destruct (m tr) as [[a | e] tr']; cbn [snd] in *; [| lia].
  specialize (Hk a tr'). lia.
Qed.

Lemma at_most_sends_once {A : Type} env (m : M A) rq : sends_once env m rq -> at_most 1 m.
Proof. intros H tr. rewrite H, count_http_snoc. cbn [is_http]. lia. Qed.

Ltac one_call :=
  first
    [ eapply at_most_sends_once;
      apply (proj1 (proj2 (proj2 (every_method_sends_once _ _ _))))
    | eapply at_most_sends_once;
      apply (proj1 (proj2 (proj2 (proj2 (every_method_sends_once _ _ _)))))
    | eapply at_most_sends_once;
      apply (proj1 (proj2 (proj2 (proj2 (proj2 (proj2 (proj2 (proj2
               (proj2 (every_method_sends_once _ _ _))))))))))
    | eapply at_most_sends_once;
      apply (proj1 (proj2 (proj2 (proj2 (proj2 (proj2 (proj2 (proj2
               (proj2 (proj2 (every_method_sends_once _ _ _)))))))))))
    | eapply at_most_sends_once;
      apply (proj2 (proj2 (proj2 (proj2 (proj2 (proj2 (proj2 (proj2
               (proj2 (proj2 (every_method_sends_once _ _ None))))))))))) ].

Ltac budget :=
  repeat first
    [ apply at_most_ret
    | apply at_most_raise
    | apply at_most_lift
    | apply at_most_print
    | apply at_most_bind_silent; [first [apply at_most_lift | apply at_most_print] | intros ? ]
    | apply at_most_bind_call; [one_call | intros ? ]
    | match goal with
      | |- at_most _ (bind (if _ then _ else _) _) =>
          apply at_most_bind_then_silent; [| intros ? ]
      | |- at_most _ (match ?x with _ => _ end) => destruct x
      | |- at_most _ (if ?b then _ else _) => destruct b
      end ].

(** X10: one request costs the provider a bounded number of exchanges: at
    most one for CanPay, two for FundUser, four for PayUser and for
    SponsorUser; no path of a handler repeats a call. *)
Theorem handlers_exchange_budget env route json_body tr :
  (count_http (snd (handler env route json_body tr))
   <= count_http tr + exchange_budget route)%nat.
Proof.
  revert tr. change (at_most (exchange_budget route) (handler env route json_body)).
  destruct route; cbn [handler exchange_budget].
  - unfold api_can_pay, new_service. budget.
  - unfold api_pay_user, new_service. budget.
  - unfold api_fund_user, new_service. budget.
  - unfold api_sponsor_user, new_service. budget.
Qed.

(** ** The queue consumer, event by event *)

(** The display name of a registered user is "first last" when both
    names are given and not empty, the one that is given when the other is
    absent or empty, and absent when neither is given; an empty name counts
    as absent. *)
Lemma display_name_cases user :
  let first := UserEnvelope.firstName user in
  let last := UserEnvelope.lastName user in
  (forall f l,
      first = Some f -> last = Some l -> f <> EmptyString -> l <> EmptyString ->
      display_name user = Some (f @@ " " @@ l)) /\
  (nonempty first = true -> nonempty last = false -> display_name user = first) /\
  (nonempty first = false -> nonempty last = true -> display_name user = last) /\
  (nonempty first = false -> nonempty last = false -> display_name user = None).
Proof.
  cbv zeta. unfold display_name. repeat split.
  - intros f l -> -> Hf Hl. cbn [nonempty].
    destruct (String.eqb_spec f EmptyString); [contradiction |].
    destruct (String.eqb_spec l EmptyString); [contradiction |]. reflexivity.
  - intros -> ->. reflexivity.
  - intros -> ->. reflexivity.
  - intros -> ->. reflexivity.
Qed.

Lemma display_name_cases_witness : display_name first_name_only = Some "Wikus".
Proof.
  exact (proj1 (proj2 (display_name_cases first_name_only)) eq_refl eq_refl).
Defined.



Ltac flatten_traces := repeat rewrite <- app_assoc; cbn [app].



(** ** Messages and their classes *)

Lemma model_validate_type lib c data m :
  model_validate lib c data = Valid m -> type_of m = c /\ eventType m = event_of c.
Proof.
  destruct c; cbn [model_validate]; destruct data as [| b | n | f | s | xs | l];
    cbn [v_model vmap]; try discriminate.
  - unfold UserRegisteredMessage.fields, v_literal.
    destruct (lookup "eventType" l) as [v |].
    + destruct (EventType_of v) as [[|] |]; cbn [EventType_eqb].
      all: repeat match goal with
             | |- context [required ?d ?f ?c] => destruct (required d f c)
           end; cbn; intros H; inversion H; auto.
    + repeat match goal with
             | |- context [required ?d ?f ?c] => destruct (required d f c)
             end; cbn; intros H; inversion H; auto.
  - unfold StudentMagicLinkRequestedMessage.fields, v_literal.
    destruct (lookup "eventType" l) as [v |].
    + destruct (EventType_of v) as [[|] |]; cbn [EventType_eqb].
      all: repeat match goal with
             | |- context [required ?d ?f ?c] => destruct (required d f c)
             | |- context [optional ?d ?f ?c] => destruct (optional d f c)
           end; cbn; intros H; inversion H; auto.
    + repeat match goal with
             | |- context [required ?d ?f ?c] => destruct (required d f c)
             | |- context [optional ?d ?f ?c] => destruct (optional d f c)
             end; cbn; intros H; inversion H; auto.
Qed.

Lemma get_class_sqs_registry ev :
  SqsModelRegistry.get_class sqs_registry ev =
  Some (match ev with
        | USER_REGISTERED => _UserRegistered
        | STUDENT_MAGIC_LINK_REQUESTED => _StudentMagicLinkRequested
        end).
Proof. destruct ev; reflexivity. Qed.

(** X12: [get_sqs_model_class] and [parse_sqs_message] agree on every
    input, a map or not: when the first raises, the second raises the same
    error; when the first returns a class, the second either returns an
    instance of that very class, whose event type is the one the class is
    registered for, or raises the schema failure naming that class. *)
Theorem class_lookup_agrees_with_parse lib message :
  match get_sqs_model_class lib message with
  | Raise e => parse_sqs_message lib message = Raise e
  | Ok c =>
      (exists parsed,
          parse_sqs_message lib message = Ok parsed /\
          type_of parsed = c /\ eventType parsed = event_of c) \/
      (exists errs,
          parse_sqs_message lib message = Raise (ValueError (FailedToParse (cls_name c) errs)))
  end.
Proof.
  unfold get_sqs_model_class, parse_sqs_message, SqsModelRegistry.parse.
  destruct (py_in "eventType" message) as [[|] | e]; try reflexivity.
  destruct (py_getitem message "eventType") as [v | e].
  - destruct (EventType_of v) as [ev |].
    + rewrite get_class_sqs_registry.
      destruct (model_validate lib _ message) as [m | errs] eqn:Hm.
      * left. exists m. split; [reflexivity |].
        now apply model_validate_type with (lib := lib) (data := message).
      * right. exists errs. reflexivity.
    + destruct (py_get message "eventType" JNull); reflexivity.
  - destruct (py_get message "eventType" JNull); reflexivity.
Qed.

(** X13: a decoded message that is not a map is never parsed: [None], a
    boolean and a number raise TypeError; a string or a list that does not
    contain 'eventType' is refused for the missing event type; a string or a
    list that contains it raises AttributeError, from the [get] of the error
    message. *)
Theorem parse_rejects_non_maps lib message :
  is_dict message = false ->
  match message with
  | JStr s =>
      parse_sqs_message lib message =
      Raise (if contains "eventType" s then AttributeError else ValueError MissingEventType)
  | JList l =>
      parse_sqs_message lib message =
      Raise (if existsb (fun x => eq_str x "eventType") l then AttributeError
             else ValueError MissingEventType)
  | _ => parse_sqs_message lib message = Raise TypeError
  end.
Proof.
  intros Hd. unfold parse_sqs_message, SqsModelRegistry.parse.
  destruct message as [| b | n | f | s | l | d]; try discriminate;
    cbn [py_in py_getitem py_get]; try reflexivity.
  - destruct (contains "eventType" s); reflexivity.
  - destruct (existsb _ l); reflexivity.
Qed.

Lemma parse_rejects_non_maps_witness :
  parse_sqs_message sample_lib (JList [JStr "eventType"]) = Raise AttributeError.
Proof. exact (parse_rejects_non_maps sample_lib (JList [JStr "eventType"]) eq_refl). Defined.

(** ** What a parsed message carries *)

Lemma under_valid {A : Type} field (x : validation A) a :
  under field x = Valid a -> x = Valid a.
Proof. destruct x; cbn [under]; [trivial | discriminate]. Qed.

Lemma required_valid {A : Type} d field (check : json -> validation A) a :
  required d field check = Valid a ->
  exists v, lookup field d = Some v /\ check v = Valid a.
Proof.
  unfold required. destruct (lookup field d) as [v |]; [| discriminate].
  intros H. apply under_valid in H. eauto.
Qed.

Lemma v_str_valid v s : v_str v = Valid s -> v = JStr s.
Proof. destruct v; cbn [v_str]; try discriminate. now intros [= ->]. Qed.

Lemma v_email_valid lib v e :
  v_email lib v = Valid e -> exists s, v = JStr s /\ validate_email lib s = Some e.
Proof.
  destruct v as [| b | n | f | s | l | d]; cbn [v_email]; try discriminate.
  destruct (validate_email lib s) as [e' |] eqn:He; [| discriminate].
  intros [= <-]. eauto.
Qed.

Lemma v_role_valid v r : v_role v = Valid r -> v = JStr (UserRole_value r).
Proof.
  destruct v as [| b | n | f | s | l | d]; cbn [v_role]; try discriminate.
  repeat match goal with
         | |- context [String.eqb s ?k] => destruct (String.eqb_spec s k) as [-> | _]
         end; try discriminate; now intros [= <-].
Qed.

Lemma required_email {lib d field e} :
  required d field (v_email lib) = Valid e -> validated_email lib (lookup field d) e.
Proof.
  intros H. apply required_valid in H as (v & Hv & Hc).
  apply v_email_valid in Hc as (s & -> & Hs). exists s. auto.
Qed.

Lemma optional_str {d field o} :
  optional d field v_str = Valid o -> optional_entry (lookup field d) o.
Proof.
  unfold optional, optional_entry. destruct (lookup field d) as [v |]; [| now intros [= <-]].
  destruct v as [| b | n | f | s | l | d']; cbn [v_str vmap under]; try discriminate;
    intros [= <-]; eauto.
Qed.

Lemma optional_role_valid {d field o} :
  optional d field v_role = Valid o -> optional_role (lookup field d) o.
Proof.
  unfold optional, optional_role. destruct (lookup field d) as [v |]; [| now intros [= <-]].
  destruct (v_role v) as [r |] eqn:Hr.
  - apply v_role_valid in Hr as ->. cbn [vmap under]. intros [= <-]. eauto.
  - destruct v as [| b | n | f | s | l | d']; try rewrite Hr; cbn [vmap under];
      try discriminate. now intros [= <-].
Qed.

Lemma v_literal_valid d field e e' : v_literal d field e = Valid e' -> e' = e.
Proof.
  unfold v_literal. destruct (lookup field d) as [v |]; [| now intros [= <-]].
  destruct (EventType_of v) as [ev |]; [| discriminate].
  destruct (EventType_eqb e ev); [now intros [= <-] | discriminate].
Qed.

Lemma parse_valid lib d parsed :
  parse_sqs_message lib (JDict d) = Ok parsed ->
  model_validate lib (type_of parsed) (JDict d) = Valid parsed.
Proof.
  unfold parse_sqs_message, SqsModelRegistry.parse. cbn [py_in py_getitem py_get].
  destruct (has_key "eventType" d); [| discriminate].
  destruct (lookup "eventType" d) as [v |]; [| discriminate].
  destruct (EventType_of v) as [ev |]; [| discriminate].
  rewrite get_class_sqs_registry.
  destruct (model_validate lib _ (JDict d)) as [m | errs] eqn:Hm; [| discriminate].
  intros [= <-]. destruct (model_validate_type _ _ _ _ Hm) as [-> _]. exact Hm.
Qed.

Ltac split_fields H :=
  repeat match type of H with
         | _ <*> _ = Valid _ =>
             let g := fresh "g" in
             let a := fresh "a" in
             let Hx := fresh "Hx" in
             apply vap_valid in H as (g & a & H & Hx & ->)
         end;
  injection H as <-.

(** X14: a magic-link request that passed the schema is answered by one call
    of the mailer and nothing else: the mail goes to the address the e-mail
    validation made of the record's 'email', with the record's 'magicToken'
    and its 'linkUrl' (none when the entry is absent or [None]); the result
    of the call is logged, no exchange with the provider is made and nothing
    is raised, whatever the mailer did. *)
Theorem magic_link_request_mailed env d m tr :
  let lib := pylib env in
  let email := StudentMagicLinkRequestedMessage.email m in
  let token := StudentMagicLinkRequestedMessage.magicToken m in
  let link_url := StudentMagicLinkRequestedMessage.linkUrl m in
  let call := send_magic_link_email email token link_url in
  let r := mailer env tr call in
  parse_sqs_message lib (JDict d) = Ok (StudentMagicLinkRequested m) ->
  validated_email lib (lookup "email" d) email /\
  lookup "magicToken" d = Some (JStr token) /\
  optional_entry (lookup "linkUrl" d) link_url /\
  dispatch env (StudentMagicLinkRequested m) tr =
  (Ok tt, tr ++ [Mail call r; magic_link_log email r]).
Proof.
  cbv zeta. intros Hp. apply parse_valid in Hp. cbn [type_of model_validate v_model] in Hp.
  destruct (StudentMagicLinkRequestedMessage.fields (pylib env) d) as [m' |] eqn:Hf;
    cbn [vmap] in Hp; [| discriminate].
  injection Hp as ->. unfold StudentMagicLinkRequestedMessage.fields in Hf.
  split_fields Hf. cbn.
  match goal with H : v_literal _ _ _ = Valid _ |- _ => apply v_literal_valid in H as -> end.
  split; [eapply required_email; eassumption |].
  split; [eapply required_str_valid; eassumption |].
  split; [eapply optional_str; eassumption |].
  unfold dispatch, on_magic_link, try_except, bind, lift, mailer_call, log, emit.
  cbn [eventType StudentMagicLinkRequestedMessage.eventType EventType_eqb attr_email
         attr_magicToken getattr_linkUrl StudentMagicLinkRequestedMessage.email
         StudentMagicLinkRequestedMessage.magicToken
         StudentMagicLinkRequestedMessage.linkUrl].
  destruct (mailer env tr _) as [[|] | e]; cbn [magic_link_log]; flatten_traces; reflexivity.
Qed.

Lemma magic_link_request_mailed_witness :
  dispatch (sample_env (Response 200 EmptyString None))
    (StudentMagicLinkRequested magic_link_record) [] =
  (Ok tt,
   [Mail (send_magic_link_email "thandi@example.org" "tok-123" None) (Ok true);
    Log INFO "Sent magic link email to thandi@example.org" None]).
Proof.
  exact (proj2 (proj2 (proj2
           (magic_link_request_mailed (sample_env (Response 200 EmptyString None))
              magic_link_payload magic_link_record [] eq_refl)))).
Defined.

Lemma v_model_valid {A : Type} (fields : list (string * json) -> validation A) v a :
  v_model fields v = Valid a -> exists d, v = JDict d /\ fields d = Valid a.
Proof. destruct v; cbn [v_model]; try discriminate. eauto. Qed.

(** X15: a registration that passed the schema carries the user of the
    record: 'user' is a map, the id is its 'id', the address is what the
    e-mail validation made of its 'email', the role is the member named by
    its 'role', the names are its 'firstName' and 'lastName' (each of the
    three is none when the entry is absent or [None]); and the event type of
    the message is USER_REGISTERED, so that the message is routed to the
    registration handler. *)
Theorem registered_user_payload lib d m :
  let user := UserRegisteredMessage.user m in
  parse_sqs_message lib (JDict d) = Ok (UserRegistered m) ->
  eventType (UserRegistered m) = USER_REGISTERED /\
  exists u,
    lookup "user" d = Some (JDict u) /\
    lookup "id" u = Some (JStr (UserEnvelope.id user)) /\
    validated_email lib (lookup "email" u) (UserEnvelope.email user) /\
    optional_role (lookup "role" u) (UserEnvelope.role user) /\
    optional_entry (lookup "firstName" u) (UserEnvelope.firstName user) /\
    optional_entry (lookup "lastName" u) (UserEnvelope.lastName user).
Proof.
  cbv zeta. intros Hp. apply parse_valid in Hp. cbn [type_of model_validate v_model] in Hp.
  destruct (UserRegisteredMessage.fields lib d) as [m' |] eqn:Hf;
    cbn [vmap] in Hp; [| discriminate].
  injection Hp as ->. unfold UserRegisteredMessage.fields in Hf.
  split_fields Hf. cbn.
  match goal with H : v_literal _ _ _ = Valid _ |- _ => apply v_literal_valid in H as -> end.
  split; [reflexivity |].
  match goal with
  | H : required d "user" _ = Valid _ |- _ =>
      apply required_valid in H as (v & Hv & Hu);
      apply v_model_valid in Hu as (u & -> & Hu)
  end.
  exists u. split; [exact Hv |].
  unfold UserEnvelope.fields in Hu. split_fields Hu. cbn.
  split; [eapply required_str_valid; eassumption |].
  split; [eapply required_email; eassumption |].
  split; [eapply optional_role_valid; eassumption |].
  split; eapply optional_str; eassumption.
Qed.

Lemma registered_user_payload_witness :
  eventType (registered_message first_name_only) = USER_REGISTERED /\
  exists u,
    lookup "user" registered_payload = Some (JDict u) /\
    lookup "id" u = Some (JStr "u-1") /\
    validated_email sample_lib (lookup "email" u) "wikus@example.org" /\
    optional_role (lookup "role" u) (Some merchant) /\
    optional_entry (lookup "firstName" u) (Some "Wikus") /\
    optional_entry (lookup "lastName" u) (Some EmptyString).
Proof.
  exact (registered_user_payload sample_lib registered_payload
           (registered_record first_name_only) eq_refl).
Defined.

(** ** Balances, errors and the registry *)

Lemma from_api_no_tokens lib b :
  lookup "tokens" b = None -> lookup "balance" b = None ->
  RapydMoneyBalance.from_api lib (JDict b) = Ok zero_balance.
Proof.
  intros Ht Hb. unfold RapydMoneyBalance.from_api, RapydMoneyBalance.tokens_source, has_key.
  rewrite Ht, Hb. reflexivity.
Qed.

(** X16: after an exchange that succeeded, [get_balance] answers zero for
    both tokens when the answer holds no token list where it is looked for:
    an answer that is not a map, a map with neither 'tokens' nor 'balance',
    and a map whose 'balance' is a map with neither, even if the answer has a
    token list of its own at the top, which is then not read; a token list
    that stands two 'balance' maps deep is read. *)
Theorem balance_defaults env self user_id timeout tr :
  let lib := pylib env in
  let rq := client_request self "GET" ("/" @@ py_str lib user_id @@ "/balance") None timeout in
  let rs := provider env tr rq in
  let data := response_value rs in
  let zero := (Ok zero_balance, tr ++ [Http rq rs]) in
  failed rs = false ->
  (is_dict data = false -> get_balance env self user_id timeout tr = zero) /\
  (forall d,
      data = JDict d -> lookup "tokens" d = None -> lookup "balance" d = None ->
      get_balance env self user_id timeout tr = zero) /\
  (forall d b,
      data = JDict d -> lookup "balance" d = Some (JDict b) ->
      lookup "tokens" b = None -> lookup "balance" b = None ->
      get_balance env self user_id timeout tr = zero) /\
  (forall d b b' ts,
      data = JDict d -> lookup "balance" d = Some (JDict b) ->
      lookup "tokens" b = None -> lookup "balance" b = Some (JDict b') ->
      lookup "tokens" b' = Some (JList ts) ->
      fst (get_balance env self user_id timeout tr) =
      RapydMoneyBalance.model_validate (balance_named lib "L ZAR Coin" ts)
                                       (balance_named lib "L USD Coin" ts)).
Proof.
  cbv zeta. intros Hf. unfold get_balance, bind. rewrite request_run. cbv zeta. rewrite Hf.
  unfold lift. split; [| split; [| split]].
  - intros Hd. destruct (response_value _); try reflexivity. discriminate.
  - intros d -> Ht Hb. rewrite Hb. now rewrite from_api_no_tokens.
  - intros d b -> Hb Ht Hbb. rewrite Hb. now rewrite from_api_no_tokens.
  - intros d b b' ts -> Hb Ht Hbb Hts. rewrite Hb. cbn [fst].
    unfold RapydMoneyBalance.from_api, RapydMoneyBalance.tokens_source, has_key.
    rewrite Ht, Hbb. unfold dict_get_default. rewrite Hts, scan_tokens. reflexivity.
Qed.

Lemma balance_defaults_witness :
  fst (get_balance (sample_env (answer shadowed_tokens)) sample_service (JStr "S1") None [])
  = Ok zero_balance.
Proof.
  exact (f_equal fst
           (proj1 (proj2 (proj2 (balance_defaults (sample_env (answer shadowed_tokens))
                                   sample_service (JStr "S1") None [] eq_refl)))
              _ [] eq_refl eq_refl eq_refl eq_refl)).
Defined.

(** X17: the text of the error that [_request] raises for a failed
    exchange, as a log line shows it: for a transport failure it is "Network
    error", for a refused request "API Error <status> for <url>" with the URL
    that was requested; in both cases followed by " Body: " and the reason or
    the text of the answer, unless that is empty.  The error is the one the
    constructor builds when no message is given to it. *)
Theorem failed_exchange_text rq :
  (forall what,
      RapydMoneyAPIError_str (client_error rq (RequestException what)) =
      "Network error" @@
      (if String.eqb what EmptyString then EmptyString else " Body: " @@ what)) /\
  (forall status_code text decoded,
      client_error rq (Response status_code text decoded) =
      RapydMoneyAPIError_init status_code (rq_url rq) (Some text) None /\
      RapydMoneyAPIError_str (client_error rq (Response status_code text decoded)) =
      ("API Error " @@ string_of_Z status_code @@ " for " @@ rq_url rq) @@
      (if String.eqb text EmptyString then EmptyString else " Body: " @@ text)).
Proof. split; [| split]; reflexivity. Qed.

Lemma EventType_eqb_refl e : EventType_eqb e e = true.
Proof. now destruct e. Qed.

Lemma EventType_eqb_eq a b : EventType_eqb a b = true -> a = b.
Proof. destruct a, b; (reflexivity || discriminate). Qed.

(** X18: the registry is a map from event types to classes: a class that is
    registered for an event type is the one looked up for it, also when
    another class was registered for it before; a registration changes the
    class of no other event type; registering twice leaves what the second
    registration alone leaves; and nothing is registered at the start. *)
Theorem registry_round_trip self event c :
  SqsModelRegistry.get_class (SqsModelRegistry.register event c self) event = Some c /\
  (forall other,
      EventType_eqb event other = false ->
      SqsModelRegistry.get_class (SqsModelRegistry.register event c self) other =
      SqsModelRegistry.get_class self other) /\
  (forall c',
      SqsModelRegistry.register event c' (SqsModelRegistry.register event c self) =
      SqsModelRegistry.register event c' self) /\
  SqsModelRegistry.get_class SqsModelRegistry.empty event = None.
Proof.
  split; [| split; [| split]]; [| | | reflexivity].
  - induction self as [| [e c0] rest IH]; cbn [SqsModelRegistry.register].
    + cbn. now rewrite EventType_eqb_refl.
    + destruct (EventType_eqb e event) eqn:E; cbn [SqsModelRegistry.get_class]; rewrite E;
        [reflexivity | exact IH].
  - intros other Ho.
    induction self as [| [e c0] rest IH]; cbn [SqsModelRegistry.register].
    + cbn. now rewrite Ho.
    + destruct (EventType_eqb e event) eqn:E; cbn [SqsModelRegistry.get_class].
      * apply EventType_eqb_eq in E as ->. now rewrite Ho.
      * now rewrite IH.
  - intros c'.
    induction self as [| [e c0] rest IH]; cbn [SqsModelRegistry.register].
    + now rewrite EventType_eqb_refl.
    + destruct (EventType_eqb e event) eqn:E; cbn [SqsModelRegistry.register]; rewrite E;
        [reflexivity | now rewrite IH].
Qed.

Lemma registry_round_trip_witness :
  SqsModelRegistry.get_class
    (SqsModelRegistry.register STUDENT_MAGIC_LINK_REQUESTED _StudentMagicLinkRequested
       (SqsModelRegistry.register USER_REGISTERED _UserRegistered SqsModelRegistry.empty))
    USER_REGISTERED =
  SqsModelRegistry.get_class
    (SqsModelRegistry.register USER_REGISTERED _UserRegistered SqsModelRegistry.empty)
    USER_REGISTERED.
Proof.
  exact (proj1 (proj2 (registry_round_trip
                         (SqsModelRegistry.register USER_REGISTERED _UserRegistered
                            SqsModelRegistry.empty)
                         STUDENT_MAGIC_LINK_REQUESTED _StudentMagicLinkRequested))
           USER_REGISTERED eq_refl).
Defined.

(** * The mailer *)

(** ** The environment file *)

Lemma lookup_environ_set_same key value environ :
  lookup key (environ_set key value environ) = Some value.
Proof.
  induction environ as [| [k v] rest IH]; cbn [environ_set lookup].
  - now rewrite String.eqb_refl.
  - destruct (String.eqb key k) eqn:E; cbn [lookup]; rewrite E; [reflexivity | exact IH].
Qed.

Lemma lookup_environ_set_other key value environ k :
  String.eqb k key = false ->
  lookup k (environ_set key value environ) = lookup k environ.
Proof.
  intros Hk. induction environ as [| [k' v] rest IH]; cbn [environ_set lookup].
  - now rewrite Hk.
  - destruct (String.eqb key k') eqn:E; cbn [lookup].
    + apply String.eqb_eq in E as <-. now rewrite Hk.
    + now rewrite IH.
Qed.

(** A turn of the loop, by the binding of the line. *)
Lemma load_line_binding lib environ raw_line :
  load_line lib environ raw_line =
  match binding lib raw_line with
  | None => Ok environ
  | Some (key, value) =>
      if has_key key environ then Ok environ
      else match environ_refuses lib key value with
           | Some exc => Raise exc
           | None => Ok (environ_set key value environ)
           end
  end.
Proof.
  unfold load_line, binding.
  destruct (String.eqb (str_strip lib raw_line) EmptyString || prefix "#" (str_strip lib raw_line))%bool;
    [reflexivity |].
  destruct (contains "=" (str_strip lib raw_line)); cbn [negb]; [| reflexivity].
  destruct (split_eq (str_strip lib raw_line)) as [key value]. cbn [fst snd].
  destruct (String.eqb (str_strip lib key) EmptyString); cbn [negb andb]; [reflexivity |].
  destruct (has_key (str_strip lib key) environ); reflexivity.
Qed.

Lemma load_line_keeps lib environ raw_line environ' k v :
  load_line lib environ raw_line = Ok environ' ->
  lookup k environ = Some v -> lookup k environ' = Some v.
Proof.
  rewrite load_line_binding. destruct (binding lib raw_line) as [[key value] |].
  - unfold has_key. destruct (lookup key environ) eqn:Hkey.
    + now intros [= <-].
    + destruct (environ_refuses lib key value); [discriminate |]. intros [= <-] Hk.
      rewrite lookup_environ_set_other; [exact Hk |].
      destruct (String.eqb_spec k key) as [-> |]; [congruence | reflexivity].
  - now intros [= <-].
Qed.

Lemma load_lines_keeps lib lines : forall environ failure k v,
  lookup k environ = Some v ->
  lookup k (fst (load_lines lib environ lines failure)) = Some v.
Proof.
  induction lines as [| raw rest IH]; intros environ failure k v Hk; cbn [load_lines].
  - exact Hk.
  - destruct (load_line lib environ raw) as [environ' | exc] eqn:E; [| exact Hk].
    apply IH. eapply load_line_keeps; eassumption.
Qed.

Lemma loaded_lines lib lines failure environ :
  loaded lib (File lines failure) environ = fst (load_lines lib environ lines failure).
Proof.
  unfold loaded, _load_smtp_env_file_if_present.
  destruct (load_lines lib environ lines failure) as [e [exc |]]; reflexivity.
Qed.

Lemma load_lines_origin lib lines : forall environ failure k v,
  lookup k environ = None ->
  lookup k (fst (load_lines lib environ lines failure)) = Some v ->
  exists before raw_line after,
    lines = before ++ raw_line :: after /\
    binding lib raw_line = Some (k, v) /\
    forallb (fun r => negb (binds lib k r)) before = true.
Proof.
  induction lines as [| raw rest IH]; intros environ failure k v Hk Hv; cbn [load_lines] in Hv.
  - cbn [fst] in Hv. congruence.
  - rewrite load_line_binding in Hv.
    destruct (binding lib raw) as [[key value] |] eqn:Hb.
    + destruct (String.eqb_spec k key) as [-> | Hne].
      * unfold has_key in Hv. rewrite Hk in Hv.
        destruct (environ_refuses lib key value); [cbn [fst] in Hv; congruence |].
        rewrite (load_lines_keeps lib rest _ failure key value
                   (lookup_environ_set_same key value environ)) in Hv.
        injection Hv as <-. exists [], raw, rest. repeat split. exact Hb.
      * assert (Hrest : exists environ',
                   lookup k environ' = None /\
                   lookup k (fst (load_lines lib environ' rest failure)) = Some v).
        { destruct (has_key key environ); [eauto |].
          destruct (environ_refuses lib key value); [cbn [fst] in Hv; congruence |].
          exists (environ_set key value environ). split; [| exact Hv].
          rewrite lookup_environ_set_other; [exact Hk |].
          now apply String.eqb_neq. }
        destruct Hrest as (environ' & Hk' & Hv').
        destruct (IH environ' failure k v Hk' Hv') as (before & r & after & -> & Hr & Hbefore).
        exists (raw :: before), r, after. repeat split; [exact Hr |].
        cbn [forallb]. unfold binds at 1. rewrite Hb.
        apply String.eqb_neq in Hne. now rewrite Hne.
    + destruct (IH environ failure k v Hk Hv) as (before & r & after & -> & Hr & Hbefore).
      exists (raw :: before), r, after. repeat split; [exact Hr |].
      cbn [forallb]. unfold binds at 1. now rewrite Hb.
Qed.

Lemma load_lines_first lib before : forall environ raw_line after failure k v,
  (forall key value, environ_refuses lib key value = None) ->
  lookup k environ = None ->
  binding lib raw_line = Some (k, v) ->
  forallb (fun r => negb (binds lib k r)) before = true ->
  lookup k (fst (load_lines lib environ (before ++ raw_line :: after) failure)) = Some v.
Proof.
  induction before as [| r before IH]; intros environ raw after failure k v Hlib Hk Hb Hbefore;
    cbn [app load_lines]; rewrite load_line_binding.
  - rewrite Hb. unfold has_key. rewrite Hk, Hlib.
    apply load_lines_keeps, lookup_environ_set_same.
  - cbn [forallb] in Hbefore. apply andb_prop in Hbefore as [Hr Hbefore].
    unfold binds in Hr.
    destruct (binding lib r) as [[key value] |]; [| now apply IH].
    destruct (has_key key environ); [now apply IH |]. rewrite Hlib.
    apply IH; try assumption.
    rewrite lookup_environ_set_other; [exact Hk |].
    now destruct (String.eqb k key).
Qed.

(** X19: the loading of [.smtp.env] never changes a variable that is set:
    every binding of the environment is kept with its value; a variable
    that is new after the loading has the key and the value, both stripped,
    of the first line of the file that binds its name; that first line does
    set the variable when the environment refuses no assignment; and when
    there is no file the environment is left as it is and nothing is
    logged. *)
Theorem env_file_never_overrides lib file environ :
  (forall k v, lookup k environ = Some v -> lookup k (loaded lib file environ) = Some v) /\
  (forall lines failure k v,
      file = File lines failure ->
      lookup k environ = None -> lookup k (loaded lib file environ) = Some v ->
      exists before raw_line after,
        lines = before ++ raw_line :: after /\
        binding lib raw_line = Some (k, v) /\
        forallb (fun r => negb (binds lib k r)) before = true) /\
  (forall before raw_line after failure k v,
      file = File (before ++ raw_line :: after) failure ->
      (forall key value, environ_refuses lib key value = None) ->
      lookup k environ = None ->
      binding lib raw_line = Some (k, v) ->
      forallb (fun r => negb (binds lib k r)) before = true ->
      lookup k (loaded lib file environ) = Some v) /\
  _load_smtp_env_file_if_present lib NoFile environ = (environ, []).
Proof.
  split; [| split; [| split]]; [| | | reflexivity].
  - intros k v Hk. destruct file as [| lines failure]; [exact Hk |].
    rewrite loaded_lines. now apply load_lines_keeps.
  - intros lines failure k v -> Hk Hv. rewrite loaded_lines in Hv.
    eapply load_lines_origin; eassumption.
  - intros before raw after failure k v -> Hlib Hk Hb Hbefore. rewrite loaded_lines.
    now apply load_lines_first.
Qed.

Lemma env_file_never_overrides_witness :
  lookup "SMTP_PORT" (loaded sample_maillib sample_smtp_env [("SMTP_PORT", "2525")])
  = Some "2525" /\
  lookup "SMTP_SERVER" (loaded sample_maillib sample_smtp_env [("SMTP_PORT", "2525")])
  = Some "smtp.example.org".
Proof.
  split.
  - exact (proj1 (env_file_never_overrides sample_maillib sample_smtp_env
                    [("SMTP_PORT", "2525")]) "SMTP_PORT" "2525" eq_refl).
  - exact (proj1 (proj2 (proj2 (env_file_never_overrides sample_maillib sample_smtp_env
                                  [("SMTP_PORT", "2525")])))
             ["# mail relay"] "SMTP_SERVER = smtp.example.org"
             [EmptyString; "SMTP_PORT=465"; "SMTP_SERVER=other.example.org";
              "no binding here"; "SMTP_SECURE=TRUE"]
             None "SMTP_SERVER" "smtp.example.org"
             eq_refl (fun _ _ => eq_refl) eq_refl eq_refl eq_refl).
Defined.

Lemma has_key_kept lib lines environ failure k :
  has_key k environ = true -> has_key k (fst (load_lines lib environ lines failure)) = true.
Proof.
  unfold has_key. destruct (lookup k environ) as [v |] eqn:Hk; [| discriminate].
  intros _. now rewrite (load_lines_keeps lib lines environ failure k v Hk).
Qed.

Lemma load_line_sets lib environ raw_line environ' key value :
  load_line lib environ raw_line = Ok environ' ->
  binding lib raw_line = Some (key, value) -> has_key key environ' = true.
Proof.
  rewrite load_line_binding. intros H Hb. rewrite Hb in H.
  destruct (has_key key environ) eqn:Hk.
  - now injection H as <-.
  - destruct (environ_refuses lib key value); [discriminate |]. injection H as <-.
    unfold has_key. now rewrite lookup_environ_set_same.
Qed.

(** X20: loading the file a second time changes nothing: the environment
    that the first loading left is left as it is by the second, whether or
    not the first was cut short by an exception. *)
Theorem env_file_loaded_once lib file environ :
  loaded lib file (loaded lib file environ) = loaded lib file environ.
Proof.
  destruct file as [| lines failure]; [reflexivity |]. rewrite !loaded_lines.
  revert environ. induction lines as [| raw rest IH]; intros environ; [reflexivity |].
  cbn [load_lines].
  destruct (load_line lib environ raw) as [environ1 | exc] eqn:E.
  - assert (Hraw : load_line lib (fst (load_lines lib environ1 rest failure)) raw
                   = Ok (fst (load_lines lib environ1 rest failure))).
    { rewrite load_line_binding.
      destruct (binding lib raw) as [[key value] |] eqn:Hb; [| reflexivity].
      now rewrite (has_key_kept lib rest environ1 failure key
                     (load_line_sets lib environ raw environ1 key value E Hb)). }
    cbn [load_lines]. rewrite Hraw. apply IH.
  - cbn [fst load_lines]. now rewrite E.
Qed.

(** ** Sending *)

Lemma commands_app tr1 tr2 : commands (tr1 ++ tr2) = commands tr1 ++ commands tr2.
Proof. unfold commands. apply flat_map_app. Qed.

Lemma commands_logged tr level msg args exc :
  commands (tr ++ [Logged level msg args exc]) = commands tr.
Proof. rewrite commands_app. cbn. apply app_nil_r. Qed.

Lemma send_email_unsendable menv self to subject text html from_addr tr :
  sendable self to subject text html = false ->
  commands (snd (SMTPMailer.send_email menv self to subject text html from_addr tr))
  = commands tr /\
  fst (SMTPMailer.send_email menv self to subject text html from_addr tr) <> Ok true.
Proof.
  unfold sendable, SMTPMailer.send_email, wbind, wret, logged, accepted.
  destruct (nonempty (SMTPMailer.server self)); cbn [negb andb].
  2: { intros _. cbn [fst snd]. rewrite commands_logged. split; [reflexivity | discriminate]. }
  destruct (String.eqb subject EmptyString); cbn [negb andb].
  { intros _. cbn [fst snd]. rewrite commands_logged. split; [reflexivity | discriminate]. }
  destruct (nonempty text), (nonempty html); cbn [negb andb orb];
    try (destruct to as [a | [| a l]]; try discriminate; intros _;
         destruct (header_refused (maillib menv) "Subject" subject);
         [cbn [fst snd]; split; [reflexivity | discriminate] |];
         destruct (header_refused (maillib menv) "From" _);
         cbn [fst snd]; [split; [reflexivity | discriminate] |];
         rewrite commands_logged; split; [reflexivity | discriminate]).
  intros _. cbn [fst snd]. rewrite commands_logged. split; [reflexivity | discriminate].
Qed.

(** X21: an e-mail that cannot be sent (no server configured, an empty
    subject, neither text nor HTML, no recipient) never reaches an SMTP
    server and is never reported as sent. *)
Theorem unsendable_mail_stays_home menv self to subject text html from_addr tr :
  sendable self to subject text html = false ->
  commands (snd (SMTPMailer.send_email menv self to subject text html from_addr tr))
  = commands tr /\
  fst (SMTPMailer.send_email menv self to subject text html from_addr tr) <> Ok true.
Proof. exact (send_email_unsendable menv self to subject text html from_addr tr). Qed.

Lemma unsendable_mail_stays_home_witness :
  commands (snd (SMTPMailer.send_email (sample_menv plain_server) (sample_mailer false)
                   (Many []) "Hello" (Some "text") None None []))
  = [].
Proof.
  exact (proj1 (unsendable_mail_stays_home (sample_menv plain_server) (sample_mailer false)
                  (Many []) "Hello" (Some "text") None None [] eq_refl)).
Defined.

Ltac ask_server :=
  repeat match goal with
         | |- context [smtp_server ?menv ?t ?c] =>
             let E := fresh "E" in destruct (smtp_server menv t c) eqn:E
         end.

Lemma send_email_session menv self to subject text html from_addr tr :
  let lib := maillib menv in
  let msg := message self to subject text html from_addr in
  let sent := Logged INFO "Email sent to %s with subject '%s'"
                [header_str lib "To" (join ", " (match to with One a => [a] | Many l => l end));
                 subject] None in
  sendable self to subject text html = true ->
  library_accepts lib msg ->
  exists new,
    snd (SMTPMailer.send_email menv self to subject text html from_addr tr) = tr ++ new /\
    fst (SMTPMailer.send_email menv self to subject text html from_addr tr)
    = Ok (all_accepted new) /\
    (if refused_at_once new then commands new = [opening self]
     else exists n, commands new
                    = opening self :: firstn n (session_body self msg) ++ [quit]) /\
    (if all_accepted new
     then commands new = opening self :: session_body self msg ++ [quit] /\
          last new sent = sent
     else exists exc,
         last new sent = Logged ERROR "Failed to send email via SMTP: %s" [] (Some exc)) /\
    new = session_events menv self msg tr
          ++ [session_record sent (session_events menv self msg tr)].
Proof.
  cbv zeta. unfold sendable, library_accepts, message. intros Hs (H1 & H2 & H3 & H4 & H5).
  apply andb_prop in Hs as [Hs Hto]. apply andb_prop in Hs as [Hs Hcontent].
  apply andb_prop in Hs as [Hserver Hsubject].
  remember (SMTPMailer.send_email menv self to subject text html from_addr tr) as run eqn:Hrun.
  unfold SMTPMailer.send_email in Hrun. rewrite Hserver in Hrun. cbn [negb] in Hrun.
  destruct (String.eqb subject EmptyString); [discriminate |].
  assert (Hnone : (negb (nonempty text) && negb (nonempty html))%bool = false)
    by (destruct (nonempty text), (nonempty html); (reflexivity || discriminate)).
  rewrite Hnone in Hrun. clear Hnone Hsubject.
  unfold wbind at 1 in Hrun. unfold accepted at 1 in Hrun. rewrite H1 in Hrun.
  unfold wbind at 1 in Hrun. unfold accepted at 1 in Hrun. rewrite H2 in Hrun.
  assert (Hrecipients : match to with One a => [a] | Many l => l end <> [])
    by (destruct to as [a | [| a l]]; (discriminate || (intros ?; discriminate))).
  destruct (match to with One a => [a] | Many l => l end) as [| a rest] eqn:Hr;
    [contradiction |]. clear Hrecipients Hto.
  unfold wbind at 1 in Hrun. unfold accepted at 1 in Hrun. rewrite H3 in Hrun.
  assert (Hc : (if (nonempty text && nonempty html)%bool
                then SMTPMailer.or_else text EmptyString
                else if nonempty html
                     then "This message contains HTML content. Use an HTML-capable email client."
                     else SMTPMailer.or_else text EmptyString)
               = (if nonempty html
                  then if nonempty text then SMTPMailer.or_else text EmptyString
                       else "This message contains HTML content. Use an HTML-capable email client."
                  else SMTPMailer.or_else text EmptyString))
    by (destruct (nonempty text), (nonempty html); reflexivity).
  rewrite Hc in Hrun. clear Hc.
  unfold wbind at 1 in Hrun. unfold accepted at 1 in Hrun. rewrite H4 in Hrun.
  assert (Ha : (match (if nonempty html then html else None) with
                | Some h => accepted (content_refused (maillib menv) h)
                | None => wret tt
                end) tr = (Ok tt, tr)).
  { destruct (if nonempty html then html else None) as [h |]; [| reflexivity].
    unfold accepted. now rewrite H5. }
  unfold wbind at 1 in Hrun. rewrite Ha in Hrun. clear Ha H1 H2 H3 H4 H5.
  subst run.
  set (msg := send_message subject _ _ _ _).
  unfold session_record, last_raise, session_events.
  unfold opening, session_body, credentials, SMTPMailer.login_if_configured, nonempty.
  set (host := SMTPMailer.or_else (SMTPMailer.server self) EmptyString).
  destruct (SMTPMailer.secure self);
    destruct (SMTPMailer.username self) as [u |], (SMTPMailer.password self) as [p |];
    try destruct (String.eqb u EmptyString); try destruct (String.eqb p EmptyString);
    cbn [negb andb app session_after_opening];
    unfold wtry, with_session, wbind, wret, logged, smtp; ask_server;
    eexists; (split; [cbn [fst snd]; flatten_traces; reflexivity |]);
    (split; [reflexivity |]); cbn [refused_at_once all_accepted forallb andb commands flat_map app];
    (split;
     [ first [ reflexivity
             | exists 0%nat; reflexivity | exists 1%nat; reflexivity
             | exists 2%nat; reflexivity | exists 3%nat; reflexivity ]
     | split; [ first [ split; reflexivity | eexists; reflexivity ] | reflexivity ] ]).
Qed.

(** X22: an e-mail that passes the guards and that the message library
    accepts is handed to one SMTP session, and [send_email] reports how the
    session went without raising: the session begins with its opening
    (SMTP_SSL for a secure mailer, SMTP otherwise); when the opening raises,
    nothing else is sent; otherwise the commands are an initial part of
    STARTTLS (not for a secure mailer), the login (when a user name and a
    password are configured) and the message, cut after the first of them
    that raised, STARTTLS not counting, and the session is closed by QUIT;
    the result is [True] exactly when no command raised, STARTTLS apart, and
    then the whole session was played; the last event is the log record of
    the outcome.  The last conjunct gives the new events in full: they are
    the events of [session_events], which sends each command to the server
    on the events so far and stops the body at the first command that
    raises, followed by the record of [session_record], which carries the
    exception of the last command that raised. *)
Theorem mail_session menv self to subject text html from_addr tr :
  let lib := maillib menv in
  let msg := message self to subject text html from_addr in
  let sent := Logged INFO "Email sent to %s with subject '%s'"
                [header_str lib "To" (join ", " (match to with One a => [a] | Many l => l end));
                 subject] None in
  sendable self to subject text html = true ->
  library_accepts lib msg ->
  exists new,
    snd (SMTPMailer.send_email menv self to subject text html from_addr tr) = tr ++ new /\
    fst (SMTPMailer.send_email menv self to subject text html from_addr tr)
    = Ok (all_accepted new) /\
    (if refused_at_once new then commands new = [opening self]
     else exists n, commands new
                    = opening self :: firstn n (session_body self msg) ++ [quit]) /\
    (if all_accepted new
     then commands new = opening self :: session_body self msg ++ [quit] /\
          last new sent = sent
     else exists exc,
         last new sent = Logged ERROR "Failed to send email via SMTP: %s" [] (Some exc)) /\
    new = session_events menv self msg tr
          ++ [session_record sent (session_events menv self msg tr)].
Proof. exact (send_email_session menv self to subject text html from_addr tr). Qed.

Lemma mail_session_witness :
  fst (SMTPMailer.send_email (sample_menv plain_server) (sample_mailer false)
         (One "thandi@example.org") "Hello" (Some "Hello, Thandi") None None []) = Ok true /\
  fst (SMTPMailer.send_email (sample_menv closed_server) (sample_mailer true)
         (One "thandi@example.org") "Hello" (Some "Hello, Thandi") None None []) = Ok false /\
  snd (SMTPMailer.send_email (sample_menv closed_server) (sample_mailer true)
         (One "thandi@example.org") "Hello" (Some "Hello, Thandi") None None [])
  = [Smtp (SMTP_SSL "smtp.example.org" 587) None;
     Smtp (login "relay" "secret") (Some (OtherError "SMTPAuthenticationError"));
     Smtp quit None;
     Logged ERROR "Failed to send email via SMTP: %s" []
       (Some (OtherError "SMTPAuthenticationError"))].
Proof.
  split; [| split].
  3: { destruct (mail_session (sample_menv closed_server) (sample_mailer true)
                   (One "thandi@example.org") "Hello" (Some "Hello, Thandi") None None []
                   eq_refl (conj eq_refl (conj eq_refl (conj eq_refl (conj eq_refl I)))))
         as (new & Hsnd & _ & _ & _ & Hnew).
       rewrite Hsnd, Hnew. reflexivity. }
  - destruct (mail_session (sample_menv plain_server) (sample_mailer false)
                (One "thandi@example.org") "Hello" (Some "Hello, Thandi") None None []
                eq_refl (conj eq_refl (conj eq_refl (conj eq_refl (conj eq_refl I)))))
      as (new & Hsnd & Hfst & _).
    change ([] ++ new) with new in Hsnd. rewrite <- Hsnd in Hfst. exact Hfst.
  - destruct (mail_session (sample_menv closed_server) (sample_mailer true)
                (One "thandi@example.org") "Hello" (Some "Hello, Thandi") None None []
                eq_refl (conj eq_refl (conj eq_refl (conj eq_refl (conj eq_refl I)))))
      as (new & Hsnd & Hfst & _).
    change ([] ++ new) with new in Hsnd. rewrite <- Hsnd in Hfst. exact Hfst.
Defined.

(** What the library does with a message that passes the guards. *)
Lemma send_email_refused menv self to subject text html from_addr tr :
  sendable self to subject text html = true ->
  library_accepts (maillib menv) (message self to subject text html from_addr) \/
  exists exc,
    SMTPMailer.send_email menv self to subject text html from_addr tr = (Raise exc, tr) /\
    refusal (maillib menv) (message self to subject text html from_addr) exc.
Proof.
  unfold sendable, library_accepts, refusal, message. intros Hs.
  apply andb_prop in Hs as [Hs Hto]. apply andb_prop in Hs as [Hs Hcontent].
  apply andb_prop in Hs as [Hserver Hsubject].
  unfold SMTPMailer.send_email. rewrite Hserver. cbn [negb].
  destruct (String.eqb subject EmptyString); [discriminate |].
  assert (Hnone : (negb (nonempty text) && negb (nonempty html))%bool = false)
    by (destruct (nonempty text), (nonempty html); (reflexivity || discriminate)).
  rewrite Hnone. clear Hnone Hsubject.
  assert (Hrecipients : match to with One a => [a] | Many l => l end <> [])
    by (destruct to as [a | [| a l]]; (discriminate || (intros ?; discriminate))).
  destruct (match to with One a => [a] | Many l => l end) as [| a rest] eqn:Hr;
    [contradiction |]. clear Hrecipients Hto.
  assert (Hc : (if (nonempty text && nonempty html)%bool
                then SMTPMailer.or_else text EmptyString
                else if nonempty html
                     then "This message contains HTML content. Use an HTML-capable email client."
                     else SMTPMailer.or_else text EmptyString)
               = (if nonempty html
                  then if nonempty text then SMTPMailer.or_else text EmptyString
                       else "This message contains HTML content. Use an HTML-capable email client."
                  else SMTPMailer.or_else text EmptyString))
    by (destruct (nonempty text), (nonempty html); reflexivity).
  rewrite Hc. clear Hc.
  unfold wbind, accepted, wret.
  destruct (header_refused (maillib menv) "Subject" subject) as [e |]; [right; eauto 7 |].
  destruct (header_refused (maillib menv) "From" _) as [e |]; [right; eauto 7 |].
  destruct (header_refused (maillib menv) "To" _) as [e |]; [right; eauto 7 |].
  destruct (content_refused (maillib menv) (if nonempty html then _ else _)) as [e |];
    [right; eauto 8 |].
  destruct (if nonempty html then html else None) as [h |]; [| left; auto].
  destruct (content_refused (maillib menv) h) as [e |] eqn:Eh; [| left; auto].
  right. exists e. split; [reflexivity |]. do 4 right. eauto.
Qed.

Lemma commands_in c tr : In c (commands tr) -> exists raised, In (Smtp c raised) tr.
Proof.
  unfold commands. rewrite in_flat_map. intros ([c' r | level msg args exc] & Hin & Hc).
  - destruct Hc as [<- | []]. eauto.
  - destruct Hc.
Qed.

Lemma all_accepted_in tr c exc :
  all_accepted tr = true -> In (Smtp c (Some exc)) tr -> c = starttls.
Proof.
  unfold all_accepted. rewrite forallb_forall. intros H Hin. specialize (H _ Hin).
  destruct c; (reflexivity || discriminate).
Qed.

(** What a result [True] stands for. *)
Lemma send_email_true menv self to subject text html from_addr tr :
  fst (SMTPMailer.send_email menv self to subject text html from_addr tr) = Ok true ->
  sendable self to subject text html = true /\
  library_accepts (maillib menv) (message self to subject text html from_addr) /\
  exists new,
    snd (SMTPMailer.send_email menv self to subject text html from_addr tr) = tr ++ new /\
    In (Smtp (message self to subject text html from_addr) None) new /\
    In (Smtp quit None) new.
Proof.
  intros Htrue.
  destruct (sendable self to subject text html) eqn:Hs.
  2: { now destruct (send_email_unsendable menv self to subject text html from_addr tr Hs). }
  split; [reflexivity |].
  destruct (send_email_refused menv self to subject text html from_addr tr Hs)
    as [Hacc | (exc & Hrun & _)]; [| rewrite Hrun in Htrue; discriminate].
  split; [exact Hacc |].
  destruct (send_email_session menv self to subject text html from_addr tr Hs Hacc)
    as (new & Hsnd & Hfst & _ & Hall & _).
  rewrite Hfst in Htrue. injection Htrue as Htrue. rewrite Htrue in Hall.
  destruct Hall as [Hcmds _]. exists new. split; [exact Hsnd |].
  assert (Hin : forall c, In c (commands new) -> c <> starttls -> In (Smtp c None) new).
  { intros c Hc Hne. destruct (commands_in c new Hc) as [[exc |] Hr]; [| exact Hr].
    now apply all_accepted_in in Hr. }
  split; apply Hin; try discriminate; rewrite Hcmds; cbn [In]; right;
    unfold session_body; rewrite !in_app_iff; cbn [In]; auto.
Qed.

(** X23: [send_email] returns [True] only for an e-mail that passed the
    guards and that the message library accepted, after the SMTP server has
    accepted that very message and the closing of the session; and it raises
    only what the message library raised for a header or a content of the
    message, before any SMTP command. *)
Theorem reported_sent_was_sent menv self to subject text html from_addr tr :
  let lib := maillib menv in
  let msg := message self to subject text html from_addr in
  let run := SMTPMailer.send_email menv self to subject text html from_addr tr in
  (fst run = Ok true ->
   sendable self to subject text html = true /\
   library_accepts lib msg /\
   exists new,
     snd run = tr ++ new /\ In (Smtp msg None) new /\ In (Smtp quit None) new) /\
  (forall exc, fst run = Raise exc -> refusal lib msg exc /\ snd run = tr).
Proof.
  cbv zeta. split.
  - apply send_email_true.
  - intros exc Hraise.
    destruct (sendable self to subject text html) eqn:Hs.
    + destruct (send_email_refused menv self to subject text html from_addr tr Hs)
        as [Hacc | (exc' & Hrun & Hrefusal)].
      * destruct (send_email_session menv self to subject text html from_addr tr Hs Hacc)
          as (new & _ & Hfst & _). rewrite Hfst in Hraise. discriminate.
      * rewrite Hrun in *. cbn [fst snd] in *. injection Hraise as <-. now split.
    + revert Hraise. unfold sendable in Hs. unfold refusal, message.
      unfold SMTPMailer.send_email, wbind, wret, logged, accepted.
      destruct (nonempty (SMTPMailer.server self)); cbn [negb andb] in *; [| discriminate].
      destruct (String.eqb subject EmptyString); cbn [negb andb] in *; [discriminate |].
      destruct (nonempty text), (nonempty html); cbn [negb andb orb] in *;
        try discriminate;
        destruct to as [a | [| a l]]; try discriminate;
        destruct (header_refused (maillib menv) "Subject" subject) as [e |] eqn:E1;
        cbn [fst snd]; try (intros [= <-]; split; [now left | reflexivity]);
        destruct (header_refused (maillib menv) "From" _) as [e |] eqn:E2;
        cbn [fst snd]; try (intros [= <-]; split; [right; now left | reflexivity]);
        discriminate.
Qed.

Lemma reported_sent_was_sent_witness :
  exists new,
    snd (SMTPMailer.send_email (sample_menv plain_server) (sample_mailer false)
           (One "thandi@example.org") "Hello" (Some "Hello, Thandi") None None []) = [] ++ new /\
    In (Smtp (send_message "Hello" "relay" "thandi@example.org" "Hello, Thandi" None) None) new /\
    In (Smtp quit None) new.
Proof.
  exact (proj2 (proj2 (proj1 (reported_sent_was_sent (sample_menv plain_server)
                                (sample_mailer false) (One "thandi@example.org") "Hello"
                                (Some "Hello, Thandi") None None []) eq_refl))).
Defined.

(** ** The mails of the queue consumer *)

Lemma prefix_app n s : prefix n (n @@ s) = true.
Proof.
  induction n as [| c n IH]; [now destruct s |]. cbn [String.append prefix].
  destruct (ascii_dec c c); [exact IH | contradiction].
Qed.

Lemma contains_here n s : contains n (n @@ s) = true.
Proof.
  destruct (n @@ s) eqn:E; cbn [contains]; rewrite <- E, prefix_app; reflexivity.
Qed.

Lemma contains_app_r n a s : contains n s = true -> contains n (a @@ s) = true.
Proof.
  intros H. induction a as [| c a IH]; [exact H |].
  cbn [String.append contains]. rewrite IH. apply orb_true_r.
Qed.

Ltac find_link := first [ apply contains_here | apply contains_app_r; find_link ].

(** X24: the link of a magic-link mail is the link of the request when
    there is one, and then the mail does not depend on the token at all;
    otherwise it is the front-end URL of the environment without its final
    slashes (the local login page when FRONTEND_URL is not set), followed by
    "/verify-intent?token=" and the token.  The link stands in the text and
    in the HTML of the mail; and a result [True] means that the server
    accepted the mail with that link, addressed to the recipient alone, from
    the default sender, during the call: the accepted message is among
    the events that the call added. *)
Theorem magic_link_mail menv self to magic_token link_url tr :
  let link := SMTPMailer.verify_link menv magic_token link_url in
  let run := SMTPMailer.send_magic_link_email menv self to magic_token link_url tr in
  (forall l,
      link_url = Some l -> l <> EmptyString ->
      link = l /\
      forall token',
        SMTPMailer.send_magic_link_email menv self to token' link_url
        = SMTPMailer.send_magic_link_email menv self to magic_token link_url) /\
  (nonempty link_url = false ->
   exists base,
     link = base @@ "/verify-intent?token=" @@ magic_token /\
     ends_with_slash base = false /\
     (lookup "FRONTEND_URL" (environ menv) = None ->
      base = "http://localhost:5173/for-students/login") /\
     (forall u, lookup "FRONTEND_URL" (environ menv) = Some u -> base = rstrip_slash u)) /\
  contains link (SMTPMailer.magic_link_text link) = true /\
  contains link (magic_link_html link) = true /\
  (fst run = Ok true ->
   exists new, snd run = tr ++ new /\ In (Smtp (magic_link_message self to link) None) new).
Proof.
  cbv zeta. split; [| split; [| split; [| split]]].
  - intros l -> Hl.
    assert (Hlink : forall token, SMTPMailer.verify_link menv token (Some l) = l).
    { intros token. unfold SMTPMailer.verify_link, nonempty, SMTPMailer.or_else.
      destruct (String.eqb_spec l EmptyString); [contradiction | reflexivity]. }
    split; [apply Hlink |]. intros token'.
    unfold SMTPMailer.send_magic_link_email. now rewrite !Hlink.
  - intros Hnone. unfold SMTPMailer.verify_link. rewrite Hnone.
    eexists. split; [reflexivity |]. split; [apply rstrip_slash_no_trailing |].
    unfold environ_get. split.
    + now intros ->.
    + now intros u ->.
  - unfold SMTPMailer.magic_link_text. find_link.
  - unfold magic_link_html. find_link.
  - unfold SMTPMailer.send_magic_link_email. intros Htrue.
    destruct (send_email_true _ _ _ _ _ _ _ _ Htrue) as (_ & _ & new & Hsnd & Hmsg & _).
    exists new. split; [exact Hsnd | exact Hmsg].
Qed.

Lemma magic_link_mail_witness :
  SMTPMailer.verify_link (sample_menv plain_server) "tok-123" None
  = "https://kudupay.example/verify-intent?token=tok-123" /\
  exists new,
    snd (SMTPMailer.send_magic_link_email (sample_menv plain_server) (sample_mailer false)
           "thandi@example.org" "tok-123" None []) = [] ++ new /\
    In (Smtp (magic_link_message (sample_mailer false) "thandi@example.org"
                (SMTPMailer.verify_link (sample_menv plain_server) "tok-123" None)) None) new.
Proof.
  split.
  - destruct (proj1 (proj2 (magic_link_mail (sample_menv plain_server) (sample_mailer false)
                              "thandi@example.org" "tok-123" None [])) eq_refl)
      as (base & Hlink & _ & _ & Hbase).
    rewrite Hlink, (Hbase _ eq_refl). reflexivity.
  - exact (proj2 (proj2 (proj2 (proj2 (magic_link_mail (sample_menv plain_server)
                                         (sample_mailer false) "thandi@example.org"
                                         "tok-123" None []))))
             eq_refl).
Defined.

Lemma or_else_nonempty a b : b <> EmptyString -> SMTPMailer.or_else a b <> EmptyString.
Proof.
  intros Hb. unfold SMTPMailer.or_else. destruct a as [s |]; [| exact Hb].
  destruct (String.eqb_spec s EmptyString); assumption.
Qed.

(** X25: a mailer is configured from the environment as the loading of the
    file left it, so that a setting of the process environment wins over the
    file; its construction fails exactly when SMTP_PORT (587 when it is not
    set) is not a number; the default sender is never empty: it is SMTP_FROM,
    else SMTP_USER, else noreply@kudupay.com, an empty value counting as
    absent. *)
Theorem mailer_configuration lib file environ :
  let made := fst (fst (SMTPMailer.init lib file environ)) in
  let environ' := loaded lib file environ in
  snd (fst (SMTPMailer.init lib file environ)) = environ' /\
  (int_of_str lib (environ_get "SMTP_PORT" environ' "587") = None ->
   made = Raise (OtherError "ValueError")) /\
  (forall self,
      made = Ok self ->
      configured_by lib environ' self /\
      SMTPMailer.default_from self <> EmptyString /\
      SMTPMailer.default_from self
      = SMTPMailer.or_else (lookup "SMTP_FROM" environ')
          (SMTPMailer.or_else (lookup "SMTP_USER" environ') "noreply@kudupay.com") /\
      (forall s, lookup "SMTP_SERVER" environ = Some s -> SMTPMailer.server self = Some s) /\
      (forall u, lookup "SMTP_USER" environ = Some u -> SMTPMailer.username self = Some u) /\
      (forall p, lookup "SMTP_PASS" environ = Some p -> SMTPMailer.password self = Some p)) /\
  (forall port,
      int_of_str lib (environ_get "SMTP_PORT" environ' "587") = Some port ->
      exists self, made = Ok self /\ SMTPMailer.port self = port).
Proof.
  cbv zeta. unfold SMTPMailer.init, loaded.
  destruct (_load_smtp_env_file_if_present lib file environ) as [environ' logs] eqn:Hload.
  assert (Hkeep : forall k v, lookup k environ = Some v -> lookup k environ' = Some v).
  { intros k v Hk.
    change environ' with (fst (environ', logs)). rewrite <- Hload.
    destruct file as [| lines failure]; [exact Hk |].
    change (lookup k (loaded lib (File lines failure) environ) = Some v).
    rewrite loaded_lines. now apply load_lines_keeps. }
  cbn [fst snd].
  destruct (int_of_str lib (environ_get "SMTP_PORT" environ' "587")) as [port |] eqn:Hport;
    cbn [fst snd].
  - split; [reflexivity |]. split; [discriminate |]. split.
    + intros self [= <-]. cbn. split; [repeat split; exact Hport |].
      split; [apply or_else_nonempty, or_else_nonempty; discriminate |].
      split; [reflexivity |]. repeat split; intros x Hx; now apply Hkeep.
    + intros port' [= <-]. eexists. split; reflexivity.
  - split; [reflexivity |]. split; [reflexivity |]. split; [discriminate | discriminate].
Qed.

Lemma mailer_configuration_witness :
  exists self,
    fst (fst (SMTPMailer.init sample_maillib sample_smtp_env [("SMTP_PORT", "587")]))
    = Ok self /\ SMTPMailer.port self = 587.
Proof.
  exact (proj2 (proj2 (proj2 (mailer_configuration sample_maillib sample_smtp_env
                                [("SMTP_PORT", "587")]))) 587 eq_refl).
Defined.

Lemma string_app_assoc a b c : (a @@ b) @@ c = a @@ b @@ c.
Proof. induction a as [| x a IH]; [reflexivity |]. cbn [String.append]. now rewrite IH. Qed.

(** X26: the welcome mail does not depend on the role of the user, and an
    empty name is treated as no name; a name that is given stands in the
    greeting of the text and, in bold, in that of the HTML; and a result
    [True] means that the server accepted the welcome mail, addressed to the
    recipient alone, from the default sender, during the call: the accepted
    message is among the events that the call added. *)
Theorem welcome_mail menv self to user_name user_role tr :
  let run := SMTPMailer.send_welcome_email menv self to user_name user_role tr in
  (forall role',
      SMTPMailer.send_welcome_email menv self to user_name role'
      = SMTPMailer.send_welcome_email menv self to user_name user_role) /\
  SMTPMailer.send_welcome_email menv self to (Some EmptyString) user_role
  = SMTPMailer.send_welcome_email menv self to None user_role /\
  (forall n,
      user_name = Some n -> n <> EmptyString ->
      contains ("Welcome to KuduPay, " @@ n @@ "!") (welcome_text user_name) = true /\
      contains ("Welcome to KuduPay, <strong>" @@ n @@ "</strong>!") (welcome_html user_name)
      = true) /\
  (fst run = Ok true ->
   exists new, snd run = tr ++ new /\ In (Smtp (welcome_message self to user_name) None) new).
Proof.
  cbv zeta. split; [| split; [| split]].
  - reflexivity.
  - reflexivity.
  - intros n -> Hn. unfold welcome_text, welcome_html, welcome_strong.
    destruct (String.eqb_spec n EmptyString); [contradiction |]. split.
    + match goal with
      | |- contains ?needle ?T = true =>
          match T with
          | _ @@ _ @@ "!" @@ ?rest =>
              assert (HT : T = needle @@ rest)
                by (rewrite !string_app_assoc; reflexivity);
              rewrite HT; apply contains_here
          end
      end.
    + do 13 apply contains_app_r.
      match goal with
      | |- contains ?needle ?T = true =>
          match T with
          | _ @@ _ @@ "!</p>" @@ ?rest =>
              assert (HT : T = "          <p>" @@ needle @@ "</p>" @@ rest)
                by (rewrite !string_app_assoc; reflexivity);
              rewrite HT; apply contains_app_r, contains_here
          end
      end.
  - unfold SMTPMailer.send_welcome_email. intros Htrue.
    destruct (send_email_true _ _ _ _ _ _ _ _ Htrue) as (_ & _ & new & Hsnd & Hmsg & _).
    exists new. split; [exact Hsnd | exact Hmsg].
Qed.

Lemma welcome_mail_witness :
  (contains "Welcome to KuduPay, Wikus!" (welcome_text (Some "Wikus")) = true /\
   contains "Welcome to KuduPay, <strong>Wikus</strong>!" (welcome_html (Some "Wikus")) = true) /\
  exists new,
    snd (SMTPMailer.send_welcome_email (sample_menv plain_server) (sample_mailer false)
           "wikus@example.org" (Some "Wikus") (Some "merchant") []) = [] ++ new /\
    In (Smtp (welcome_message (sample_mailer false) "wikus@example.org" (Some "Wikus")) None)
       new.
Proof.
  split.
  - exact (proj1 (proj2 (proj2 (welcome_mail (sample_menv plain_server) (sample_mailer false)
                                  "wikus@example.org" (Some "Wikus") (Some "merchant") [])))
             "Wikus" eq_refl ltac:(discriminate)).
  - exact (proj2 (proj2 (proj2 (welcome_mail (sample_menv plain_server) (sample_mailer false)
                                  "wikus@example.org" (Some "Wikus") (Some "merchant") [])))
             eq_refl).
Defined.
